(** * Match rates between user and AI issue assessments

    A shallow embedding of [match-rates-script.py] (the three
    [standardize_*] normalisers and [calculate_match_rates]) and of
    [create_comparison_visualization] from [visualize_comparisons.py],
    followed by the properties of the specification that they satisfy
    or fail.

    Conventions of the embedding.
    - A Python [str] is a [string] of 8-bit characters.  The embedding
      covers ASCII text: [upper] changes the letters a-z only, and a
      character above 127 is an opaque symbol that is neither a letter,
      a digit nor white space.
    - [None] or a string, the result type of the normalisers, is
      [option string].
    - A Python computation is a value of [Py A]: what it printed or drew,
      and either the value it returned or the exception it raised.
    - A binary64 number is [pyfloat]; a finite one carries the rational
      that it is.  The rates of [calculate_match_rates] are rounded to
      binary64 after each operation, as numpy computes them; the sums and
      means of the visualisation are exact. *)

From Stdlib Require Import ZArith QArith Qround Qabs Qpower String Ascii List Bool Lia Lqa.
From stdpp Require Import base option list gmap strings pretty.

Local Open Scope string_scope.
Local Open Scope list_scope.

(** ** Python string operations *)

Module PyStr.

Definition is_lower (c : ascii) : bool :=
  let n := N_of_ascii c in ((97 <=? n) && (n <=? 122))%N.

Definition is_digit (c : ascii) : bool :=
  let n := N_of_ascii c in ((48 <=? n) && (n <=? 57))%N.

(** [str.isspace] on the ASCII range: TAB..CR, FS..US and the blank. *)
Definition is_space (c : ascii) : bool :=
  let n := N_of_ascii c in
  (((9 <=? n) && (n <=? 13)) || ((28 <=? n) && (n <=? 32)))%N.

(** C's [isspace], the white space that [float] itself skips. *)
Definition is_c_space (c : ascii) : bool :=
  let n := N_of_ascii c in
  (((9 <=? n) && (n <=? 13)) || (n =? 32))%N.

Definition upper_char (c : ascii) : ascii :=
  if is_lower c then ascii_of_N (N_of_ascii c - 32) else c.

(** [s.upper()] *)
Fixpoint upper (s : string) : string :=
  match s with
  | EmptyString => EmptyString
  | String c s' => String (upper_char c) (upper s')
  end.

(** [sub in s] *)
Fixpoint contains (sub s : string) : bool :=
  String.prefix sub s ||
  match s with
  | EmptyString => false
  | String _ s' => contains sub s'
  end.

(** [c in s] for a one-character [c] *)
Fixpoint contains_char (c : ascii) (s : string) : bool :=
  match s with
  | EmptyString => false
  | String c' s' => Ascii.eqb c c' || contains_char c s'
  end.

(** [s.replace(c, new)] for a one-character [c] *)
Fixpoint replace_char (c : ascii) (new : string) (s : string) : string :=
  match s with
  | EmptyString => EmptyString
  | String c' s' =>
      if Ascii.eqb c c' then new ++ replace_char c new s'
      else String c' (replace_char c new s')
  end.

Fixpoint lstrip_by (sp : ascii -> bool) (s : string) : string :=
  match s with
  | EmptyString => EmptyString
  | String c s' => if sp c then lstrip_by sp s' else s
  end.

Fixpoint rstrip_by (sp : ascii -> bool) (s : string) : string :=
  match s with
  | EmptyString => EmptyString
  | String c s' =>
      match rstrip_by sp s' with
      | EmptyString => if sp c then EmptyString else String c EmptyString
      | r => String c r
      end
  end.

(** [s.strip()] *)
Definition strip (s : string) : string := rstrip_by is_space (lstrip_by is_space s).

(** [sep.join(l)] *)
Fixpoint join (sep : string) (l : list string) : string :=
  match l with
  | [] => EmptyString
  | [x] => x
  | x :: l' => x ++ sep ++ join sep l'
  end.

End PyStr.
Import PyStr.

(** ** Python floats *)

Module PyFloat.

(** A binary64 value.  [FFin q], when it is the result of [parse_float], holds
    the real number that the text denotes; Python holds the binary64
    nearest to it (ties to even). *)
Inductive pyfloat : Type :=
| FNan
| FInf (negative : bool)
| FFin (q : Q).

Fixpoint take_digits (s : string) : string * string :=
  match s with
  | String c s' =>
      if is_digit c then let (d, r) := take_digits s' in (String c d, r)
      else (EmptyString, s)
  | EmptyString => (EmptyString, EmptyString)
  end.

Fixpoint digits_value_from (acc : N) (d : string) : N :=
  match d with
  | EmptyString => acc
  | String c d' => digits_value_from (10 * acc + (N_of_ascii c - 48))%N d'
  end.

Definition digits_value (d : string) : N := digits_value_from 0%N d.

(** Underscores are accepted between two digits only; they are removed
    before the number is read. *)
Fixpoint remove_underscores_from (prev : ascii) (s : string) : option string :=
  match s with
  | EmptyString => if Ascii.eqb prev "_" then None else Some EmptyString
  | String c s' =>
      if Ascii.eqb c "_" then
        if is_digit prev then remove_underscores_from c s' else None
      else
        if Ascii.eqb prev "_" && negb (is_digit c) then None
        else option_map (String c) (remove_underscores_from c s')
  end.

Definition remove_underscores (s : string) : option string :=
  remove_underscores_from zero s.

Definition take_sign (s : string) : bool * string :=
  match s with
  | String "-" s' => (true, s')
  | String "+" s' => (false, s')
  | _ => (false, s)
  end.

Definition scale10 (m : N) (e : Z) : Q := (inject_Z (Z.of_N m) * Qpower (10 # 1) e)%Q.

(** digits [. digits] [E [sign] digits] with a digit before or after the
    point; the whole text must be consumed. *)
Definition parse_decimal (s : string) : option Q :=
  let (ip, r1) := take_digits s in
  let (fp, r2) := match r1 with
                  | String "." r => take_digits r
                  | _ => (EmptyString, r1)
                  end in
  if String.eqb ip "" && String.eqb fp "" then None
  else
    let m := digits_value (ip ++ fp) in
    let shift := Z.of_nat (String.length fp) in
    match r2 with
    | EmptyString => Some (scale10 m (- shift))
    | String c r3 =>
        if Ascii.eqb (upper_char c) "E" then
          let (eneg, r4) := take_sign r3 in
          let (ed, r5) := take_digits r4 in
          if String.eqb ed "" || negb (String.eqb r5 "") then None
          else
            let e := Z.of_N (digits_value ed) in
            Some (scale10 m ((if eneg then - e else e) - shift))
        else None
    end.

(** [float(s)] for a string [s]; [None] stands for [ValueError], the only
    exception it raises on a string. *)
Definition parse_float (s : string) : option pyfloat :=
  match remove_underscores s with
  | None => None
  | Some s1 =>
      let t := rstrip_by is_c_space (lstrip_by is_c_space s1) in
      let (neg, body) := take_sign t in
      let u := upper body in
      if String.eqb u "INF" || String.eqb u "INFINITY" then Some (FInf neg)
      else if String.eqb u "NAN" then Some FNan
      else
        match parse_decimal body with
        | Some q => Some (FFin (if neg then - q else q)%Q)
        | None => None
        end
  end.

(** [x <= k] for an integer [k] whose binary64 significand is even, [h]
    being half the gap between [k] and the next binary64: the binary64
    nearest to [q] is at most [k] exactly when [q <= k + h]. *)
Definition le_after_rounding (x : pyfloat) (k : Z) (h : Q) : bool :=
  match x with
  | FNan => false
  | FInf negative => negative
  | FFin q => Qle_bool q (inject_Z k + h)
  end.

(** [x <= 25]: 25 lies in [16, 32), where binary64 numbers are 2^-48 apart. *)
Definition le_25 (x : pyfloat) : bool := le_after_rounding x 25 (1 # 2 ^ 49).

(** [x <= 75]: 75 lies in [64, 128), where binary64 numbers are 2^-46 apart. *)
Definition le_75 (x : pyfloat) : bool := le_after_rounding x 75 (1 # 2 ^ 47).

(** Arithmetic; a finite result is exact. *)
Definition is_nan (x : pyfloat) : bool :=
  match x with FNan => true | _ => false end.

Definition fadd (x y : pyfloat) : pyfloat :=
  match x, y with
  | FNan, _ | _, FNan => FNan
  | FInf a, FInf b => if Bool.eqb a b then FInf a else FNan
  | FInf a, FFin _ => FInf a
  | FFin _, FInf b => FInf b
  | FFin a, FFin b => FFin (a + b)
  end.

(** [x / n] for a positive count [n] *)
Definition fdiv_count (x : pyfloat) (n : nat) : pyfloat :=
  match x with
  | FFin a => FFin (a / inject_Z (Z.of_nat n))
  | _ => x
  end.

(** [Series.mean()]: NaN entries are skipped; the mean of nothing is NaN. *)
Definition mean (l : list pyfloat) : pyfloat :=
  match List.filter (fun x => negb (is_nan x)) l with
  | [] => FNan
  | xs => fdiv_count (foldl fadd (FFin 0) xs) (length xs)
  end.

Definition is_finite (x : pyfloat) : bool :=
  match x with FFin _ => true | _ => false end.

(** *** Rounding to binary64 *)

(** The integer nearest to [q], a tie going to the even one ([rint]). *)
Definition round_half_even (q : Q) : Z :=
  let f := Qfloor q in
  match (q - inject_Z f ?= 1 # 2)%Q with
  | Lt => f
  | Gt => (f + 1)%Z
  | Eq => if Z.even f then f else (f + 1)%Z
  end.

Definition pow2 (e : Z) : Q := (2 ^ e)%Q.

(** The integer [l] with [2^l <= q < 2^(l+1)], for a positive [q]. *)
Definition ilog2 (q : Q) : Z :=
  let k := (Z.log2 (Qnum q) - Z.log2 (Zpos (Qden q)))%Z in
  if Qle_bool (pow2 k) q then k else (k - 1)%Z.

(** Around [q] the binary64 numbers are [2^e] apart, [e] being this
    exponent: 53 significant bits, and no exponent under -1074. *)
Definition ulp_exponent (q : Q) : Z := Z.max (ilog2 (Qabs q) - 52) (-1074).

(** The binary64 nearest to the real number [q], a tie going to the even
    significand: the result of an arithmetic operation whose exact value is
    [q].  (A magnitude of 2^1024 or more would give an infinity; a rate or a
    count of the script, a numpy int64, stays far below.) *)
Definition binary64 (q : Q) : Q :=
  let q := Qred q in
  let e := ulp_exponent q in
  Qred (inject_Z (round_half_even (q / pow2 e)) * pow2 e).

End PyFloat.
Import PyFloat.

(** ** Python computations: what is shown, and a return value or an exception *)

Module Py.

Inductive exn : Type := ValueError | TypeError | KeyError | IndexError.

Inductive outcome (A : Type) : Type :=
| Return (a : A)
| Raise (e : exn).
Arguments Return {A} a.
Arguments Raise {A} e.

(** What a computation shows: a printed line, or the dashed horizontal
    line drawn over the bars of one metric at height [y]. *)
Inductive event : Type :=
| Printed (line : string)
| AverageLine (metric : string) (y : pyfloat).

Definition Py (A : Type) : Type := (list event * outcome A)%type.

Definition ret {A} (a : A) : Py A := ([], Return a).

Definition raise {A} (e : exn) : Py A := ([], Raise e).

Definition print (line : string) : Py unit := ([Printed line], Return tt).

Definition emit (e : event) : Py unit := ([e], Return tt).

Definition bind {A B} (m : Py A) (k : A -> Py B) : Py B :=
  match m with
  | (out, Return a) => let (out', r) := k a in (out ++ out', r)
  | (out, Raise e) => (out, Raise e)
  end.

(** [try: body  except (e1, e2, ...): handler] *)
Definition try_except {A} (body : Py A) (caught : exn -> bool) (handler : Py A) : Py A :=
  match body with
  | (out, Return a) => (out, Return a)
  | (out, Raise e) =>
      if caught e then let (out', r) := handler in (out ++ out', r)
      else (out, Raise e)
  end.

Definition only_ValueError (e : exn) : bool :=
  match e with ValueError => true | _ => false end.

Definition ValueError_or_TypeError (e : exn) : bool :=
  match e with ValueError | TypeError => true | _ => false end.

(** [Series.apply(f)]: the function is called on every element in order. *)
Fixpoint mapM {A B} (f : A -> Py B) (l : list A) : Py (list B) :=
  match l with
  | [] => ret []
  | x :: l' => bind (f x) (fun y => bind (mapM f l') (fun ys => ret (y :: ys)))
  end.

(** [float(s)] for a string [s] *)
Definition py_float (s : string) : Py pyfloat :=
  match parse_float s with
  | Some x => ret x
  | None => raise ValueError
  end.

End Py.
Import Py.

Notation "'do' x <- m ; k" := (bind m (fun x => k))
  (at level 10, x name, m at level 100, k at level 200).
Notation "'run' m ; k" := (bind m (fun _ => k))
  (at level 10, m at level 100, k at level 200).

(** ** [match-rates-script.py] *)

Module MatchRates.

(** A cell of the input table: [None], the float NaN that [pandas.read_csv]
    stores for an empty field, or text.  (Cells holding other numbers,
    which [str] would render as numerals, are left out.) *)
Inductive pyval : Type :=
| PNone
| PNaN
| PStr (s : string).

(** [str(x)] *)
Definition str (x : pyval) : string :=
  match x with
  | PNone => "None"
  | PNaN => "nan"
  | PStr s => s
  end.

Definition is_None (x : pyval) : bool :=
  match x with PNone => true | _ => false end.

(** [for k, v in table.items(): if k in s: return v] *)
Fixpoint first_contained (table : list (string * string)) (s : string) : option string :=
  match table with
  | [] => None
  | (k, v) :: table' => if contains k s then Some v else first_contained table' s
  end.

(** [for k, v in table.items(): if s == k: return v] *)
Fixpoint first_equal (table : list (string * string)) (s : string) : option string :=
  match table with
  | [] => None
  | (k, v) :: table' => if String.eqb s k then Some v else first_equal table' s
  end.

Definition ai_severity_map : list (string * string) :=
  [ ("CRITICAL (A)", "A - SHOWSTOPPER");
    ("MAJOR (B)", "B - MAJOR");
    ("MINOR (C)", "C - MINOR");
    ("SAFETY", "S - SAFETY ONLY") ].

Definition user_severity_map : list (string * string) :=
  [ ("A - SHOWSTOPPER", "A - SHOWSTOPPER");
    ("B - MAJOR", "B - MAJOR");
    ("C - MINOR", "C - MINOR");
    ("S - SAFETY ONLY", "S - SAFETY ONLY") ].

Definition standardize_severity (severity : pyval) : Py (option string) :=
  if is_None severity then ret None
  else
    let severity := upper (str severity) in
    match first_contained ai_severity_map severity with
    | Some mapped_val => ret (Some mapped_val)
    | None =>
        match first_contained user_severity_map severity with
        | Some mapped_val => ret (Some mapped_val)
        | None => ret (Some severity)
        end
    end.

Definition ai_occurrence_map : list (string * string) :=
  [ ("CERTAIN", "CERTAIN");
    ("VERY FREQUENT", "VERY FREQUENT");
    ("FREQUENT", "FREQUENT");
    ("RARE", "RARE") ].

Definition user_to_ai_map : list (string * string) :=
  [ ("ONCE", "RARE");
    ("RARELY", "RARE");
    ("UNDETERMINED", "RARE");
    ("INTERMITTENT", "RARE");
    ("LOW OCCURRENCE", "RARE");
    ("SOMETIMES", "RARE");
    ("25%", "FREQUENT");
    ("50%", "FREQUENT");
    ("75%", "FREQUENT");
    ("ALWAYS", "CERTAIN");
    ("FREQUENTLY", "FREQUENT") ].

(** The body of the [try] block of [standardize_occurrence]. *)
Definition bucket_percentage (occurrence : string) : Py (option string) :=
  do percentage <- py_float (strip (replace_char "%" "" occurrence));
  if le_25 percentage then ret (Some "FREQUENT")
  else if le_75 percentage then ret (Some "VERY FREQUENT")
  else ret (Some "CERTAIN").

Definition standardize_occurrence (occurrence : pyval) : Py (option string) :=
  if is_None occurrence then ret None
  else
    let occurrence := upper (str occurrence) in
    match first_equal ai_occurrence_map occurrence with
    | Some mapped_val => ret (Some mapped_val)
    | None =>
        match first_equal user_to_ai_map occurrence with
        | Some mapped_val => ret (Some mapped_val)
        | None =>
            if contains_char "%" occurrence then
              try_except (bucket_percentage occurrence) only_ValueError
                         (ret (Some occurrence))
            else ret (Some occurrence)
        end
    end.

Definition ai_priority_map : list (string * string) :=
  [ ("BLOCKER", "BLOCKER");
    ("URGENT", "CRITICAL");
    ("HIGH", "MAJOR");
    ("MEDIUM", "MAJOR");
    ("LOW", "MINOR") ].

Definition user_priority_map : list (string * string) :=
  [ ("BLOCKER", "BLOCKER");
    ("CRITICAL", "CRITICAL");
    ("MAJOR", "MAJOR");
    ("MINOR", "MINOR") ].

Definition standardize_priority (priority : pyval) : Py (option string) :=
  if is_None priority then ret None
  else
    let priority := upper (str priority) in
    match first_equal ai_priority_map priority with
    | Some mapped_val => ret (Some mapped_val)
    | None =>
        match first_equal user_priority_map priority with
        | Some mapped_val => ret (Some mapped_val)
        | None => ret (Some priority)
        end
    end.

(** *** Tables *)

(** A [pandas.DataFrame] of cells: its column labels and its rows.  A row
    gives the cell under each label; only the cells under the labels of
    [columns] belong to the table. *)
Record DataFrame : Type := mkDataFrame {
  columns : list string;
  rows : list (string -> pyval)
}.

(** [col in df.columns] *)
Definition has_column (df : DataFrame) (col : string) : bool :=
  existsb (String.eqb col) (columns df).

(** [df[col]] *)
Definition getitem (df : DataFrame) (col : string) : Py (list pyval) :=
  if has_column df col then ret (map (fun r => r col) (rows df))
  else raise KeyError.

(** [a == b] on two columns of canonical labels: a comparison with a null
    on either side is false. *)
Definition eq_elem (a b : option string) : bool :=
  match a, b with
  | Some x, Some y => String.eqb x y
  | _, _ => false
  end.

Definition eq_series (a b : list (option string)) : list bool := zip_with eq_elem a b.

(** [a & b] on two Boolean columns *)
Definition and_series (a b : list bool) : list bool := zip_with andb a b.

(** [col.sum()] on a Boolean column *)
Definition sum_series (col : list bool) : nat := length (List.filter id col).

(** [notna()] on one canonical label *)
Definition notna (v : option string) : bool :=
  match v with Some _ => true | None => false end.

(** [frame.all(axis=1)] on a Boolean frame of [n] rows given by its columns *)
Definition all_axis1 (n : nat) (frame : list (list bool)) : list bool :=
  foldr (zip_with andb) (replicate n true) frame.

(** [metrics_df[[c1, ..., ck]].notna().all(axis=1).sum()] *)
Definition notna_all_sum (n : nat) (frame : list (list (option string))) : nat :=
  sum_series (all_axis1 n (map (map notna) frame)).

(** [(flags.sum() / valid * 100) if valid > 0 else 0].  The two counts are
    numpy integers: they are converted to binary64, and the quotient and
    the product are binary64 operations. *)
Definition match_rate (flags : list bool) (valid : nat) : Q :=
  if (0 <? valid)%nat
  then binary64 (binary64 (binary64 (inject_Z (Z.of_nat (sum_series flags)))
                           / binary64 (inject_Z (Z.of_nat valid))) * 100)
  else 0%Q.

(** [round(q, ndigits)] as numpy rounds a float64: multiply by
    [10**ndigits], round to the nearest integer ([rint]), divide by
    [10**ndigits], each in binary64.  (On the integer 0, the rate over
    no valid comparison, Python's own [round] gives 0 as well.) *)
Definition round (q : Q) (ndigits : nat) : Q :=
  let scale := inject_Z (10 ^ Z.of_nat ndigits) in
  binary64 (inject_Z (round_half_even (binary64 (q * scale))) / scale).

(** The frame [metrics_df] as it is returned. *)
Record MetricsFrame : Type := mkMetricsFrame {
  user_severity : list pyval;
  ai_severity : list pyval;
  user_occurrence : list pyval;
  ai_occurrence : list pyval;
  user_priority : list pyval;
  ai_priority : list pyval;
  user_severity_std : list (option string);
  ai_severity_std : list (option string);
  user_occurrence_std : list (option string);
  ai_occurrence_std : list (option string);
  user_priority_std : list (option string);
  ai_priority_std : list (option string);
  severity_match : list bool;
  occurrence_match : list bool;
  priority_match : list bool;
  all_match : list bool
}.

(** The dictionary [results]. *)
Record Results : Type := mkResults {
  Severity_Match_Rate : Q;
  Occurrence_Match_Rate : Q;
  Priority_Match_Rate : Q;
  Overall_Match_Rate : Q;
  Total_Issues_Analyzed : nat;
  Valid_Severity_Comparisons : nat;
  Valid_Occurrence_Comparisons : nat;
  Valid_Priority_Comparisons : nat
}.

Definition required_columns : list string :=
  [ "user_severity"; "ai_severity";
    "user_occurrence"; "ai_occurrence";
    "user_priority"; "ai_priority" ].

Definition missing_columns (df : DataFrame) : list string :=
  List.filter (fun col => negb (has_column df col)) required_columns.

(** The denominator [valid_all] of the overall rate. *)
Definition valid_all (n : nat) (m : MetricsFrame) : nat :=
  notna_all_sum n [ user_severity_std m; ai_severity_std m;
                    user_occurrence_std m; ai_occurrence_std m;
                    user_priority_std m; ai_priority_std m ].

Definition calculate_match_rates (df : DataFrame)
  : Py (option (Results * MetricsFrame)) :=
  match missing_columns df with
  | (_ :: _) as missing =>
      run print ("Warning: Missing columns in CSV: " +:+ join ", " missing);
      ret None
  | [] =>
      let n := length (rows df) in
      do user_severity <- getitem df "user_severity";
      do ai_severity <- getitem df "ai_severity";
      do user_occurrence <- getitem df "user_occurrence";
      do ai_occurrence <- getitem df "ai_occurrence";
      do user_priority <- getitem df "user_priority";
      do ai_priority <- getitem df "ai_priority";
      do user_severity_std <- mapM standardize_severity user_severity;
      do ai_severity_std <- mapM standardize_severity ai_severity;
      do user_occurrence_std <- mapM standardize_occurrence user_occurrence;
      do ai_occurrence_std <- mapM standardize_occurrence ai_occurrence;
      do user_priority_std <- mapM standardize_priority user_priority;
      do ai_priority_std <- mapM standardize_priority ai_priority;
      let severity_match := eq_series user_severity_std ai_severity_std in
      let occurrence_match := eq_series user_occurrence_std ai_occurrence_std in
      let priority_match := eq_series user_priority_std ai_priority_std in
      let valid_severity := notna_all_sum n [user_severity_std; ai_severity_std] in
      let valid_occurrence := notna_all_sum n [user_occurrence_std; ai_occurrence_std] in
      let valid_priority := notna_all_sum n [user_priority_std; ai_priority_std] in
      let severity_match_rate := match_rate severity_match valid_severity in
      let occurrence_match_rate := match_rate occurrence_match valid_occurrence in
      let priority_match_rate := match_rate priority_match valid_priority in
      let all_match :=
        and_series (and_series severity_match occurrence_match) priority_match in
      let metrics_df :=
        mkMetricsFrame user_severity ai_severity user_occurrence ai_occurrence
                       user_priority ai_priority
                       user_severity_std ai_severity_std
                       user_occurrence_std ai_occurrence_std
                       user_priority_std ai_priority_std
                       severity_match occurrence_match priority_match all_match in
      let overall_match_rate := match_rate all_match (valid_all n metrics_df) in
      let results :=
        mkResults (round severity_match_rate 2)
                  (round occurrence_match_rate 2)
                  (round priority_match_rate 2)
                  (round overall_match_rate 2)
                  (length (rows df))
                  valid_severity valid_occurrence valid_priority in
      ret (Some (results, metrics_df))
  end.

End MatchRates.
Import MatchRates.


(** ** [visualize_comparisons.py] *)

Module Visualize.

(** A value stored in a measurement dictionary: a number, text (a field of
    a CSV file that is not numeric), or [None]. *)
Inductive pyobj : Type :=
| ONum (x : pyfloat)
| OStr (s : string)
| ONone.

(** [float(v)] *)
Definition to_float (v : pyobj) : Py pyfloat :=
  match v with
  | ONum x => ret x
  | OStr s => py_float s
  | ONone => raise TypeError
  end.

(** [data.get(key, data.get(alt, 0))] *)
Definition get_rate (data : gmap string pyobj) (key alt : string) : pyobj :=
  default (default (ONum (FFin 0)) (data !! alt)) (data !! key).

(** [labels[i] if labels and i < len(labels) else f"Measurement {i+1}"] *)
Definition label_of (labels : option (list string)) (i : nat) : string :=
  match labels with
  | Some l => default ("Measurement " +:+ pretty (S i)) (l !! i)
  | None => "Measurement " +:+ pretty (S i)
  end.

(** One dictionary of [df_data], a row of the long frame [df]. *)
Record LongRow : Type := mkLongRow {
  Measurement : string;
  Metric : string;
  Match_Rate : pyfloat
}.

(** A measurement that passed the conversion to float. *)
Record Measured : Type := mkMeasured {
  label : string;
  severity : pyfloat;
  occurrence : pyfloat;
  priority : pyfloat
}.

(** The body of the first loop up to the appends: the conversion, or the
    warning and [continue]. *)
Definition convert (labels : option (list string)) (i : nat) (data : gmap string pyobj)
  : Py (option Measured) :=
  let label := label_of labels i in
  let severity := get_rate data "Severity Match Rate (%)" "severity_match_rate" in
  let occurrence := get_rate data "Occurrence Match Rate (%)" "occurrence_match_rate" in
  let priority := get_rate data "Priority Match Rate (%)" "priority_match_rate" in
  try_except
    (do severity <- to_float severity;
     do occurrence <- to_float occurrence;
     do priority <- to_float priority;
     ret (Some (mkMeasured label severity occurrence priority)))
    ValueError_or_TypeError
    (run print ("Warning: Could not convert values to float for " +:+ label);
     ret None).

(** The three appends of the loop body. *)
Definition three_rows (m : Measured) : list LongRow :=
  [ mkLongRow (label m) "Severity" (severity m);
    mkLongRow (label m) "Occurrence" (occurrence m);
    mkLongRow (label m) "Priority" (priority m) ].

(** [for i, data in enumerate(data_list): ...], from index [i] on. *)
Fixpoint build_df_data (labels : option (list string)) (i : nat)
    (data_list : list (gmap string pyobj)) (df_data : list LongRow)
  : Py (list LongRow) :=
  match data_list with
  | [] => ret df_data
  | data :: rest =>
      do converted <- convert labels i data;
      match converted with
      | None => build_df_data labels (S i) rest df_data
      | Some m => build_df_data labels (S i) rest (df_data ++ three_rows m)
      end
  end.

(** [df[df['Metric'] == metric]['Match Rate (%)']] *)
Definition rates_of (df : list LongRow) (metric : string) : list pyfloat :=
  map Match_Rate (List.filter (fun r => String.eqb (Metric r) metric) df).

(** A rectangle of [chart.patches]: a bar, or the handle that the legend
    keeps for a measurement. *)
Inductive patch : Type :=
| Bar (measurement metric : string)
| LegendHandle (measurement : string).

(** The distinct texts of a list, in the order of their first appearance. *)
Fixpoint unique (l : list string) : list string :=
  match l with
  | [] => []
  | x :: l' => x :: List.filter (fun y => negb (String.eqb y x)) (unique l')
  end.

(** [chart.patches] after
    [sns.barplot(x='Metric', y='Match Rate (%)', hue='Measurement', data=df)]
    on a frame that has rows.  The rows whose rate is not finite are left
    out of the plot.  Then, measurement by measurement, one bar is drawn
    for each metric of which a row is left, and in the end the legend adds
    one handle for each measurement. *)
Definition barplot (df : list LongRow) : list patch :=
  let drawn := List.filter (fun r => is_finite (Match_Rate r)) df in
  let has_bar measurement metric :=
    existsb (fun r => String.eqb (Measurement r) measurement
                      && String.eqb (Metric r) metric) drawn in
  let measurements := unique (map Measurement df) in
  let metrics := unique (map Metric df) in
  flat_map (fun measurement =>
              map (Bar measurement) (List.filter (has_bar measurement) metrics))
           measurements
  ++ map LegendHandle measurements.

(** [df[df['Metric'] == metric].index[0]]: the position of the first row of
    the metric; [None] when there is no such row. *)
Fixpoint first_index (metric : string) (df : list LongRow) : option nat :=
  match df with
  | [] => None
  | r :: df' =>
      if String.eqb (Metric r) metric then Some 0%nat
      else option_map S (first_index metric df')
  end.

(** [for metric in [...]: ...]: the mean of the metric; the rectangle of
    [chart.patches] at the position of the first row of the metric, an
    [IndexError] when [chart.patches] is shorter; then one dashed line at
    the mean. *)
Fixpoint average_lines (patches : list patch) (df : list LongRow)
    (metrics : list string) : Py unit :=
  match metrics with
  | [] => ret tt
  | metric :: rest =>
      let metric_avg := mean (rates_of df metric) in
      match first_index metric df with
      | None => raise IndexError
      | Some i =>
          match patches !! i with
          | None => raise IndexError
          | Some _ =>
              run emit (AverageLine metric metric_avg);
              average_lines patches df rest
          end
      end
  end.

(** [df.pivot(index='Measurement', columns='Metric', values='Match Rate (%)')]:
    the frame indexed by measurement whose columns are the metrics; two
    rows of [df] with the same measurement and metric are an error. *)
Fixpoint pivot (df : list LongRow) : Py (gmap string (gmap string pyfloat)) :=
  match df with
  | [] => ret ∅
  | r :: rest =>
      do t <- pivot rest;
      let row := default ∅ (t !! Measurement r) in
      match row !! Metric r with
      | Some _ => raise ValueError
      | None => ret (<[Measurement r := <[Metric r := Match_Rate r]> row]> t)
      end
  end.

(** The column labels of a pivoted frame. *)
Definition pivot_columns (t : gmap string (gmap string pyfloat)) : gset string :=
  ⋃ ((fun entry => dom (snd entry)) <$> map_to_list t).

(** [pivot_df[metric]] without its missing cells *)
Definition pivot_column (t : gmap string (gmap string pyfloat)) (metric : string)
  : list pyfloat :=
  omap (fun entry => snd entry !! metric) (map_to_list t).

(** [pivot_df.mean(axis=0)] *)
Definition mean_axis0 (t : gmap string (gmap string pyfloat)) : gmap string pyfloat :=
  set_to_map (fun metric => (metric, mean (pivot_column t metric))) (pivot_columns t).

(** [create_comparison_visualization(data_list, labels)].  Of its effects the
    model keeps the warnings and the average lines, and it returns the
    frame [pivot_df] that the source prints and saves ([None] after the
    early [return]).  Of the chart it keeps the rectangles that the loop
    of the average lines looks up; the texts and the files written are
    not part of the model. *)
Definition create_comparison_visualization
    (data_list : list (gmap string pyobj)) (labels : option (list string))
  : Py (option (gmap string (gmap string pyfloat))) :=
  match data_list with
  | [] =>
      run print "Error: No data provided for visualization";
      ret None
  | _ =>
      do df <- build_df_data labels 0 data_list [];
      (* [sns.barplot] cannot find the column 'Metric' in an empty frame *)
      do chart <- (match df with [] => raise ValueError | _ => ret (barplot df) end);
      run average_lines chart df ["Severity"; "Occurrence"; "Priority"];
      do pivot_df <- pivot df;
      let metric_averages := mean_axis0 pivot_df in
      let pivot_df := <["AVERAGE" := metric_averages]> pivot_df in
      ret (Some pivot_df)
  end.

End Visualize.
Import Visualize.


(** ** More Python string and path operations *)

Module PyText.

Definition is_upper (c : ascii) : bool :=
  let n := N_of_ascii c in ((65 <=? n) && (n <=? 90))%N.

Definition lower_char (c : ascii) : ascii :=
  if is_upper c then ascii_of_N (N_of_ascii c + 32) else c.

(** [s.lower()] *)
Fixpoint lower (s : string) : string :=
  match s with
  | EmptyString => EmptyString
  | String c s' => String (lower_char c) (lower s')
  end.

(** The line feed, written ['\n'] in the source. *)
Definition LF : ascii := ascii_of_nat 10.

(** [s.endswith(suffix)] *)
Fixpoint endswith (s suffix : string) : bool :=
  String.eqb s suffix ||
  match s with
  | EmptyString => false
  | String _ s' => endswith s' suffix
  end.

(** [s.split(sep)] for a one-character [sep] *)
Fixpoint split_char (sep : ascii) (s : string) : list string :=
  match s with
  | EmptyString => [EmptyString]
  | String c s' =>
      if Ascii.eqb c sep then EmptyString :: split_char sep s'
      else
        match split_char sep s' with
        | piece :: pieces => String c piece :: pieces
        | [] => [String c EmptyString]
        end
  end.

(** [s.replace(old, new)] for a non-empty [old], reading [s] from the left;
    [skip] characters of a replaced occurrence are still to be passed. *)
Fixpoint replace_from (old new : string) (skip : nat) (s : string) : string :=
  match s with
  | EmptyString => EmptyString
  | String c s' =>
      match skip with
      | S skip' => replace_from old new skip' s'
      | O =>
          if String.prefix old s
          then (new ++ replace_from old new (String.length old - 1) s')%string
          else String c (replace_from old new 0 s')
      end
  end.

(** [s.replace("", new)]: [new] before every character and at the end. *)
Fixpoint interleave (new : string) (s : string) : string :=
  match s with
  | EmptyString => new
  | String c s' => (new ++ String c (interleave new s'))%string
  end.

(** [s.replace(old, new)] *)
Definition replace (s old new : string) : string :=
  match old with
  | EmptyString => interleave new s
  | _ => replace_from old new 0 s
  end.

(** [s.rfind(c)] for a one-character [c]; [None] stands for -1. *)
Fixpoint rfind_char (c : ascii) (s : string) : option nat :=
  match s with
  | EmptyString => None
  | String c' s' =>
      match rfind_char c s' with
      | Some i => Some (S i)
      | None => if Ascii.eqb c c' then Some 0%nat else None
      end
  end.

(** [os.path.basename(p)] of [posixpath]: what follows the last slash. *)
Definition basename (p : string) : string :=
  match rfind_char "/" p with
  | Some i => String.substring (S i) (String.length p - S i) p
  | None => p
  end.

(** [os.path.splitext(p)] of [posixpath]: the extension starts at the last
    dot of the last component, unless only dots precede it there. *)
Definition splitext (p : string) : string * string :=
  match rfind_char "." p with
  | None => (p, EmptyString)
  | Some dotIndex =>
      let filenameIndex :=
        match rfind_char "/" p with Some sepIndex => S sepIndex | None => 0%nat end in
      if (filenameIndex <=? dotIndex)%nat
         && negb (String.eqb (String.substring filenameIndex (dotIndex - filenameIndex) p)
                             (string_of_list_ascii
                                (List.repeat "."%char (dotIndex - filenameIndex))))
      then (String.substring 0 dotIndex p,
            String.substring dotIndex (String.length p - dotIndex) p)
      else (p, EmptyString)
  end.

End PyText.
Import PyText.

(** ** [visualize_comparisons.py]: reading measurements back *)

Module ReadBack.

(** What the handler [except Exception as e] of a parser reports.  (The
    text of the printed message is not part of the model.) *)
Inductive parse_error : Type :=
| CannotOpen      (* [open] or [pd.read_csv] raised *)
| BadNumber       (* [float] raised [ValueError] *)
| NoFirstRow.     (* [iloc[0]] raised [IndexError] *)

(** The text files that can be opened, by path, with the text that
    [f.read()] returns. *)
Definition text_files : Type := gmap string string.

(** The body of the loop of [parse_txt_file] for one line: nothing to
    store, a rate to store under a key, or the [ValueError] of [float]. *)
Inductive line_outcome : Type :=
| Nothing
| Store (key : string) (value : pyfloat)
| Failure.

(** [parts = line.split(':')], then
    [if len(parts) > 1: match_rates[key] = float(parts[1].strip())] *)
Definition store_rate (key line : string) : line_outcome :=
  let parts := split_char ":" line in
  if (1 <? length parts)%nat then
    match parse_float (strip (nth 1 parts EmptyString)) with
    | Some value => Store key value
    | None => Failure
    end
  else Nothing.

Definition parse_line (line : string) : line_outcome :=
  if contains "Severity Match Rate" line then
    store_rate "Severity Match Rate (%)" line
  else if contains "Occurrence Match Rate" line then
    store_rate "Occurrence Match Rate (%)" line
  else if contains "Priority Match Rate" line then
    store_rate "Priority Match Rate (%)" line
  else Nothing.

(** [for line in content.split('\n'): ...] on the dictionary built so far;
    an exception ends the loop and leaves the dictionary as it is. *)
Fixpoint parse_lines (lines : list string) (match_rates : gmap string pyobj)
  : gmap string pyobj * option parse_error :=
  match lines with
  | [] => (match_rates, None)
  | line :: rest =>
      match parse_line line with
      | Nothing => parse_lines rest match_rates
      | Store key value => parse_lines rest (<[key := ONum value]> match_rates)
      | Failure => (match_rates, Some BadNumber)
      end
  end.

(** [parse_txt_file(file_path)]: the dictionary returned and the error
    reported, if any. *)
Definition parse_txt_file (fs : text_files) (file_path : string)
  : gmap string pyobj * option parse_error :=
  match fs !! file_path with
  | None => (∅, Some CannotOpen)
  | Some content => parse_lines (split_char LF content) ∅
  end.

(** The frame that [pd.read_csv] returns: its column labels and its rows,
    a row giving the cell under each label. *)
Record CsvFrame : Type := mkCsvFrame {
  csv_columns : list string;
  csv_rows : list (string -> pyobj)
}.

(** [for col in df.columns: ...] of [parse_csv_file] on the dictionary
    built so far; [None] when [df[col].iloc[0]] raises. *)
Fixpoint pick_columns (df : CsvFrame) (cols : list string)
    (match_rates : gmap string pyobj) : option (gmap string pyobj) :=
  match cols with
  | [] => Some match_rates
  | col :: rest =>
      let store key :=
        match csv_rows df with
        | first :: _ => pick_columns df rest (<[key := first col]> match_rates)
        | [] => None
        end in
      if contains "severity" (lower col) && contains "match" (lower col)
         && contains "rate" (lower col)
      then store "Severity Match Rate (%)"
      else if contains "occurrence" (lower col) && contains "match" (lower col)
              && contains "rate" (lower col)
      then store "Occurrence Match Rate (%)"
      else if contains "priority" (lower col) && contains "match" (lower col)
              && contains "rate" (lower col)
      then store "Priority Match Rate (%)"
      else pick_columns df rest match_rates
  end.

(** [parse_csv_file(file_path)], given what [pd.read_csv(file_path)] does:
    [None] when it raises.  An exception anywhere gives the empty
    dictionary. *)
Definition parse_csv_file (read_csv : string -> option CsvFrame) (file_path : string)
  : gmap string pyobj * option parse_error :=
  match read_csv file_path with
  | None => (∅, Some CannotOpen)
  | Some df =>
      match pick_columns df (csv_columns df) ∅ with
      | Some match_rates => (match_rates, None)
      | None => (∅, Some NoFirstRow)
      end
  end.

(** What the loop of [main] over [args.files] notes about a file. *)
Inductive note : Type :=
| Unsupported (file_path : string)
| Reported (file_path : string) (e : parse_error).

(** [if data:] for a dictionary *)
Definition is_empty_dict (data : gmap string pyobj) : bool :=
  bool_decide (data = ∅).

(** The state of the loop of [main] over [args.files]. *)
Record Loaded : Type := mkLoaded {
  data_list : list (gmap string pyobj);
  labels : list string;
  notes : list note
}.

(** [for i, file_path in enumerate(args.files): ...], from index [i] on. *)
Fixpoint load_files (fs : text_files) (read_csv : string -> option CsvFrame)
    (i : nat) (files : list string) (st : Loaded) : Loaded :=
  match files with
  | [] => st
  | file_path :: rest =>
      let parsed :=
        if endswith file_path ".txt" then Some (parse_txt_file fs file_path)
        else if endswith file_path ".csv" then Some (parse_csv_file read_csv file_path)
        else None in
      match parsed with
      | None =>
          load_files fs read_csv (S i) rest
            (mkLoaded (data_list st) (labels st) (notes st ++ [Unsupported file_path]))
      | Some (data, err) =>
          let notes' :=
            match err with
            | Some e => notes st ++ [Reported file_path e]
            | None => notes st
            end in
          if is_empty_dict data then
            load_files fs read_csv (S i) rest (mkLoaded (data_list st) (labels st) notes')
          else
            let labels' :=
              if (length (labels st) <=? i)%nat
              then labels st ++ [basename file_path]
              else labels st in
            load_files fs read_csv (S i) rest
              (mkLoaded (data_list st ++ [data]) labels' notes')
      end
  end.

(** The part of [main] before the manual entry: [labels = args.labels or []]
    and the loop over [args.files] ([None] for an absent option). *)
Definition load (fs : text_files) (read_csv : string -> option CsvFrame)
    (args_files args_labels : option (list string)) : Loaded :=
  load_files fs read_csv 0 (default [] args_files)
             (mkLoaded [] (default [] args_labels) []).

(** The paths of the comparison table next to the chart:
    [output_file.replace('.png', '.csv').replace('.jpg', '.csv')] and the
    same with ['.xlsx']. *)
Definition csv_output (output_file : string) : string :=
  replace (replace output_file ".png" ".csv") ".jpg" ".csv".

Definition excel_output (output_file : string) : string :=
  replace (replace output_file ".png" ".xlsx") ".jpg" ".xlsx".

End ReadBack.
Import ReadBack.

(** ** [match-rates-script.py]: the files written by [main] *)

Module OutputFiles.

(** The options of the command line that decide the files written. *)
Record Args : Type := mkArgs {
  csv_file : string;
  detailed : bool;
  output : bool;
  output_file : option string
}.

(** [f"{input_base}_match_rates_{timestamp}.csv"], [timestamp] being
    [datetime.now().strftime("%Y%m%d_%H%M%S")]. *)
Definition auto_name (csv_file timestamp : string) : string :=
  let input_base := fst (splitext (basename csv_file)) in
  (input_base ++ "_match_rates_" ++ timestamp ++ ".csv")%string.

(** The name under which the results are saved, if they are:
    [if args.output: ... elif args.output_file: ...], then [if output_file:]. *)
Definition chosen_output (args : Args) (timestamp : string) : option string :=
  let output_file :=
    if output args then Some (auto_name (csv_file args) timestamp)
    else
      match output_file args with
      | Some name => if String.eqb name "" then None else Some name
      | None => None
      end in
  match output_file with
  | Some name => if String.eqb name "" then None else Some name
  | None => None
  end.

(** The four things [main] can write. *)
Inductive report : Type :=
| ResultsTable      (* [results_df.to_csv(output_file, index=False)] *)
| TextReport        (* the lines ["{metric}: {value}"] *)
| DetailedTable     (* [metrics_df.to_csv(detailed_output, index=False)] *)
| DetailedText.     (* the three cross tabulations *)

(** The files that lines 273-327 open for writing, in that order. *)
Definition output_files (args : Args) (timestamp : string) : list (string * report) :=
  match chosen_output args timestamp with
  | None => []
  | Some output_file =>
      let txt_output_file := replace output_file ".csv" ".txt" in
      [(output_file, ResultsTable); (txt_output_file, TextReport)] ++
      (if detailed args then
         let detailed_output := replace output_file ".csv" "_detailed.csv" in
         let detailed_txt_output := replace txt_output_file ".txt" "_detailed.txt" in
         [(detailed_output, DetailedTable); (detailed_txt_output, DetailedText)]
       else [])
  end.

(** What [main] meets outside the program: the table that [pd.read_csv]
    builds from a path ([None] when it raises), the text of the three
    cross tabulations of a frame ([None] when [pd.crosstab] raises), and
    the paths that can be opened for writing. *)
Record World : Type := mkWorld {
  csv_table : string -> option DataFrame;
  cross_tables : MetricsFrame -> option string;
  can_write : string -> bool
}.

(** Files opened one after the other: a path that cannot be opened raises,
    and the files after it are not reached. *)
Fixpoint write_all (can_write : string -> bool) (files : list (string * report))
  : list (string * report) :=
  match files with
  | [] => []
  | file :: rest =>
      if can_write (fst file) then file :: write_all can_write rest else []
  end.

(** The files [main] writes, in the order it writes them.  The whole of
    [main] runs inside [try: ... except Exception as e: print(...)]: an
    exception ends it, with what was written before. *)
Definition written (world : World) (args : Args) (timestamp : string)
  : list (string * report) :=
  match csv_table world (csv_file args) with
  | None => []                              (* [pd.read_csv] raises *)
  | Some df =>
      match snd (calculate_match_rates df) with
      | Return (Some (results, metrics_df)) =>
          (* [if results:] holds: [results] has its eight entries *)
          match detailed args, cross_tables world metrics_df with
          | true, None => []                (* [print_detailed_breakdown] raises *)
          | _, _ => write_all (can_write world) (output_files args timestamp)
          end
      | Return None => []                   (* unpacking [None] raises [TypeError] *)
      | Raise _ => []
      end
  end.

(** What is on disk after the writes: each file opened for writing replaces
    what was under its path. *)
Definition on_disk (writes : list (string * report)) : gmap string report :=
  foldl (fun disk w => <[fst w := snd w]> disk) ∅ writes.

(** The text report: the title, an empty line, then one line
    ["{metric}: {value}"] per entry of [results]; [show_rate] and [show_count]
    are [str] on a rate and on a count. *)
Definition text_report (show_rate : Q -> string) (show_count : nat -> string)
    (results : Results) : string :=
  let line (metric value : string) : string :=
    (metric ++ ": " ++ value ++ String LF "")%string in
  ("=== MATCH RATE RESULTS ===" ++ String LF (String LF "")
   ++ line "Severity Match Rate (%)" (show_rate (Severity_Match_Rate results))
   ++ line "Occurrence Match Rate (%)" (show_rate (Occurrence_Match_Rate results))
   ++ line "Priority Match Rate (%)" (show_rate (Priority_Match_Rate results))
   ++ line "Overall Match Rate (%)" (show_rate (Overall_Match_Rate results))
   ++ line "Total Issues Analyzed" (show_count (Total_Issues_Analyzed results))
   ++ line "Valid Severity Comparisons" (show_count (Valid_Severity_Comparisons results))
   ++ line "Valid Occurrence Comparisons" (show_count (Valid_Occurrence_Comparisons results))
   ++ line "Valid Priority Comparisons" (show_count (Valid_Priority_Comparisons results))
  )%string.

(** [pd.DataFrame([results])], the one-row table that is saved: the eight
    entries of [results] as columns, the counts as numbers. *)
Definition results_frame (results : Results) : CsvFrame :=
  let number (n : nat) : pyobj := ONum (FFin (inject_Z (Z.of_nat n))) in
  mkCsvFrame
    [ "Severity Match Rate (%)"; "Occurrence Match Rate (%)";
      "Priority Match Rate (%)"; "Overall Match Rate (%)";
      "Total Issues Analyzed"; "Valid Severity Comparisons";
      "Valid Occurrence Comparisons"; "Valid Priority Comparisons" ]
    [ fun col =>
        if String.eqb col "Severity Match Rate (%)"
        then ONum (FFin (Severity_Match_Rate results))
        else if String.eqb col "Occurrence Match Rate (%)"
        then ONum (FFin (Occurrence_Match_Rate results))
        else if String.eqb col "Priority Match Rate (%)"
        then ONum (FFin (Priority_Match_Rate results))
        else if String.eqb col "Overall Match Rate (%)"
        then ONum (FFin (Overall_Match_Rate results))
        else if String.eqb col "Total Issues Analyzed"
        then number (Total_Issues_Analyzed results)
        else if String.eqb col "Valid Severity Comparisons"
        then number (Valid_Severity_Comparisons results)
        else if String.eqb col "Valid Occurrence Comparisons"
        then number (Valid_Occurrence_Comparisons results)
        else if String.eqb col "Valid Priority Comparisons"
        then number (Valid_Priority_Comparisons results)
        else ONone ].

End OutputFiles.
Import OutputFiles.

(** * Vocabulary of the statements *)

(** ** Values returned and labels *)

(** The value a computation returns, [d] if it raises. *)
Definition returned {A} (d : A) (m : Py A) : A :=
  match snd m with
  | Return a => a
  | Raise _ => d
  end.

(** The canonical label of a cell, as each normaliser returns it. *)
Definition severity_label (x : pyval) : option string :=
  returned None (standardize_severity x).
Definition occurrence_label (x : pyval) : option string :=
  returned None (standardize_occurrence x).
Definition priority_label (x : pyval) : option string :=
  returned None (standardize_priority x).

(** Every label that a table can produce. *)
Definition table_values (table : list (string * string)) : list string := map snd table.

(** The labels the numeric fallback can produce. *)
Definition bucket_labels : list string := ["FREQUENT"; "VERY FREQUENT"; "CERTAIN"].

(** The six canonical values of a row. *)
Definition six_labels (r : string -> pyval) : list (option string) :=
  [ severity_label (r "user_severity"); severity_label (r "ai_severity");
    occurrence_label (r "user_occurrence"); occurrence_label (r "ai_occurrence");
    priority_label (r "user_priority"); priority_label (r "ai_priority") ].

(** "Both canonical values are non-null and equal as strings." *)
Definition both_equal (a b : option string) : Prop :=
  exists s, a = Some s /\ b = Some s.

(** ** The frame and the results in terms of the rows *)

(** The columns of the returned frame, row by row. *)
Record frame_of (df : DataFrame) (m : MetricsFrame) : Prop := {
  fo_user_severity : user_severity_std m =
    map (fun r => severity_label (r "user_severity")) (rows df);
  fo_ai_severity : ai_severity_std m =
    map (fun r => severity_label (r "ai_severity")) (rows df);
  fo_user_occurrence : user_occurrence_std m =
    map (fun r => occurrence_label (r "user_occurrence")) (rows df);
  fo_ai_occurrence : ai_occurrence_std m =
    map (fun r => occurrence_label (r "ai_occurrence")) (rows df);
  fo_user_priority : user_priority_std m =
    map (fun r => priority_label (r "user_priority")) (rows df);
  fo_ai_priority : ai_priority_std m =
    map (fun r => priority_label (r "ai_priority")) (rows df);
  fo_severity_match : severity_match m =
    eq_series (user_severity_std m) (ai_severity_std m);
  fo_occurrence_match : occurrence_match m =
    eq_series (user_occurrence_std m) (ai_occurrence_std m);
  fo_priority_match : priority_match m =
    eq_series (user_priority_std m) (ai_priority_std m);
  fo_all_match : all_match m =
    and_series (and_series (severity_match m) (occurrence_match m)) (priority_match m)
}.

(** The entries of [results] in terms of the returned frame. *)
Record results_of (df : DataFrame) (m : MetricsFrame) (res : Results) : Prop := {
  ro_valid_severity : Valid_Severity_Comparisons res =
    notna_all_sum (length (rows df)) [user_severity_std m; ai_severity_std m];
  ro_valid_occurrence : Valid_Occurrence_Comparisons res =
    notna_all_sum (length (rows df)) [user_occurrence_std m; ai_occurrence_std m];
  ro_valid_priority : Valid_Priority_Comparisons res =
    notna_all_sum (length (rows df)) [user_priority_std m; ai_priority_std m];
  ro_severity_rate : Severity_Match_Rate res =
    round (match_rate (severity_match m) (Valid_Severity_Comparisons res)) 2;
  ro_occurrence_rate : Occurrence_Match_Rate res =
    round (match_rate (occurrence_match m) (Valid_Occurrence_Comparisons res)) 2;
  ro_priority_rate : Priority_Match_Rate res =
    round (match_rate (priority_match m) (Valid_Priority_Comparisons res)) 2;
  ro_overall_rate : Overall_Match_Rate res =
    round (match_rate (all_match m) (valid_all (length (rows df)) m)) 2;
  ro_total : Total_Issues_Analyzed res = length (rows df)
}.

(** ** Rows counted in the words of the claims *)

(** "Both canonical values are non-null." *)
Definition both_present (a b : option string) : Prop := a <> None /\ b <> None.

(** "Both canonical values are non-null and equal as strings", in a form
    that can be decided. *)
Definition present_and_equal (a b : option string) : Prop :=
  a <> None /\ b <> None /\ a = b.

#[global] Instance both_present_dec a b : Decision (both_present a b) :=
  (_ : Decision (a <> None /\ b <> None)).

#[global] Instance present_and_equal_dec a b : Decision (present_and_equal a b) :=
  (_ : Decision (a <> None /\ b <> None /\ a = b)).

(** The rate that the code computes from two counts: the quotient and the
    product in binary64. *)
Definition rate_of (matches valid : nat) : Q :=
  if (0 <? valid)%nat
  then binary64 (binary64 (binary64 (inject_Z (Z.of_nat matches))
                           / binary64 (inject_Z (Z.of_nat valid))) * 100)
  else 0%Q.

(** "Matches divided by valid comparisons times 100 when the count of
    valid comparisons is positive, and exactly 0 when it is 0."  The rate
    reported is the one that binary64 arithmetic gives from the two
    counts, kept to two decimals; it is exactly 0 over no valid
    comparison, and otherwise within half a hundredth, and the rounding
    of the arithmetic (less than 10^-12), of the exact quotient times
    100. *)
Definition rate_as_stated (rate : Q) (matches valid : nat) : Prop :=
  rate = round (rate_of matches valid) 2 /\
  ((0 < valid)%nat ->
   (Qabs (rate - inject_Z (Z.of_nat matches) / inject_Z (Z.of_nat valid) * 100)
      <= (1 # 200) + (1 # 1000000000000))%Q) /\
  (valid = 0%nat -> rate = 0%Q).

(** ** Means *)

(** The sum of a list of rationals. *)
Definition Qsum (l : list Q) : Q := foldr Qplus 0%Q l.

(** The arithmetic mean of a list of rationals. *)
Definition arithmetic_mean (l : list Q) : Q :=
  (Qsum l / inject_Z (Z.of_nat (length l)))%Q.

(** ** The measurements a visualisation accepts *)

(** The measurements the loop accepts, in order. *)
Fixpoint accepted (labels : option (list string)) (i : nat)
    (data_list : list (gmap string pyobj)) : list Measured :=
  match data_list with
  | [] => []
  | data :: rest =>
      match snd (convert labels i data) with
      | Return (Some m) => m :: accepted labels (S i) rest
      | _ => accepted labels (S i) rest
      end
  end.

(** The warnings the loop prints, in order. *)
Fixpoint warnings (labels : option (list string)) (i : nat)
    (data_list : list (gmap string pyobj)) : list event :=
  match data_list with
  | [] => []
  | data :: rest => fst (convert labels i data) ++ warnings labels (S i) rest
  end.

(** The row of the pivoted frame for one accepted measurement, and the
    frame for a list of them. *)
Definition metrics_row (m : Measured) : gmap string pyfloat :=
  <["Severity" := severity m]>
    (<["Occurrence" := occurrence m]> (<["Priority" := priority m]> ∅)).

Definition table_of (acc : list Measured) : gmap string (gmap string pyfloat) :=
  list_to_map ((fun m => (label m, metrics_row m)) <$> acc).

(** The three rates of a measurement are finite. *)
Definition finite_rates (m : Measured) : bool :=
  is_finite (severity m) && is_finite (occurrence m) && is_finite (priority m).

(** What follows the first loop, on the frame of the accepted measurements. *)
Definition after_loop (df : list LongRow)
  : Py (option (gmap string (gmap string pyfloat))) :=
  do chart <- (match df with [] => raise ValueError | _ => ret (barplot df) end);
  run average_lines chart df ["Severity"; "Occurrence"; "Priority"];
  do pivot_df <- pivot df;
  let metric_averages := mean_axis0 pivot_df in
  let pivot_df := <["AVERAGE" := metric_averages]> pivot_df in
  ret (Some pivot_df).

(** ** Inputs used to exercise the statements *)

(** A row given by its six ratings; any other column is [None]. *)
Definition row_of (us as_ uo ao up ap : pyval) : string -> pyval := fun col =>
  if String.eqb col "user_severity" then us
  else if String.eqb col "ai_severity" then as_
  else if String.eqb col "user_occurrence" then uo
  else if String.eqb col "ai_occurrence" then ao
  else if String.eqb col "user_priority" then up
  else if String.eqb col "ai_priority" then ap
  else PNone.

(** Two tables: one with the six columns, one without the priorities. *)
Definition example_rows : list (string -> pyval) :=
  [ row_of (PStr "Critical (A)") (PStr "A - Showstopper")
           (PStr "Always") (PStr "Certain") (PStr "Urgent") (PStr "Critical");
    row_of (PStr "Major (B)") (PStr "C - Minor")
           (PStr "60%") (PStr "Very Frequent") (PStr "Low") (PStr "Minor") ].

Definition example_table : DataFrame := mkDataFrame required_columns example_rows.

Definition table_without_priorities : DataFrame :=
  mkDataFrame ["id"; "user_severity"; "ai_severity"; "user_occurrence"; "ai_occurrence"]
              example_rows.

(** A row whose automated severity is [None]. *)
Definition row_with_null_ai_severity : string -> pyval :=
  row_of (PStr "Minor (C)") PNone (PStr "Once") (PStr "Rare") (PStr "Low") (PStr "Minor").

(** The two rows above and a third one with a null. *)
Definition table_with_a_null : DataFrame :=
  mkDataFrame required_columns (example_rows ++ [row_with_null_ai_severity]).

(** 160 rows without a null, 23 of which agree on the severity. *)
Definition table_23_of_160 : DataFrame :=
  mkDataFrame required_columns
    (replicate 23 (row_of (PStr "Major (B)") (PStr "B - Major")
                          (PStr "Once") (PStr "Rare") (PStr "Low") (PStr "Minor"))
     ++ replicate 137 (row_of (PStr "Major (B)") (PStr "C - Minor")
                              (PStr "Once") (PStr "Rare") (PStr "Low") (PStr "Minor"))).

(** The table read from a CSV file whose only line has an empty
    [ai_severity] field. *)
Definition table_with_empty_ai_severity : DataFrame :=
  mkDataFrame required_columns
    [row_of (PStr "Minor (C)") PNaN (PStr "Once") (PStr "Rare")
            (PStr "Low") (PStr "Minor")].

(** The dictionary of one measurement with its three rates. *)
Definition measurement (s o p : Q) : gmap string pyobj :=
  <["Severity Match Rate (%)" := ONum (FFin s)]>
    (<["Occurrence Match Rate (%)" := ONum (FFin o)]>
       (<["Priority Match Rate (%)" := ONum (FFin p)]> ∅)).

(** Two measurements whose severity rates are 80.0 and 90.0. *)
Definition two_measurements : list (gmap string pyobj) :=
  [measurement 80 70 60; measurement 90 75 65].

(** ** Vocabulary of the further properties *)

(** The three pairs of canonical values of a row are non-null and equal. *)
Definition all_three_equal (r : string -> pyval) : bool :=
  eq_elem (severity_label (r "user_severity")) (severity_label (r "ai_severity"))
  && eq_elem (occurrence_label (r "user_occurrence")) (occurrence_label (r "ai_occurrence"))
  && eq_elem (priority_label (r "user_priority")) (priority_label (r "ai_priority")).

(** The rows of a list that pass a test. *)
Definition count_rows {A} (p : A -> bool) (l : list A) : nat :=
  length (List.filter p l).

(** The eight entries of [results] as counts over the rows of the table. *)
Definition results_from_rows (l : list (string -> pyval)) : Results :=
  let severity_valid r :=
    notna (severity_label (r "user_severity")) && notna (severity_label (r "ai_severity")) in
  let occurrence_valid r :=
    notna (occurrence_label (r "user_occurrence")) && notna (occurrence_label (r "ai_occurrence")) in
  let priority_valid r :=
    notna (priority_label (r "user_priority")) && notna (priority_label (r "ai_priority")) in
  let severity_equal r :=
    eq_elem (severity_label (r "user_severity")) (severity_label (r "ai_severity")) in
  let occurrence_equal r :=
    eq_elem (occurrence_label (r "user_occurrence")) (occurrence_label (r "ai_occurrence")) in
  let priority_equal r :=
    eq_elem (priority_label (r "user_priority")) (priority_label (r "ai_priority")) in
  mkResults
    (round (rate_of (count_rows severity_equal l) (count_rows severity_valid l)) 2)
    (round (rate_of (count_rows occurrence_equal l) (count_rows occurrence_valid l)) 2)
    (round (rate_of (count_rows priority_equal l) (count_rows priority_valid l)) 2)
    (round (rate_of (count_rows all_three_equal l)
                    (count_rows (fun r => forallb notna (six_labels r)) l)) 2)
    (length l)
    (count_rows severity_valid l)
    (count_rows occurrence_valid l)
    (count_rows priority_valid l).

(** A table on which the two raters agree everywhere, in different words. *)
Definition agreeing_table : DataFrame :=
  mkDataFrame required_columns
    [ row_of (PStr "Critical (A)") (PStr "A - Showstopper")
             (PStr "Always") (PStr "Certain") (PStr "Urgent") (PStr "Critical");
      row_of (PStr "minor (c)") (PStr "C - MINOR")
             (PStr "once") (PStr "Rare") (PStr "low") (PStr "Minor") ].

(** A measurement whose severity is not a number. *)
Definition unreadable_measurement : gmap string pyobj :=
  <["Severity Match Rate (%)" := OStr "n/a"]> (measurement 0 70 60).

(** A text that shows a number: digits, a point, a sign, an exponent mark. *)
Definition numeral_char (c : ascii) : bool :=
  is_digit c || Ascii.eqb c "." || Ascii.eqb c "-" || Ascii.eqb c "+" || Ascii.eqb c "e".

Fixpoint numeral (s : string) : bool :=
  match s with
  | EmptyString => true
  | String c s' => numeral_char c && numeral s'
  end.

(** A report whose second rate is not a number. *)
Definition half_read_text : string :=
  ("Severity Match Rate (%): 80" ++ String LF
   ("Occurrence Match Rate (%): n/a" ++ String LF
    ("Priority Match Rate (%): 60" ++ String LF "")))%string.

(** The three keys of a measurement dictionary. *)
Definition rate_keys : list string :=
  ["Severity Match Rate (%)"; "Occurrence Match Rate (%)"; "Priority Match Rate (%)"].

(** Results with the rates 50 and 100, and a way to show these two rates. *)
Definition example_results : Results := mkResults 50 100 100 50 2 2 2 2.

Definition show_two_rates (q : Q) : string :=
  if Qeq_bool q 50 then "50.0" else "100.0".

(** The dictionary read from a file when [main] keeps it: the file has a
    supported extension and the dictionary is not empty. *)
Definition loaded_data (fs : text_files) (read_csv : string -> option CsvFrame)
    (file_path : string) : option (gmap string pyobj) :=
  let parsed :=
    if endswith file_path ".txt" then Some (fst (parse_txt_file fs file_path))
    else if endswith file_path ".csv" then Some (fst (parse_csv_file read_csv file_path))
    else None in
  match parsed with
  | Some data => if is_empty_dict data then None else Some data
  | None => None
  end.

Definition loads (fs : text_files) (read_csv : string -> option CsvFrame)
    (file_path : string) : bool :=
  match loaded_data fs read_csv file_path with Some _ => true | None => false end.

(** Two reports on disk, each with a severity rate only. *)
Definition two_reports : text_files :=
  {[ "runs/first.txt" := "Severity Match Rate (%): 80";
     "runs/third.txt" := "Severity Match Rate (%): 90" ]}.

(** Outside the program nothing fails: every path gives the table [df], the
    cross tabulations have a text, every path can be written. *)
Definition plain_world (df : DataFrame) : World :=
  mkWorld (fun _ => Some df) (fun _ => Some "(cross tabulations)") (fun _ => true).

(** A row with the ratings of the two raters exchanged. *)
Definition swap_raters (r : string -> pyval) : string -> pyval := fun col =>
  if String.eqb col "user_severity" then r "ai_severity"
  else if String.eqb col "ai_severity" then r "user_severity"
  else if String.eqb col "user_occurrence" then r "ai_occurrence"
  else if String.eqb col "ai_occurrence" then r "user_occurrence"
  else if String.eqb col "user_priority" then r "ai_priority"
  else if String.eqb col "ai_priority" then r "user_priority"
  else r col.

(** No label is passed: [labels] is [None] or the empty list. *)
Definition no_labels (labels : option (list string)) : bool :=
  match labels with
  | None | Some [] => true
  | Some (_ :: _) => false
  end.

(** * Properties *)

(** ** Computations *)

Lemma bind_ret {A B} (a : A) (k : A -> Py B) : bind (ret a) k = k a.
Proof. unfold bind, ret. destruct (k a) as [out r]. reflexivity. Qed.

Lemma mapM_ret {A B} (f : A -> Py B) (g : A -> B) (l : list A) :
  (forall x, f x = ret (g x)) -> mapM f l = ret (map g l).
Proof.
  intros Hf. induction l as [|x l IH]; simpl.
  - reflexivity.
  - rewrite Hf, bind_ret, IH, bind_ret. reflexivity.
Qed.

(** ** Rounding to binary64 *)

Section Binary64.

Local Open Scope Q_scope.

Lemma pow2_pos e : 0 < pow2 e.
Proof. apply Qpower_0_lt. reflexivity. Qed.

Lemma pow2_plus a b : pow2 (a + b) == pow2 a * pow2 b.
Proof. apply Qpower_plus. discriminate. Qed.

Lemma pow2_le a b : (a <= b)%Z -> pow2 a <= pow2 b.
Proof. intros H. apply Qpower_le_compat_l; [exact H|discriminate]. Qed.

Lemma pow2_lt a b : (a < b)%Z -> pow2 a < pow2 b.
Proof. intros H. apply Qpower_lt_compat_l; [exact H|reflexivity]. Qed.

Lemma pow2_Z a : (0 <= a)%Z -> pow2 a == inject_Z (2 ^ a).
Proof. intros H. symmetry. apply (Zpower_Qpower 2 a H). Qed.

Lemma pow2_succ a : pow2 (a + 1) == 2 * pow2 a.
Proof. rewrite pow2_plus. change (pow2 1) with 2. ring. Qed.

Lemma ilog2_spec q : 0 < q -> pow2 (ilog2 q) <= q /\ q < pow2 (ilog2 q + 1).
Proof.
  intros Hq. destruct q as [n d]. unfold ilog2. cbn [Qnum Qden].
  assert (Hn : (0 < n)%Z) by (unfold Qlt in Hq; simpl in Hq; lia).
  set (ln := Z.log2 n). set (ld := Z.log2 (Z.pos d)).
  destruct (Z.log2_spec n Hn) as [Ln Un]. fold ln in Ln, Un.
  destruct (Z.log2_spec (Z.pos d) eq_refl) as [Ld Ud]. fold ld in Ld, Ud.
  assert (Hln : (0 <= ln)%Z) by apply Z.log2_nonneg.
  assert (Hld : (0 <= ld)%Z) by apply Z.log2_nonneg.
  assert (EA : pow2 ln == inject_Z (2 ^ ln)) by (apply pow2_Z; exact Hln).
  assert (EB : pow2 ld == inject_Z (2 ^ ld)) by (apply pow2_Z; exact Hld).
  assert (Ek : pow2 ln == pow2 (ln - ld) * pow2 ld).
  { rewrite <- pow2_plus. replace (ln - ld + ld)%Z with ln by lia. reflexivity. }
  pose proof (pow2_pos (ln - ld)) as Pk.
  pose proof (pow2_pos ld) as Pd.
  assert (Eq : n # d == inject_Z n / inject_Z (Z.pos d)) by apply Qmake_Qdiv.
  assert (PD : 0 < inject_Z (Z.pos d)) by reflexivity.
  assert (LN : pow2 ln <= inject_Z n) by (rewrite EA, <- Zle_Qle; exact Ln).
  assert (UN : inject_Z n < 2 * pow2 ln).
  { rewrite EA. change 2 with (inject_Z 2). rewrite <- inject_Z_mult, <- Zlt_Qlt.
    replace (ln + 1)%Z with (Z.succ ln) in Un by lia.
    rewrite Z.pow_succ_r in Un by exact Hln. exact Un. }
  assert (LD : pow2 ld <= inject_Z (Z.pos d)) by (rewrite EB, <- Zle_Qle; exact Ld).
  assert (UD : inject_Z (Z.pos d) < 2 * pow2 ld).
  { rewrite EB. change 2 with (inject_Z 2). rewrite <- inject_Z_mult, <- Zlt_Qlt.
    replace (ld + 1)%Z with (Z.succ ld) in Ud by lia.
    rewrite Z.pow_succ_r in Ud by exact Hld. exact Ud. }
  set (N := inject_Z n) in *. set (D := inject_Z (Z.pos d)) in *.
  set (K := pow2 (ln - ld)) in *. set (B := pow2 ld) in *. set (A := pow2 ln) in *.
  assert (Up : n # d < 2 * K).
  { rewrite Eq. apply Qlt_shift_div_r; [exact PD|]. nra. }
  assert (Lo : K <= 2 * (n # d)).
  { rewrite Eq. setoid_replace (2 * (N / D)) with ((2 * N) / D) using relation Qeq by (field; lra).
    apply Qle_shift_div_l; [exact PD|]. nra. }
  destruct (Qle_bool K (n # d)) eqn:E.
  - apply Qle_bool_iff in E. split; [exact E|].
    rewrite pow2_succ. exact Up.
  - assert (Hlt : n # d < K).
    { apply Qnot_le_lt. intros H. apply Qle_bool_iff in H. congruence. }
    replace (ln - ld - 1 + 1)%Z with (ln - ld)%Z by lia. split; [|exact Hlt].
    assert (Eh : K == 2 * pow2 (ln - ld - 1)).
    { unfold K. rewrite <- pow2_succ. replace (ln - ld - 1 + 1)%Z with (ln - ld)%Z by lia.
      reflexivity. }
    lra.
Qed.

Lemma ilog2_mono q1 q2 : 0 < q1 -> q1 <= q2 -> (ilog2 q1 <= ilog2 q2)%Z.
Proof.
  intros H1 H12.
  assert (H2 : 0 < q2) by lra.
  destruct (ilog2_spec q1 H1) as [L1 _]. destruct (ilog2_spec q2 H2) as [_ U2].
  destruct (Z_le_gt_dec (ilog2 q1) (ilog2 q2)) as [H|H]; [exact H|exfalso].
  assert (Hp : pow2 (ilog2 q2 + 1) <= pow2 (ilog2 q1)) by (apply pow2_le; lia).
  lra.
Qed.

Lemma ilog2_lt q k : 0 < q -> q < pow2 k -> (ilog2 q < k)%Z.
Proof.
  intros Hq Hk. destruct (ilog2_spec q Hq) as [L _].
  destruct (Z_lt_ge_dec (ilog2 q) k) as [H|H]; [exact H|exfalso].
  assert (Hp : pow2 k <= pow2 (ilog2 q)) by (apply pow2_le; lia).
  lra.
Qed.

Lemma ilog2_ge q k : pow2 k <= q -> (k <= ilog2 q)%Z.
Proof.
  intros Hk. pose proof (pow2_pos k) as Pk.
  assert (Hq : 0 < q) by lra.
  destruct (ilog2_spec q Hq) as [_ U].
  destruct (Z_le_gt_dec k (ilog2 q)) as [H|H]; [exact H|exfalso].
  assert (Hp : pow2 (ilog2 q + 1) <= pow2 k) by (apply pow2_le; lia).
  lra.
Qed.

(** The nearest integer. *)

Lemma round_half_even_near x :
  x - (1 # 2) <= inject_Z (round_half_even x) /\ inject_Z (round_half_even x) <= x + (1 # 2).
Proof.
  unfold round_half_even.
  pose proof (Qfloor_le x) as Hl. pose proof (Qlt_floor x) as Hu.
  rewrite inject_Z_plus in Hu. change (inject_Z 1) with 1 in Hu.
  destruct (Qcompare_spec (x - inject_Z (Qfloor x)) (1 # 2)) as [E|L|G].
  - destruct (Z.even (Qfloor x)); [|rewrite inject_Z_plus; change (inject_Z 1) with 1]; lra.
  - lra.
  - rewrite inject_Z_plus. change (inject_Z 1) with 1. lra.
Qed.

Lemma round_half_even_comp x y : x == y -> round_half_even x = round_half_even y.
Proof.
  intros E. unfold round_half_even. rewrite (Qfloor_comp _ _ E).
  assert (Ec : (x - inject_Z (Qfloor y) ?= 1 # 2) = (y - inject_Z (Qfloor y) ?= 1 # 2))
    by (rewrite E; reflexivity).
  rewrite Ec. reflexivity.
Qed.

Lemma round_half_even_integer x z :
  (x == inject_Z z)%Q -> round_half_even x = z.
Proof.
  intros E. unfold round_half_even.
  rewrite (Qfloor_comp _ _ E), Qfloor_Z.
  assert (Hd : (x - inject_Z z == 0)%Q) by (rewrite E; ring).
  destruct (Qcompare_spec (x - inject_Z z) (1 # 2)) as [H|H|H].
  - rewrite Hd in H. discriminate H.
  - reflexivity.
  - rewrite Hd in H. discriminate H.
Qed.

Lemma round_half_even_mono x y : x <= y -> (round_half_even x <= round_half_even y)%Z.
Proof.
  intros Hxy.
  pose proof (Qfloor_resp_le _ _ Hxy) as Hf.
  pose proof (Qfloor_le x) as Lx. pose proof (Qlt_floor x) as Ux.
  pose proof (Qfloor_le y) as Ly. pose proof (Qlt_floor y) as Uy.
  rewrite inject_Z_plus in Ux, Uy. change (inject_Z 1) with 1 in Ux, Uy.
  unfold round_half_even.
  destruct (Z.eq_dec (Qfloor x) (Qfloor y)) as [E|N].
  - rewrite E in *.
    destruct (Qcompare_spec (x - inject_Z (Qfloor y)) (1 # 2)) as [Ex|Lx'|Gx];
    destruct (Qcompare_spec (y - inject_Z (Qfloor y)) (1 # 2)) as [Ey|Ly'|Gy];
      try lia; try (exfalso; lra); destruct (Z.even (Qfloor y)); lia.
  - assert (Hlt : (Qfloor x + 1 <= Qfloor y)%Z) by lia.
    destruct (Qcompare_spec (x - inject_Z (Qfloor x)) (1 # 2));
    destruct (Qcompare_spec (y - inject_Z (Qfloor y)) (1 # 2));
      try destruct (Z.even (Qfloor x)); try destruct (Z.even (Qfloor y)); lia.
Qed.

(** Rounding to binary64 depends on the value only. *)

Lemma binary64_comp q q' : q == q' -> binary64 q = binary64 q'.
Proof. intros E. unfold binary64. rewrite (Qred_complete _ _ E). reflexivity. Qed.


Lemma binary64_eq q :
  binary64 q == inject_Z (round_half_even (q / pow2 (ulp_exponent (Qred q))))
                * pow2 (ulp_exponent (Qred q)).
Proof.
  unfold binary64. cbv zeta.
  eapply Qeq_trans; [apply Qred_correct|].
  rewrite (round_half_even_comp (Qred q / pow2 (ulp_exponent (Qred q)))
                                (q / pow2 (ulp_exponent (Qred q)))).
  - reflexivity.
  - apply Qmult_comp; [apply Qred_correct|reflexivity].
Qed.

Lemma exponent_spec q :
  0 < q ->
  exists l, ulp_exponent (Qred q) = Z.max (l - 52) (-1074) /\
            pow2 l <= q /\ q < pow2 (l + 1).
Proof.
  intros Hq. exists (ilog2 (Qabs (Qred q))). split; [reflexivity|].
  assert (E : Qabs (Qred q) == q).
  { rewrite Qred_correct. apply Qabs_pos. lra. }
  assert (H : 0 < Qabs (Qred q)) by lra.
  destruct (ilog2_spec _ H) as [L U]. split; lra.
Qed.

Lemma binary64_0 : binary64 0 = 0.
Proof. reflexivity. Qed.

Lemma binary64_nonneg q : 0 <= q -> 0 <= binary64 q.
Proof.
  intros Hq. rewrite binary64_eq.
  set (e := ulp_exponent (Qred q)). pose proof (pow2_pos e) as Pe.
  apply Qmult_le_0_compat; [|lra].
  change 0 with (inject_Z 0). rewrite <- Zle_Qle.
  rewrite <- (round_half_even_integer (inject_Z 0) 0) by reflexivity.
  apply round_half_even_mono. apply Qle_shift_div_l; [exact Pe|]. 
  change (inject_Z 0) with 0. lra.
Qed.

(** Rounding to binary64 is monotone (on the non-negative numbers). *)
Lemma binary64_mono q1 q2 : 0 <= q1 -> q1 <= q2 -> binary64 q1 <= binary64 q2.
Proof.
  intros H1 H12.
  destruct (Qlt_le_dec 0 q1) as [P1|Z1].
  2:{ assert (E : q1 == 0) by lra. rewrite (binary64_comp _ _ E), binary64_0.
      apply binary64_nonneg. lra. }
  assert (P2 : 0 < q2) by lra.
  destruct (exponent_spec q1 P1) as (l1 & E1 & L1 & U1).
  destruct (exponent_spec q2 P2) as (l2 & E2 & L2 & U2).
  rewrite !binary64_eq. rewrite E1, E2.
  set (e1 := Z.max (l1 - 52) (-1074)). set (e2 := Z.max (l2 - 52) (-1074)).
  pose proof (pow2_pos e1) as Pe1. pose proof (pow2_pos e2) as Pe2.
  assert (Hl : (l1 <= l2)%Z).
  { destruct (Z_le_gt_dec l1 l2) as [H|H]; [exact H|exfalso].
    assert (Hp : pow2 (l2 + 1) <= pow2 l1) by (apply pow2_le; lia). lra. }
  destruct (Z.eq_dec e1 e2) as [Ee|Ne].
  - rewrite <- Ee. apply Qmult_le_compat_r; [|lra].
    rewrite <- Zle_Qle. apply round_half_even_mono.
    apply Qle_shift_div_l; [exact Pe1|].
    setoid_replace (q1 / pow2 e1 * pow2 e1) with q1 using relation Qeq by (field; lra). exact H12.
  - assert (He : (e1 + 1 <= e2)%Z) by lia.
    assert (He2 : e2 = (l2 - 52)%Z) by lia.
    (* q1 rounds to at most 2^(e1+53), q2 to at least 2^(e2+52) *)
    apply Qle_trans with (pow2 53 * pow2 e1).
    + apply Qmult_le_compat_r; [|lra].
      rewrite (pow2_Z 53) by lia. rewrite <- Zle_Qle.
      rewrite <- (round_half_even_integer (inject_Z (2 ^ 53)) (2 ^ 53)) by reflexivity.
      apply round_half_even_mono.
      apply Qle_shift_div_r; [exact Pe1|].
      rewrite <- (pow2_Z 53) by lia. rewrite <- pow2_plus.
      assert (Hp : pow2 (l1 + 1) <= pow2 (53 + e1)) by (apply pow2_le; lia). lra.
    + apply Qle_trans with (pow2 52 * pow2 e2).
      * rewrite <- !pow2_plus. apply pow2_le. lia.
      * apply Qmult_le_compat_r; [|lra].
        rewrite (pow2_Z 52) by lia. rewrite <- Zle_Qle.
        rewrite <- (round_half_even_integer (inject_Z (2 ^ 52)) (2 ^ 52)) by reflexivity.
        apply round_half_even_mono.
        apply Qle_shift_div_l; [exact Pe2|].
        rewrite <- (pow2_Z 52) by lia. rewrite <- pow2_plus.
        assert (Hp : pow2 (52 + e2) <= pow2 l2) by (apply pow2_le; lia). lra.
Qed.

(** An integer below 2^53 is a binary64. *)
Lemma binary64_integer n :
  (0 <= n < 2 ^ 53)%Z -> binary64 (inject_Z n) == inject_Z n.
Proof.
  intros [H0 Hn].
  destruct (Z.eq_dec n 0%Z) as [->|Nz]; [reflexivity|].
  assert (P : 0 < inject_Z n) by (change 0 with (inject_Z 0); rewrite <- Zlt_Qlt; lia).
  destruct (exponent_spec _ P) as (l & E & L & U).
  rewrite binary64_eq, E.
  assert (Hl : (l < 53)%Z).
  { destruct (Z_lt_ge_dec l 53) as [H|H]; [exact H|exfalso].
    assert (Hp : pow2 53 <= pow2 l) by (apply pow2_le; lia).
    rewrite (pow2_Z 53) in Hp by lia.
    assert (Hq : inject_Z n < inject_Z (2 ^ 53)) by (rewrite <- Zlt_Qlt; exact Hn).
    lra. }
  set (e := Z.max (l - 52) (-1074)).
  assert (He : (e <= 0)%Z) by lia.
  pose proof (pow2_pos e) as Pe.
  assert (Einv : / pow2 e == inject_Z (2 ^ (- e))).
  { rewrite <- (pow2_Z (- e)) by lia. unfold pow2. rewrite Qpower_opp. reflexivity. }
  rewrite (round_half_even_integer _ (n * 2 ^ (- e))).
  - rewrite inject_Z_mult, <- Einv. field. lra.
  - rewrite inject_Z_mult, <- Einv. reflexivity.
Qed.

(** The distance to the binary64 chosen, for a number of [0, 2^k]. *)
Lemma binary64_error q k :
  0 <= q -> q <= pow2 k -> (-1021 <= k)%Z ->
  q - pow2 (k - 54) <= binary64 q /\ binary64 q <= q + pow2 (k - 54).
Proof.
  intros H0 Hk Hmin.
  pose proof (pow2_pos (k - 54)) as Pk.
  destruct (Qlt_le_dec 0 q) as [P|Z].
  2:{ assert (E : q == 0) by lra. rewrite (binary64_comp _ _ E), binary64_0. lra. }
  destruct (exponent_spec q P) as (l & E & L & U).
  rewrite binary64_eq, E. set (e := Z.max (l - 52) (-1074)).
  pose proof (pow2_pos e) as Pe.
  destruct (round_half_even_near (q / pow2 e)) as [Lo Hi].
  set (r := inject_Z (round_half_even (q / pow2 e))) in *.
  assert (Eq : q / pow2 e * pow2 e == q) by (field; lra).
  assert (Hl : (l <= k)%Z).
  { destruct (Z_le_gt_dec l k) as [H|H]; [exact H|exfalso].
    assert (Hp : pow2 (k + 1) <= pow2 l) by (apply pow2_le; lia).
    assert (Hp2 : pow2 k < pow2 (k + 1)) by (apply pow2_lt; lia). lra. }
  destruct (Z.eq_dec l k) as [->|Nl].
  - (* q = 2^k itself *)
    assert (Eqk : q == pow2 k) by lra.
    assert (Ee : (e <= k)%Z) by lia.
    assert (Er : r == pow2 (k - e)).
    { unfold r. rewrite (round_half_even_integer _ (2 ^ (k - e))).
      - rewrite <- pow2_Z by lia. reflexivity.
      - rewrite <- pow2_Z by lia. rewrite Eqk.
        replace k with ((k - e) + e)%Z at 1 by lia. rewrite pow2_plus. field. lra. }
    rewrite Er, <- pow2_plus. replace (k - e + e)%Z with k by lia. lra.
  - assert (Ee : (e + 1 <= k - 53 + 1)%Z) by lia.
    assert (Hp : 2 * pow2 e <= 2 * pow2 (k - 53)).
    { rewrite <- !pow2_succ. apply pow2_le. lia. }
    assert (Hh : pow2 (k - 53) == 2 * pow2 (k - 54)).
    { rewrite <- pow2_succ. replace (k - 54 + 1)%Z with (k - 53)%Z by lia. reflexivity. }
    assert (Hlo : (q / pow2 e - (1 # 2)) * pow2 e <= r * pow2 e)
      by (apply Qmult_le_compat_r; lra).
    assert (Hhi : r * pow2 e <= (q / pow2 e + (1 # 2)) * pow2 e)
      by (apply Qmult_le_compat_r; lra).
    assert (E1 : (q / pow2 e - (1 # 2)) * pow2 e == q - (1 # 2) * pow2 e) by (field; lra).
    assert (E2 : (q / pow2 e + (1 # 2)) * pow2 e == q + (1 # 2) * pow2 e) by (field; lra).
    lra.
Qed.

(** The same distance, relative to a number of the normal range. *)
Lemma binary64_relative q :
  pow2 (-1022) <= q ->
  q * (1 - pow2 (-53)) <= binary64 q /\ binary64 q <= q * (1 + pow2 (-53)).
Proof.
  intros Hq. pose proof (pow2_pos (-1022)) as P0.
  assert (P : 0 < q) by lra.
  destruct (ilog2_spec q P) as [L U].
  pose proof (ilog2_ge _ _ Hq) as Hl.
  set (l := ilog2 q) in *.
  destruct (binary64_error q (l + 1)) as [Lo Hi]; [lra|lra|lia|].
  assert (E : pow2 (l + 1 - 54) == pow2 l * pow2 (-53)).
  { rewrite <- pow2_plus. replace (l + 1 - 54)%Z with (l + -53)%Z by lia. reflexivity. }
  pose proof (pow2_pos (-53)) as Pu.
  assert (Hm : pow2 l * pow2 (-53) <= q * pow2 (-53)) by (apply Qmult_le_compat_r; lra).
  lra.
Qed.

Lemma binary64_count n :
  inject_Z (Z.of_nat n) * (1 - pow2 (-53)) <= binary64 (inject_Z (Z.of_nat n)) /\
  binary64 (inject_Z (Z.of_nat n)) <= inject_Z (Z.of_nat n) * (1 + pow2 (-53)).
Proof.
  destruct n as [|n]; [vm_compute; split; discriminate|].
  apply binary64_relative.
  apply Qle_trans with 1; [vm_compute; discriminate|].
  change 1 with (inject_Z 1). rewrite <- Zle_Qle. lia.
Qed.

(** Rounding does not cross a binary64. *)
Lemma binary64_le q c : 0 <= q -> q <= c -> binary64 c == c -> binary64 q <= c.
Proof. intros H0 Hc E. rewrite <- E. apply binary64_mono; assumption. Qed.

Lemma quotient_of_counts (m v : nat) :
  (0 < v)%nat -> (m <= v)%nat ->
  let q0 := inject_Z (Z.of_nat m) / inject_Z (Z.of_nat v) in
  let x := binary64 (inject_Z (Z.of_nat m)) / binary64 (inject_Z (Z.of_nat v)) in
  0 <= x /\ x <= 1 /\ q0 - 2 * pow2 (-53) <= x /\ x <= q0 + 2 * pow2 (-53).
Proof.
  intros Hv Hmv q0 x.
  set (M := inject_Z (Z.of_nat m)) in *. set (V := inject_Z (Z.of_nat v)) in *.
  assert (HM : 0 <= M) by (unfold M; change 0 with (inject_Z 0); rewrite <- Zle_Qle; lia).
  assert (HV : 1 <= V) by (unfold V; change 1 with (inject_Z 1); rewrite <- Zle_Qle; lia).
  assert (HMV : M <= V) by (unfold M, V; rewrite <- Zle_Qle; lia).
  destruct (binary64_count m) as [La Ua]. destruct (binary64_count v) as [Lb Ub].
  fold M in La, Ua. fold V in Lb, Ub.
  pose proof (binary64_nonneg M HM) as Ha.
  pose proof (binary64_mono M V HM HMV) as Hab.
  assert (H1 : 1 <= binary64 V).
  { change 1 with (binary64 1). apply binary64_mono; lra. }
  set (a := binary64 M) in *. set (b := binary64 V) in *.
  set (u := pow2 (-53)) in *.
  assert (Eu : u == 1 # 9007199254740992) by reflexivity.
  assert (Hx0 : 0 <= x) by (apply Qle_shift_div_l; lra).
  assert (Hx1 : x <= 1) by (apply Qle_shift_div_r; lra).
  assert (Hq0 : 0 <= q0) by (apply Qle_shift_div_l; lra).
  assert (Hq1 : q0 <= 1) by (apply Qle_shift_div_r; lra).
  assert (Exb : x * b == a) by (unfold x; field; lra).
  assert (Eqv : q0 * V == M) by (unfold q0; field; lra).
  assert (T1 : 0 <= x * (b - V * (1 - u))) by (apply Qmult_le_0_compat; lra).
  assert (T2 : 0 <= x * (V * (1 + u) - b)) by (apply Qmult_le_0_compat; lra).
  assert (F2 : 0 <= V * (q0 * (1 + u) - x * (1 - u))) by nra.
  assert (F3 : 0 <= V * (x * (1 + u) - q0 * (1 - u))) by nra.
  assert (G2 : 0 <= q0 * (1 + u) - x * (1 - u)).
  { destruct (Qlt_le_dec (q0 * (1 + u) - x * (1 - u)) 0) as [N|N]; [exfalso|exact N].
    assert (0 < V * - (q0 * (1 + u) - x * (1 - u))) by (apply Qmult_lt_0_compat; lra).
    nra. }
  assert (G3 : 0 <= x * (1 + u) - q0 * (1 - u)).
  { destruct (Qlt_le_dec (x * (1 + u) - q0 * (1 - u)) 0) as [N|N]; [exfalso|exact N].
    assert (0 < V * - (x * (1 + u) - q0 * (1 - u))) by (apply Qmult_lt_0_compat; lra).
    nra. }
  assert (Xu : 0 <= x * u /\ x * u <= u) by (split; nra).
  assert (Qu : 0 <= q0 * u /\ q0 * u <= u) by (split; nra).
  repeat split; lra.
Qed.

Lemma rate_of_bounds (m v : nat) :
  (m <= v)%nat -> 0 <= rate_of m v /\ rate_of m v <= 100.
Proof.
  intros Hmv. unfold rate_of. destruct v as [|v]; [split; discriminate|].
  cbn [Nat.ltb Nat.leb].
  destruct (quotient_of_counts m (S v)) as (X0 & X1 & _); [lia|exact Hmv|].
  set (x := binary64 (inject_Z (Z.of_nat m)) / binary64 (inject_Z (Z.of_nat (S v)))) in *.
  pose proof (binary64_nonneg x X0) as D0.
  assert (D1 : binary64 x <= 1) by (apply binary64_le; [lra|lra|reflexivity]).
  split.
  - apply binary64_nonneg. lra.
  - apply binary64_le; [lra|lra|reflexivity].
Qed.

Lemma round_2_bounds q :
  0 <= q -> q <= 100 -> 0 <= round q 2 /\ round q 2 <= 100.
Proof.
  intros H0 H100. unfold round.
  change (inject_Z (10 ^ Z.of_nat 2)) with 100.
  assert (Z0 : 0 <= binary64 (q * 100)) by (apply binary64_nonneg; lra).
  assert (Z1 : binary64 (q * 100) <= 10000)
    by (apply binary64_le; [lra|lra|reflexivity]).
  assert (R0 : (0 <= round_half_even (binary64 (q * 100)))%Z).
  { rewrite <- (round_half_even_integer (inject_Z 0) 0) by reflexivity.
    apply round_half_even_mono. exact Z0. }
  assert (R1 : (round_half_even (binary64 (q * 100)) <= 10000)%Z).
  { rewrite <- (round_half_even_integer (inject_Z 10000) 10000) by reflexivity.
    apply round_half_even_mono. exact Z1. }
  rewrite Zle_Qle in R0, R1. change (inject_Z 0) with 0 in R0.
  change (inject_Z 10000) with 10000 in R1.
  set (r := inject_Z (round_half_even (binary64 (q * 100)))) in *.
  assert (E : r / 100 == r * (1 # 100)) by (field; discriminate).
  split.
  - apply binary64_nonneg. lra.
  - apply binary64_le; [lra|lra|reflexivity].
Qed.

(** The rate reported from two counts, against the exact quotient. *)
Lemma reported_rate_close (m v : nat) :
  (0 < v)%nat -> (m <= v)%nat ->
  let exact := inject_Z (Z.of_nat m) / inject_Z (Z.of_nat v) * 100 in
  exact - ((1 # 200) + (1 # 1000000000000)) <= round (rate_of m v) 2 /\
  round (rate_of m v) 2 <= exact + ((1 # 200) + (1 # 1000000000000)).
Proof.
  intros Hv Hmv exact. unfold rate_of.
  destruct v as [|v]; [lia|]. cbn [Nat.ltb Nat.leb].
  destruct (quotient_of_counts m (S v)) as (X0 & X1 & XL & XU); [lia|exact Hmv|].
  set (q0 := inject_Z (Z.of_nat m) / inject_Z (Z.of_nat (S v))) in *.
  set (x := binary64 (inject_Z (Z.of_nat m)) / binary64 (inject_Z (Z.of_nat (S v)))) in *.
  (* d = fl(x) *)
  destruct (binary64_error x 0) as [DL DU]; [lra|exact X1|lia|].
  pose proof (binary64_nonneg x X0) as D0.
  assert (D1 : binary64 x <= 1) by (apply binary64_le; [lra|lra|reflexivity]).
  set (d := binary64 x) in *.
  (* y = fl(d * 100) *)
  assert (P7 : pow2 7 == 128) by reflexivity.
  destruct (binary64_error (d * 100) 7) as [YL YU]; [lra|lra|lia|].
  assert (Y0 : 0 <= binary64 (d * 100)) by (apply binary64_nonneg; lra).
  assert (Y1 : binary64 (d * 100) <= 100)
    by (apply binary64_le; [lra|lra|reflexivity]).
  set (y := binary64 (d * 100)) in *.
  (* z = fl(y * 100), r = rint z *)
  unfold round. change (inject_Z (10 ^ Z.of_nat 2)) with 100.
  assert (P14 : pow2 14 == 16384) by reflexivity.
  destruct (binary64_error (y * 100) 14) as [ZL ZU]; [lra|lra|lia|].
  assert (Z0 : 0 <= binary64 (y * 100)) by (apply binary64_nonneg; lra).
  assert (Z1 : binary64 (y * 100) <= 10000)
    by (apply binary64_le; [lra|lra|reflexivity]).
  set (z := binary64 (y * 100)) in *.
  destruct (round_half_even_near z) as [RL RU].
  assert (R0 : (0 <= round_half_even z)%Z).
  { rewrite <- (round_half_even_integer (inject_Z 0) 0) by reflexivity.
    apply round_half_even_mono. exact Z0. }
  rewrite Zle_Qle in R0. change (inject_Z 0) with 0 in R0.
  set (r := inject_Z (round_half_even z)) in *.
  assert (E : r / 100 == r * (1 # 100)) by (field; discriminate).
  destruct (binary64_error (r / 100) 7) as [TL TU]; [lra|lra|lia|].
  assert (E53 : pow2 (-53) == 1 # 9007199254740992) by reflexivity.
  assert (E54 : pow2 (0 - 54) == 1 # 18014398509481984) by reflexivity.
  assert (E47 : pow2 (7 - 54) == 1 # 140737488355328) by reflexivity.
  assert (E40 : pow2 (14 - 54) == 1 # 1099511627776) by reflexivity.
  unfold exact. fold q0.
  split; lra.
Qed.

(** All the comparisons match: the rate reported is 100. *)
Lemma reported_rate_full (n : nat) : (0 < n)%nat -> round (rate_of n n) 2 == 100.
Proof.
  intros Hn. unfold rate_of. destruct n as [|n]; [lia|]. cbn [Nat.ltb Nat.leb].
  set (a := binary64 (inject_Z (Z.of_nat (S n)))).
  assert (Ha : 1 <= a).
  { change 1 with (binary64 1). apply binary64_mono; [discriminate|].
    change 1 with (inject_Z 1). rewrite <- Zle_Qle. lia. }
  assert (E1 : a / a == 1) by (field; lra).
  rewrite (binary64_comp _ _ E1).
  assert (E2 : binary64 (binary64 1 * 100) = 100) by (vm_compute; reflexivity).
  rewrite E2. vm_compute. reflexivity.
Qed.

End Binary64.

(** ** Strings *)

Lemma upper_char_idem c : upper_char (upper_char c) = upper_char c.
Proof. destruct c as [[] [] [] [] [] [] [] []]; reflexivity. Qed.

Lemma upper_idem s : upper (upper s) = upper s.
Proof.
  induction s as [|c s IH]; simpl; [reflexivity|].
  rewrite upper_char_idem, IH. reflexivity.
Qed.

(** ** The normalisers *)

Lemma first_contained_value table s v :
  first_contained table s = Some v -> In v (table_values table).
Proof.
  induction table as [|[k w] table IH]; simpl; [discriminate|].
  destruct (contains k s).
  - intros [= <-]. left. reflexivity.
  - intros H. right. exact (IH H).
Qed.

Lemma first_equal_value table s v :
  first_equal table s = Some v -> In v (table_values table).
Proof.
  induction table as [|[k w] table IH]; simpl; [discriminate|].
  destruct (String.eqb s k).
  - intros [= <-]. left. reflexivity.
  - intros H. right. exact (IH H).
Qed.

Lemma standardize_severity_returns x :
  standardize_severity x = ret (severity_label x).
Proof.
  unfold severity_label, standardize_severity.
  destruct (is_None x); [reflexivity|].
  destruct (first_contained ai_severity_map _); [reflexivity|].
  destruct (first_contained user_severity_map _); reflexivity.
Qed.

Lemma bucket_percentage_cases u :
  (exists v, bucket_percentage u = ret (Some v)) \/
  (bucket_percentage u = raise ValueError /\
   parse_float (strip (replace_char "%" "" u)) = None).
Proof.
  unfold bucket_percentage, py_float.
  destruct (parse_float _) as [p|].
  - left. rewrite bind_ret.
    destruct (le_25 p); [eauto|]. destruct (le_75 p); eauto.
  - right. split; reflexivity.
Qed.

Lemma standardize_occurrence_returns x :
  standardize_occurrence x = ret (occurrence_label x).
Proof.
  unfold occurrence_label, standardize_occurrence.
  destruct (is_None x); [reflexivity|].
  destruct (first_equal ai_occurrence_map _); [reflexivity|].
  destruct (first_equal user_to_ai_map _); [reflexivity|].
  destruct (contains_char _ _); [|reflexivity].
  destruct (bucket_percentage_cases (upper (str x))) as [[v ->]|[-> _]]; reflexivity.
Qed.

Lemma standardize_priority_returns x :
  standardize_priority x = ret (priority_label x).
Proof.
  unfold priority_label, standardize_priority.
  destruct (is_None x); [reflexivity|].
  destruct (first_equal ai_priority_map _); [reflexivity|].
  destruct (first_equal user_priority_map _); reflexivity.
Qed.

(** A cell is null to the normalisers exactly when it is [None]. *)
Lemma severity_label_None x : severity_label x = None <-> x = PNone.
Proof.
  split; [|intros ->; reflexivity].
  unfold severity_label, standardize_severity.
  destruct x as [| |s]; cbn [is_None str]; [reflexivity| |].
  - vm_compute. discriminate.
  - destruct (first_contained ai_severity_map _); [discriminate|].
    destruct (first_contained user_severity_map _); discriminate.
Qed.

Lemma occurrence_label_None x : occurrence_label x = None <-> x = PNone.
Proof.
  split; [|intros ->; reflexivity].
  unfold occurrence_label, standardize_occurrence.
  destruct x as [| |s]; cbn [is_None str]; [reflexivity| |].
  - vm_compute. discriminate.
  - destruct (first_equal ai_occurrence_map _); [discriminate|].
    destruct (first_equal user_to_ai_map _); [discriminate|].
    destruct (contains_char _ _); [|discriminate].
    destruct (bucket_percentage_cases (upper s)) as [[v ->]|[-> _]];
      discriminate.
Qed.

Lemma priority_label_None x : priority_label x = None <-> x = PNone.
Proof.
  split; [|intros ->; reflexivity].
  unfold priority_label, standardize_priority.
  destruct x as [| |s]; cbn [is_None str]; [reflexivity| |].
  - vm_compute. discriminate.
  - destruct (first_equal ai_priority_map _); [discriminate|].
    destruct (first_equal user_priority_map _); discriminate.
Qed.

Lemma first_equal_key table s v :
  first_equal table s = Some v -> In s (map fst table).
Proof.
  induction table as [|[k w] table IH]; simpl; [discriminate|].
  destruct (String.eqb_spec s k) as [->|_].
  - intros _. left. reflexivity.
  - intros H. right. exact (IH H).
Qed.

Lemma first_equal_app t1 t2 s :
  first_equal (t1 ++ t2) s =
  match first_equal t1 s with Some v => Some v | None => first_equal t2 s end.
Proof.
  induction t1 as [|[k w] t1 IH]; simpl; [reflexivity|].
  destruct (String.eqb s k); [reflexivity|exact IH].
Qed.

Lemma bucket_percentage_value u v :
  bucket_percentage u = ret (Some v) -> In v bucket_labels.
Proof.
  unfold bucket_percentage, py_float.
  destruct (parse_float _) as [p|]; [|discriminate].
  rewrite bind_ret.
  destruct (le_25 p); [|destruct (le_75 p)]; intros [= <-]; simpl; tauto.
Qed.

(** A text with a percent sign whose number cannot be read is in neither
    table of [standardize_occurrence]. *)
Lemma unreadable_percentage_unmapped u :
  contains_char "%" u = true ->
  parse_float (strip (replace_char "%" "" u)) = None ->
  first_equal (ai_occurrence_map ++ user_to_ai_map) u = None.
Proof.
  intros Hc Hp.
  destruct (first_equal _ u) as [v|] eqn:E; [|reflexivity].
  apply first_equal_key in E. simpl in E.
  repeat (destruct E as [<-|E]; [first [discriminate Hc | discriminate Hp]|]).
  destruct E.
Qed.

(** ** Claims about the normalisers *)

(** C3.  Occurrence normalisation looks the value up in the exact-match
    tables before it tries the numeric reading of a percentage: "ALWAYS"
    gives CERTAIN and "75%" gives FREQUENT from the table (the numeric
    reading of "75%" would give VERY FREQUENT), while "10%", "60%" and
    "90%", which are in neither table, are bucketed by their number as
    FREQUENT, VERY FREQUENT and CERTAIN. *)
Theorem occurrence_tables_before_percentage :
  standardize_occurrence (PStr "ALWAYS") = ret (Some "CERTAIN") /\
  first_equal (ai_occurrence_map ++ user_to_ai_map) "75%" = Some "FREQUENT" /\
  bucket_percentage "75%" = ret (Some "VERY FREQUENT") /\
  standardize_occurrence (PStr "75%") = ret (Some "FREQUENT") /\
  first_equal (ai_occurrence_map ++ user_to_ai_map) "10%" = None /\
  standardize_occurrence (PStr "10%") = ret (Some "FREQUENT") /\
  first_equal (ai_occurrence_map ++ user_to_ai_map) "60%" = None /\
  standardize_occurrence (PStr "60%") = ret (Some "VERY FREQUENT") /\
  first_equal (ai_occurrence_map ++ user_to_ai_map) "90%" = None /\
  standardize_occurrence (PStr "90%") = ret (Some "CERTAIN").
Proof. repeat split; vm_compute; reflexivity. Qed.

(** C4, as the code has it.  Severity normalisation maps "CRITICAL (A)" and
    "A - SHOWSTOPPER" to the showstopper label "A - SHOWSTOPPER"; the
    value "URGENT (A)x" contains no pattern of either table and comes back
    upper-cased, "URGENT (A)X", as does "whatever-unmapped". *)
Theorem severity_showstopper_values :
  standardize_severity (PStr "CRITICAL (A)") = ret (Some "A - SHOWSTOPPER") /\
  standardize_severity (PStr "A - SHOWSTOPPER") = ret (Some "A - SHOWSTOPPER") /\
  standardize_severity (PStr "URGENT (A)x") = ret (Some "URGENT (A)X") /\
  standardize_severity (PStr "whatever-unmapped") = ret (Some "WHATEVER-UNMAPPED").
Proof. repeat split; vm_compute; reflexivity. Qed.

(** C4 fails as stated: "URGENT (A)x" is not normalised to the showstopper
    label. *)
Lemma urgent_a_is_not_showstopper :
  first_contained (ai_severity_map ++ user_severity_map) (upper "URGENT (A)x") = None /\
  standardize_severity (PStr "URGENT (A)x") <> ret (Some "A - SHOWSTOPPER").
Proof. split; [vm_compute; reflexivity | vm_compute; discriminate]. Qed.

(** C5, as the code has it.  A cell that is not [None] is upper-cased
    before any table is consulted, so two raw values that differ only in
    letter case get the same label from each normaliser.  (Surrounding
    white space is kept.) *)
Theorem upper_cased_before_matching (x y : pyval) :
  x <> PNone -> y <> PNone -> upper (str x) = upper (str y) ->
  standardize_severity x = standardize_severity y /\
  standardize_occurrence x = standardize_occurrence y /\
  standardize_priority x = standardize_priority y.
Proof.
  intros Hx Hy E.
  unfold standardize_severity, standardize_occurrence, standardize_priority.
  replace (is_None x) with false by (destruct x; simpl; congruence).
  replace (is_None y) with false by (destruct y; simpl; congruence).
  rewrite E. repeat split.
Qed.

Lemma upper_cased_before_matching_witness :
  standardize_severity (PStr "Critical (a)") = standardize_severity (PStr "CRITICAL (A)") /\
  standardize_occurrence (PStr "Critical (a)") = standardize_occurrence (PStr "CRITICAL (A)") /\
  standardize_priority (PStr "Critical (a)") = standardize_priority (PStr "CRITICAL (A)").
Proof.
  apply (upper_cased_before_matching (PStr "Critical (a)") (PStr "CRITICAL (A)"));
    [discriminate | discriminate | reflexivity].
Defined.

(** C5 fails as stated: nothing is trimmed before the tables are consulted.
    " HIGH" and "HIGH" differ only in a leading blank, yet the first is
    returned as it is and the second is mapped to MAJOR. *)
Lemma leading_blank_is_not_trimmed :
  upper (strip " HIGH") = upper (strip "HIGH") /\
  standardize_priority (PStr " HIGH") = ret (Some " HIGH") /\
  standardize_priority (PStr "HIGH") = ret (Some "MAJOR") /\
  standardize_priority (PStr " HIGH") <> standardize_priority (PStr "HIGH").
Proof. repeat split; vm_compute; discriminate. Qed.

(** C8.  Each normaliser returns a value on every cell, raising nothing and
    printing nothing; and an occurrence with a percent sign whose number
    cannot be read is returned upper-cased as it is. *)
Theorem normalisers_never_raise (x : pyval) :
  (exists v, standardize_severity x = ([], Return v)) /\
  (exists v, standardize_occurrence x = ([], Return v)) /\
  (exists v, standardize_priority x = ([], Return v)) /\
  (x <> PNone ->
   contains_char "%" (upper (str x)) = true ->
   py_float (strip (replace_char "%" "" (upper (str x)))) = raise ValueError ->
   standardize_occurrence x = ([], Return (Some (upper (str x))))).
Proof.
  split; [|split; [|split]].
  - exists (severity_label x). apply standardize_severity_returns.
  - exists (occurrence_label x). apply standardize_occurrence_returns.
  - exists (priority_label x). apply standardize_priority_returns.
  - intros Hx Hc Hp.
    assert (Hparse : parse_float (strip (replace_char "%" "" (upper (str x)))) = None).
    { unfold py_float in Hp. destruct (parse_float _); [discriminate|reflexivity]. }
    pose proof (unreadable_percentage_unmapped _ Hc Hparse) as Hun.
    rewrite first_equal_app in Hun.
    unfold standardize_occurrence.
    replace (is_None x) with false by (destruct x; simpl; congruence).
    destruct (first_equal ai_occurrence_map _); [discriminate|].
    rewrite Hun, Hc.
    unfold bucket_percentage. rewrite Hp. reflexivity.
Qed.

Lemma normalisers_never_raise_witness :
  standardize_occurrence (PStr "about 5o%") = ([], Return (Some "ABOUT 5O%")).
Proof.
  apply (normalisers_never_raise (PStr "about 5o%"));
    [discriminate | reflexivity | reflexivity].
Defined.

(** C10.  Each normaliser is idempotent on strings: the label it returns
    for a string is returned unchanged when it is normalised again. *)
Theorem normalisers_idempotent (s : string) :
  (exists t, standardize_severity (PStr s) = ret (Some t) /\
             standardize_severity (PStr t) = ret (Some t)) /\
  (exists t, standardize_occurrence (PStr s) = ret (Some t) /\
             standardize_occurrence (PStr t) = ret (Some t)) /\
  (exists t, standardize_priority (PStr s) = ret (Some t) /\
             standardize_priority (PStr t) = ret (Some t)).
Proof.
  split; [|split].
  - unfold standardize_severity at 1. cbn [is_None str].
    destruct (first_contained ai_severity_map (upper s)) as [v|] eqn:E1.
    { exists v. split; [reflexivity|].
      apply first_contained_value in E1. simpl in E1.
      repeat (destruct E1 as [<-|E1]; [vm_compute; reflexivity|]). destruct E1. }
    destruct (first_contained user_severity_map (upper s)) as [v|] eqn:E2.
    { exists v. split; [reflexivity|].
      apply first_contained_value in E2. simpl in E2.
      repeat (destruct E2 as [<-|E2]; [vm_compute; reflexivity|]). destruct E2. }
    exists (upper s). split; [reflexivity|].
    unfold standardize_severity. cbn [is_None str].
    rewrite upper_idem, E1, E2. reflexivity.
  - unfold standardize_occurrence at 1. cbn [is_None str].
    destruct (first_equal ai_occurrence_map (upper s)) as [v|] eqn:E1.
    { exists v. split; [reflexivity|].
      apply first_equal_value in E1. simpl in E1.
      repeat (destruct E1 as [<-|E1]; [vm_compute; reflexivity|]). destruct E1. }
    destruct (first_equal user_to_ai_map (upper s)) as [v|] eqn:E2.
    { exists v. split; [reflexivity|].
      apply first_equal_value in E2. simpl in E2.
      repeat (destruct E2 as [<-|E2]; [vm_compute; reflexivity|]). destruct E2. }
    destruct (contains_char "%" (upper s)) eqn:E3.
    + destruct (bucket_percentage_cases (upper s)) as [[v Hv]|[Hr _]].
      * exists v. rewrite Hv. split; [reflexivity|].
        apply bucket_percentage_value in Hv. simpl in Hv.
        repeat (destruct Hv as [<-|Hv]; [vm_compute; reflexivity|]). destruct Hv.
      * exists (upper s). rewrite Hr. split; [reflexivity|].
        unfold standardize_occurrence. cbn [is_None str].
        rewrite upper_idem, E1, E2, E3, Hr. reflexivity.
    + exists (upper s). split; [reflexivity|].
      unfold standardize_occurrence. cbn [is_None str].
      rewrite upper_idem, E1, E2, E3. reflexivity.
  - unfold standardize_priority at 1. cbn [is_None str].
    destruct (first_equal ai_priority_map (upper s)) as [v|] eqn:E1.
    { exists v. split; [reflexivity|].
      apply first_equal_value in E1. simpl in E1.
      repeat (destruct E1 as [<-|E1]; [vm_compute; reflexivity|]). destruct E1. }
    destruct (first_equal user_priority_map (upper s)) as [v|] eqn:E2.
    { exists v. split; [reflexivity|].
      apply first_equal_value in E2. simpl in E2.
      repeat (destruct E2 as [<-|E2]; [vm_compute; reflexivity|]). destruct E2. }
    exists (upper s). split; [reflexivity|].
    unfold standardize_priority. cbn [is_None str].
    rewrite upper_idem, E1, E2. reflexivity.
Qed.

(** ** Columns seen row by row *)

Section RowView.
Context {R : Type}.

Lemma zip_with_map_same {A B C} (h : A -> B -> C) (f : R -> A) (g : R -> B) (l : list R) :
  zip_with h (map f l) (map g l) = map (fun r => h (f r) (g r)) l.
Proof. induction l as [|r l IH]; simpl; [reflexivity|]. rewrite IH. reflexivity. Qed.

Lemma replicate_true_map (l : list R) :
  replicate (length l) true = map (fun _ => true) l.
Proof. induction l as [|r l IH]; simpl; [reflexivity|]. rewrite IH. reflexivity. Qed.

Lemma all_axis1_rows (tests : list (R -> bool)) (l : list R) :
  all_axis1 (length l) (map (fun t => map t l) tests) =
  map (fun r => forallb (fun t => t r) tests) l.
Proof.
  unfold all_axis1. induction tests as [|t tests IH]; simpl.
  - apply replicate_true_map.
  - rewrite IH. apply zip_with_map_same.
Qed.

Lemma sum_series_rows (p : R -> bool) (l : list R) :
  sum_series (map p l) = length (List.filter p l).
Proof.
  unfold sum_series. induction l as [|r l IH]; [reflexivity|].
  cbn [map List.filter]. unfold id at 1.
  destruct (p r); cbn [length]; rewrite IH; reflexivity.
Qed.

Lemma notna_all_sum_rows (fs : list (R -> option string)) (l : list R) :
  notna_all_sum (length l) (map (fun f => map f l) fs) =
  length (List.filter (fun r => forallb (fun f => notna (f r)) fs) l).
Proof.
  unfold notna_all_sum.
  rewrite map_map.
  rewrite (map_ext _ (fun f => map (fun r => notna (f r)) l))
    by (intros f; apply map_map).
  change (map (fun f => map (fun r => notna (f r)) l) fs)
    with (map (fun f => (fun t => map t l) ((fun f r => notna (f r)) f)) fs).
  rewrite <- (map_map (fun f r => notna (f r)) (fun t => map t l)).
  rewrite all_axis1_rows, sum_series_rows.
  f_equal. apply filter_ext. intros r.
  induction fs as [|f fs IH]; simpl; [reflexivity|]. rewrite IH. reflexivity.
Qed.

Lemma filter_length_insert (p : R -> bool) (before after : list R) (r : R) :
  length (List.filter p (before ++ r :: after)) =
  ((if p r then 1 else 0) + length (List.filter p (before ++ after)))%nat.
Proof.
  rewrite !List.filter_app, !length_app. simpl.
  destruct (p r); simpl; lia.
Qed.

End RowView.

(** ** [calculate_match_rates] on a table that has the six columns *)

Lemma no_missing_columns df col :
  missing_columns df = [] -> In col required_columns -> has_column df col = true.
Proof.
  unfold missing_columns. intros H Hin.
  destruct (has_column df col) eqn:E; [reflexivity|].
  assert (Hf : In col (List.filter (fun col => negb (has_column df col)) required_columns)).
  { apply filter_In. split; [exact Hin|]. rewrite E. reflexivity. }
  rewrite H in Hf. destruct Hf.
Qed.

Lemma calculate_match_rates_returns df :
  missing_columns df = [] ->
  exists res m,
    calculate_match_rates df = ret (Some (res, m)) /\
    frame_of df m /\ results_of df m res.
Proof.
  intros Hmiss.
  assert (Hcol : forall col, In col required_columns -> has_column df col = true)
    by (intros col; apply no_missing_columns; exact Hmiss).
  unfold calculate_match_rates, getitem. rewrite Hmiss.
  rewrite !Hcol by (simpl; tauto).
  rewrite !bind_ret.
  rewrite !(mapM_ret _ _ _ standardize_severity_returns), !bind_ret.
  rewrite !(mapM_ret _ _ _ standardize_occurrence_returns), !bind_ret.
  rewrite !(mapM_ret _ _ _ standardize_priority_returns), !bind_ret.
  eexists _, _. split; [reflexivity|].
  split; constructor; cbn [user_severity_std ai_severity_std user_occurrence_std
    ai_occurrence_std user_priority_std ai_priority_std severity_match
    occurrence_match priority_match all_match Valid_Severity_Comparisons
    Valid_Occurrence_Comparisons Valid_Priority_Comparisons Severity_Match_Rate
    Occurrence_Match_Rate Priority_Match_Rate Overall_Match_Rate
    Total_Issues_Analyzed]; rewrite ?map_map; reflexivity.
Qed.

Lemma lookup_map {A B} (f : A -> B) (l : list A) (i : nat) (x : A) :
  l !! i = Some x -> map f l !! i = Some (f x).
Proof.
  revert i. induction l as [|y l IH]; intros [|i]; simpl; try discriminate.
  - intros [= ->]. reflexivity.
  - apply IH.
Qed.

(** The counts of valid comparisons, row by row. *)
Lemma valid_counts_by_rows df m res :
  frame_of df m -> results_of df m res ->
  Valid_Severity_Comparisons res =
    length (List.filter (fun r => notna (severity_label (r "user_severity")) &&
                                  notna (severity_label (r "ai_severity"))) (rows df)) /\
  Valid_Occurrence_Comparisons res =
    length (List.filter (fun r => notna (occurrence_label (r "user_occurrence")) &&
                                  notna (occurrence_label (r "ai_occurrence"))) (rows df)) /\
  Valid_Priority_Comparisons res =
    length (List.filter (fun r => notna (priority_label (r "user_priority")) &&
                                  notna (priority_label (r "ai_priority"))) (rows df)) /\
  valid_all (length (rows df)) m =
    length (List.filter (fun r => forallb notna (six_labels r)) (rows df)).
Proof.
  intros [Hus Has Huo Hao Hup Hap _ _ _ _] [Hvs Hvo Hvp _ _ _ _ _].
  unfold valid_all. rewrite Hvs, Hvo, Hvp, Hus, Has, Huo, Hao, Hup, Hap.
  repeat split.
  - rewrite (notna_all_sum_rows
      [fun r => severity_label (r "user_severity");
       fun r => severity_label (r "ai_severity")]).
    apply f_equal, filter_ext. intros r. simpl. rewrite andb_true_r. reflexivity.
  - rewrite (notna_all_sum_rows
      [fun r => occurrence_label (r "user_occurrence");
       fun r => occurrence_label (r "ai_occurrence")]).
    apply f_equal, filter_ext. intros r. simpl. rewrite andb_true_r. reflexivity.
  - rewrite (notna_all_sum_rows
      [fun r => priority_label (r "user_priority");
       fun r => priority_label (r "ai_priority")]).
    apply f_equal, filter_ext. intros r. simpl. rewrite andb_true_r. reflexivity.
  - rewrite (notna_all_sum_rows
      [fun r => severity_label (r "user_severity");
       fun r => severity_label (r "ai_severity");
       fun r => occurrence_label (r "user_occurrence");
       fun r => occurrence_label (r "ai_occurrence");
       fun r => priority_label (r "user_priority");
       fun r => priority_label (r "ai_priority")]).
    reflexivity.
Qed.

Lemma eq_elem_true a b : eq_elem a b = true <-> both_equal a b.
Proof.
  unfold both_equal. destruct a as [x|], b as [y|]; simpl.
  - rewrite String.eqb_eq. split.
    + intros ->. eauto.
    + intros (s & [= ->] & [= ->]). reflexivity.
  - split; [discriminate|]. intros (s & _ & [=]).
  - split; [discriminate|]. intros (s & [=] & _).
  - split; [discriminate|]. intros (s & [=] & _).
Qed.

Lemma notna_true v : notna v = true <-> v <> None.
Proof. destruct v; simpl; split; congruence. Qed.

(** ** Counting rows *)

(** The flags that are true, counted row by row. *)
Lemma match_counts_by_rows df m :
  frame_of df m ->
  sum_series (severity_match m) =
    length (List.filter (fun r => eq_elem (severity_label (r "user_severity"))
                                          (severity_label (r "ai_severity"))) (rows df)) /\
  sum_series (occurrence_match m) =
    length (List.filter (fun r => eq_elem (occurrence_label (r "user_occurrence"))
                                          (occurrence_label (r "ai_occurrence"))) (rows df)) /\
  sum_series (priority_match m) =
    length (List.filter (fun r => eq_elem (priority_label (r "user_priority"))
                                          (priority_label (r "ai_priority"))) (rows df)) /\
  sum_series (all_match m) =
    length (List.filter (fun r => all_three_equal r) (rows df)).
Proof.
  intros [Hus Has Huo Hao Hup Hap Hsm Hom Hpm Ham].
  rewrite Ham, Hsm, Hom, Hpm, Hus, Has, Huo, Hao, Hup, Hap.
  unfold eq_series, and_series. rewrite !zip_with_map_same.
  rewrite !sum_series_rows. repeat split.
Qed.

Lemma filter_length_mono {A} (p q : A -> bool) (l : list A) :
  (forall x, p x = true -> q x = true) ->
  (length (List.filter p l) <= length (List.filter q l))%nat.
Proof.
  intros Hpq. induction l as [|x l IH]; simpl; [lia|].
  destruct (p x) eqn:Ep.
  - rewrite (Hpq x Ep). simpl. lia.
  - destruct (q x); simpl; lia.
Qed.

Lemma filter_length_total {A} (p : A -> bool) (l : list A) :
  (length (List.filter p l) <= length l)%nat.
Proof. induction l as [|x l IH]; simpl; [lia|]. destruct (p x); simpl; lia. Qed.

Lemma eq_elem_notna a b : eq_elem a b = true -> notna a = true /\ notna b = true.
Proof. destruct a, b; simpl; try discriminate. auto. Qed.

(** ** Claims about [calculate_match_rates] *)

(** C2.  On a table that lacks one of the six required columns,
    [calculate_match_rates] prints the warning that lists the missing
    columns and returns [None]: no result record and no frame. *)
Theorem missing_column_aborts df :
  (exists col, In col required_columns /\ has_column df col = false) ->
  calculate_match_rates df =
    ([Printed ("Warning: Missing columns in CSV: " +:+ join ", " (missing_columns df))],
     Return None).
Proof.
  intros (col & Hin & Hcol).
  unfold calculate_match_rates.
  destruct (missing_columns df) as [|c cs] eqn:E.
  - rewrite (no_missing_columns df col E Hin) in Hcol. discriminate.
  - reflexivity.
Qed.

Lemma missing_column_aborts_witness :
  calculate_match_rates table_without_priorities =
    ([Printed "Warning: Missing columns in CSV: user_priority, ai_priority"],
     Return None).
Proof.
  apply (missing_column_aborts table_without_priorities).
  exists "ai_priority". split; [simpl; tauto | reflexivity].
Defined.

(** The rows that a Boolean test keeps are the rows with the property it
    decides. *)
Lemma filter_length_decide {A} (p : A -> bool) (P : A -> Prop)
    `{forall x, Decision (P x)} (l : list A) :
  (forall x, p x = true <-> P x) ->
  length (List.filter p l) = length (filter P l).
Proof.
  intros Hp. induction l as [|x l IH]; [reflexivity|].
  cbn [List.filter]. rewrite filter_cons.
  destruct (decide (P x)) as [Hx|Hx].
  - rewrite (proj2 (Hp x) Hx). cbn [length]. rewrite IH. reflexivity.
  - destruct (p x) eqn:E; [exfalso; apply Hx, Hp, E|exact IH].
Qed.

Lemma forallb_notna l : forallb notna l = true <-> Forall (fun v => v <> None) l.
Proof.
  induction l as [|v l IH]; [split; constructor|].
  cbn [forallb]. rewrite andb_true_iff, Forall_cons, IH, notna_true. reflexivity.
Qed.

(** C1.  On a table with the six columns, row by row: the frame holds the
    six canonical values of the row; the match flag of an attribute is
    true exactly when both canonical values are non-null and equal; the
    all-three flag is true exactly when the six canonical values are
    non-null and the three flags are true.  The denominator of the
    overall rate is the number of rows whose six canonical values are
    non-null, and the overall rate is computed over that number. *)
Theorem match_flags_meaning df :
  missing_columns df = [] ->
  exists res m,
    calculate_match_rates df = ret (Some (res, m)) /\
    (forall i r, rows df !! i = Some r ->
       exists sm om pm am : bool,
         [ user_severity_std m !! i; ai_severity_std m !! i;
           user_occurrence_std m !! i; ai_occurrence_std m !! i;
           user_priority_std m !! i; ai_priority_std m !! i ]
           = map Some (six_labels r) /\
         severity_match m !! i = Some sm /\
         occurrence_match m !! i = Some om /\
         priority_match m !! i = Some pm /\
         all_match m !! i = Some am /\
         (sm = true <->
            both_equal (severity_label (r "user_severity"))
                       (severity_label (r "ai_severity"))) /\
         (om = true <->
            both_equal (occurrence_label (r "user_occurrence"))
                       (occurrence_label (r "ai_occurrence"))) /\
         (pm = true <->
            both_equal (priority_label (r "user_priority"))
                       (priority_label (r "ai_priority"))) /\
         (am = true <->
            Forall (fun v => v <> None) (six_labels r) /\
            sm = true /\ om = true /\ pm = true)) /\
    valid_all (length (rows df)) m =
      length (filter (fun r => Forall (fun v => v <> None) (six_labels r)) (rows df)) /\
    Overall_Match_Rate res =
      round (match_rate (all_match m)
               (length (filter (fun r => Forall (fun v => v <> None) (six_labels r))
                               (rows df)))) 2.
Proof.
  intros Hmiss.
  destruct (calculate_match_rates_returns df Hmiss) as (res & m & Hrun & Hm & Hres).
  assert (Hden : valid_all (length (rows df)) m =
            length (filter (fun r => Forall (fun v => v <> None) (six_labels r)) (rows df))).
  { destruct (valid_counts_by_rows df m res Hm Hres) as (_ & _ & _ & ->).
    apply filter_length_decide. intros r. apply forallb_notna. }
  exists res, m. split; [exact Hrun|].
  split; [|split].
  - intros i r Hr.
    destruct Hm as [Hus Has Huo Hao Hup Hap Hsm Hom Hpm Ham].
    rewrite Ham, Hsm, Hom, Hpm, Hus, Has, Huo, Hao, Hup, Hap.
    unfold eq_series, and_series. rewrite !zip_with_map_same.
    exists (eq_elem (severity_label (r "user_severity")) (severity_label (r "ai_severity"))),
           (eq_elem (occurrence_label (r "user_occurrence")) (occurrence_label (r "ai_occurrence"))),
           (eq_elem (priority_label (r "user_priority")) (priority_label (r "ai_priority"))).
    eexists.
    rewrite !(lookup_map _ _ _ _ Hr).
    split; [reflexivity|].
    do 4 (split; [reflexivity|]).
    split; [apply eq_elem_true|].
    split; [apply eq_elem_true|].
    split; [apply eq_elem_true|].
    rewrite !andb_true_iff. split.
    + intros [[Hs Ho] Hp]. repeat split; try assumption.
      apply eq_elem_true in Hs, Ho, Hp. unfold six_labels.
      destruct Hs as (s1 & -> & ->), Ho as (s2 & -> & ->), Hp as (s3 & -> & ->).
      repeat constructor; discriminate.
    + intros (_ & Hs & Ho & Hp). repeat split; assumption.
  - exact Hden.
  - rewrite <- Hden. apply (ro_overall_rate df m res Hres).
Qed.

Lemma match_flags_meaning_witness :
  missing_columns table_with_a_null = [] /\
  exists res m, calculate_match_rates table_with_a_null = ret (Some (res, m)) /\
                severity_match m = [true; false; false] /\
                all_match m = [true; false; false] /\
                valid_all 3 m = 2%nat /\
                (Overall_Match_Rate res == 50)%Q.
Proof.
  split; [reflexivity|].
  destruct (match_flags_meaning table_with_a_null eq_refl) as (res & m & Hrun & _).
  exists res, m. split; [exact Hrun|].
  vm_compute in Hrun. injection Hrun as <- <-. repeat split.
Defined.

(** A row whose automated severity is [None].  Take any table with the six
    columns and a row of it whose automated severity is [None] while its
    five other ratings are not.  Compared with the table without that
    row, the row adds nothing to the valid severity comparisons nor to
    the denominator of the overall rate, it adds one to the valid
    occurrence comparisons and one to the valid priority comparisons, and
    it adds one to the total of issues. *)
Theorem null_ai_severity_row (cols : list string)
    (before after : list (string -> pyval)) (r : string -> pyval) :
  missing_columns (mkDataFrame cols (before ++ r :: after)) = [] ->
  r "ai_severity" = PNone ->
  r "user_severity" <> PNone ->
  r "user_occurrence" <> PNone -> r "ai_occurrence" <> PNone ->
  r "user_priority" <> PNone -> r "ai_priority" <> PNone ->
  exists res m res' m',
    calculate_match_rates (mkDataFrame cols (before ++ r :: after))
      = ret (Some (res, m)) /\
    calculate_match_rates (mkDataFrame cols (before ++ after))
      = ret (Some (res', m')) /\
    Valid_Severity_Comparisons res = Valid_Severity_Comparisons res' /\
    valid_all (length (before ++ r :: after)) m
      = valid_all (length (before ++ after)) m' /\
    Overall_Match_Rate res
      = round (match_rate (all_match m) (valid_all (length (before ++ r :: after)) m)) 2 /\
    Valid_Occurrence_Comparisons res = S (Valid_Occurrence_Comparisons res') /\
    Valid_Priority_Comparisons res = S (Valid_Priority_Comparisons res') /\
    Total_Issues_Analyzed res = S (Total_Issues_Analyzed res').
Proof.
  intros Hmiss Hnull Hus Huo Hao Hup Hap.
  destruct (calculate_match_rates_returns _ Hmiss) as (res & m & Hrun & Hm & Hres).
  assert (Hmiss' : missing_columns (mkDataFrame cols (before ++ after)) = [])
    by exact Hmiss.
  destruct (calculate_match_rates_returns _ Hmiss') as (res' & m' & Hrun' & Hm' & Hres').
  exists res, m, res', m'.
  split; [exact Hrun|]. split; [exact Hrun'|].
  destruct (valid_counts_by_rows _ _ _ Hm Hres) as (Vs & Vo & Vp & Va).
  destruct (valid_counts_by_rows _ _ _ Hm' Hres') as (Vs' & Vo' & Vp' & Va').
  cbn [rows] in Vs, Vo, Vp, Va, Vs', Vo', Vp', Va'.
  rewrite filter_length_insert in Vs, Vo, Vp, Va.
  assert (Las : severity_label (r "ai_severity") = None)
    by (apply severity_label_None; exact Hnull).
  assert (Luo : notna (occurrence_label (r "user_occurrence")) = true)
    by (apply notna_true; rewrite occurrence_label_None; exact Huo).
  assert (Lao : notna (occurrence_label (r "ai_occurrence")) = true)
    by (apply notna_true; rewrite occurrence_label_None; exact Hao).
  assert (Lup : notna (priority_label (r "user_priority")) = true)
    by (apply notna_true; rewrite priority_label_None; exact Hup).
  assert (Lap : notna (priority_label (r "ai_priority")) = true)
    by (apply notna_true; rewrite priority_label_None; exact Hap).
  unfold six_labels in Va at 1. cbn [forallb] in Va.
  rewrite Las in Vs, Va. rewrite Luo, Lao in Vo. rewrite Lup, Lap in Vp.
  cbn [notna andb] in Vs, Va, Vo, Vp. rewrite andb_false_r in Vs, Va.
  repeat split.
  - rewrite Vs, Vs'. reflexivity.
  - cbn [rows] in *. rewrite Va, Va'. reflexivity.
  - apply (ro_overall_rate _ _ _ Hres).
  - rewrite Vo, Vo'. reflexivity.
  - rewrite Vp, Vp'. reflexivity.
  - rewrite (ro_total _ _ _ Hres), (ro_total _ _ _ Hres'). cbn [rows].
    rewrite !length_app. simpl. lia.
Qed.

Lemma null_ai_severity_row_example :
  exists res m res' m',
    calculate_match_rates
      (mkDataFrame required_columns (example_rows ++ [row_with_null_ai_severity]))
      = ret (Some (res, m)) /\
    calculate_match_rates (mkDataFrame required_columns (example_rows ++ []))
      = ret (Some (res', m')) /\
    Valid_Severity_Comparisons res = 2%nat /\
    Valid_Severity_Comparisons res' = 2%nat /\
    Valid_Occurrence_Comparisons res = 3%nat /\
    Valid_Priority_Comparisons res = 3%nat /\
    Total_Issues_Analyzed res = 3%nat.
Proof.
  destruct (null_ai_severity_row required_columns example_rows []
              row_with_null_ai_severity)
    as (res & m & res' & m' & Hrun & Hrun' & _);
    [reflexivity | reflexivity | discriminate | discriminate | discriminate
    | discriminate | discriminate |].
  exists res, m, res', m'.
  split; [exact Hrun|]. split; [exact Hrun'|].
  vm_compute in Hrun, Hrun'.
  injection Hrun as <- <-. injection Hrun' as <- <-.
  repeat split.
Defined.

(** A cell holding the float NaN, which is what [pandas.read_csv] stores for
    an empty field, is not [None]: the normalisers turn it into the text
    "NAN". *)
Remark nan_cell_is_labelled :
  severity_label PNaN = Some "NAN" /\
  occurrence_label PNaN = Some "NAN" /\
  priority_label PNaN = Some "NAN".
Proof. repeat split. Qed.

(** C6 is not met when the null is the NaN of an empty CSV field: the
    automated severity of the row is labelled "NAN", and the row is
    counted among the valid severity comparisons and in the denominator
    of the overall rate (both are 1 where the claim asks for 0), besides
    the occurrence and priority comparisons and the total. *)
Example nan_ai_severity_is_counted :
  exists res m,
    calculate_match_rates table_with_empty_ai_severity = ret (Some (res, m)) /\
    ai_severity_std m = [Some "NAN"] /\
    Valid_Severity_Comparisons res = 1%nat /\
    valid_all 1 m = 1%nat /\
    Valid_Occurrence_Comparisons res = 1%nat /\
    Valid_Priority_Comparisons res = 1%nat /\
    Total_Issues_Analyzed res = 1%nat.
Proof. eexists _, _. split; [vm_compute; reflexivity|]. repeat split. Qed.

Lemma rate_as_stated_holds (matches valid : nat) :
  (matches <= valid)%nat ->
  rate_as_stated (round (rate_of matches valid) 2) matches valid.
Proof.
  intros Hle. split; [reflexivity|]. split.
  - intros Hpos. apply Qabs_Qle_condition.
    destruct (reported_rate_close matches valid Hpos Hle) as [Lo Hi].
    cbv zeta in Lo, Hi. split; lra.
  - intros ->. reflexivity.
Qed.

Lemma present_and_equal_true a b : eq_elem a b = true <-> present_and_equal a b.
Proof.
  rewrite eq_elem_true. unfold both_equal, present_and_equal. split.
  - intros (s & -> & ->). repeat split; discriminate.
  - intros (Ha & _ & <-). destruct a as [s|]; [eauto|congruence].
Qed.

Lemma both_present_true a b : notna a && notna b = true <-> both_present a b.
Proof. unfold both_present. rewrite andb_true_iff, !notna_true. reflexivity. Qed.

(** C7.  Each reported rate, the overall rate included, is the rate that
    the code's binary64 arithmetic gives from two counts of rows, kept to two
    decimals: the rows where both canonical values are non-null and equal
    (for the overall rate, where this holds for the three attributes)
    over the rows where both are non-null (where the six are).  Over no
    valid comparison the rate is exactly 0; otherwise it is within half a
    hundredth (and less than 10^-12 more) of matches / valid comparisons *
    100.  The three counts of valid comparisons reported are these
    denominators. *)
Theorem match_rate_formula df :
  missing_columns df = [] ->
  exists res m,
    calculate_match_rates df = ret (Some (res, m)) /\
    rate_as_stated (Severity_Match_Rate res)
      (length (filter (fun r => present_and_equal (severity_label (r "user_severity"))
                                                  (severity_label (r "ai_severity")))
                      (rows df)))
      (length (filter (fun r => both_present (severity_label (r "user_severity"))
                                             (severity_label (r "ai_severity")))
                      (rows df))) /\
    rate_as_stated (Occurrence_Match_Rate res)
      (length (filter (fun r => present_and_equal (occurrence_label (r "user_occurrence"))
                                                  (occurrence_label (r "ai_occurrence")))
                      (rows df)))
      (length (filter (fun r => both_present (occurrence_label (r "user_occurrence"))
                                             (occurrence_label (r "ai_occurrence")))
                      (rows df))) /\
    rate_as_stated (Priority_Match_Rate res)
      (length (filter (fun r => present_and_equal (priority_label (r "user_priority"))
                                                  (priority_label (r "ai_priority")))
                      (rows df)))
      (length (filter (fun r => both_present (priority_label (r "user_priority"))
                                             (priority_label (r "ai_priority")))
                      (rows df))) /\
    rate_as_stated (Overall_Match_Rate res)
      (length (filter (fun r =>
                 present_and_equal (severity_label (r "user_severity"))
                                   (severity_label (r "ai_severity")) /\
                 present_and_equal (occurrence_label (r "user_occurrence"))
                                   (occurrence_label (r "ai_occurrence")) /\
                 present_and_equal (priority_label (r "user_priority"))
                                   (priority_label (r "ai_priority")))
                      (rows df)))
      (length (filter (fun r => Forall (fun v => v <> None) (six_labels r)) (rows df))) /\
    Valid_Severity_Comparisons res =
      length (filter (fun r => both_present (severity_label (r "user_severity"))
                                            (severity_label (r "ai_severity")))
                     (rows df)) /\
    Valid_Occurrence_Comparisons res =
      length (filter (fun r => both_present (occurrence_label (r "user_occurrence"))
                                            (occurrence_label (r "ai_occurrence")))
                     (rows df)) /\
    Valid_Priority_Comparisons res =
      length (filter (fun r => both_present (priority_label (r "user_priority"))
                                            (priority_label (r "ai_priority")))
                     (rows df)).
Proof.
  intros Hmiss.
  destruct (calculate_match_rates_returns df Hmiss) as (res & m & Hrun & Hm & Hres).
  destruct (valid_counts_by_rows _ _ _ Hm Hres) as (Vs & Vo & Vp & Va).
  destruct (match_counts_by_rows _ _ Hm) as (Ms & Mo & Mp & Ma).
  destruct Hres as [_ _ _ Rs Ro Rp Ra _].
  unfold match_rate in Rs, Ro, Rp, Ra. fold (rate_of (sum_series (severity_match m))
    (Valid_Severity_Comparisons res)) in Rs.
  fold (rate_of (sum_series (occurrence_match m)) (Valid_Occurrence_Comparisons res)) in Ro.
  fold (rate_of (sum_series (priority_match m)) (Valid_Priority_Comparisons res)) in Rp.
  fold (rate_of (sum_series (all_match m)) (valid_all (length (rows df)) m)) in Ra.
  assert (Ls : (sum_series (severity_match m) <= Valid_Severity_Comparisons res)%nat).
  { rewrite Ms, Vs. apply filter_length_mono. intros r H.
    apply eq_elem_notna in H as [-> ->]. reflexivity. }
  assert (Lo : (sum_series (occurrence_match m) <= Valid_Occurrence_Comparisons res)%nat).
  { rewrite Mo, Vo. apply filter_length_mono. intros r H.
    apply eq_elem_notna in H as [-> ->]. reflexivity. }
  assert (Lp : (sum_series (priority_match m) <= Valid_Priority_Comparisons res)%nat).
  { rewrite Mp, Vp. apply filter_length_mono. intros r H.
    apply eq_elem_notna in H as [-> ->]. reflexivity. }
  assert (La : (sum_series (all_match m) <= valid_all (length (rows df)) m)%nat).
  { rewrite Ma, Va. apply filter_length_mono. intros r.
    unfold all_three_equal, six_labels. rewrite !andb_true_iff.
    intros [[Hs Ho] Hp]. cbn [forallb].
    apply eq_elem_notna in Hs as [-> ->]. apply eq_elem_notna in Ho as [-> ->].
    apply eq_elem_notna in Hp as [-> ->]. reflexivity. }
  pose proof (rate_as_stated_holds _ _ Ls) as Hs. rewrite <- Rs in Hs.
  pose proof (rate_as_stated_holds _ _ Lo) as Ho. rewrite <- Ro in Ho.
  pose proof (rate_as_stated_holds _ _ Lp) as Hp. rewrite <- Rp in Hp.
  pose proof (rate_as_stated_holds _ _ La) as Ha. rewrite <- Ra in Ha.
  rewrite (filter_length_decide _ (fun r => both_present _ _) (rows df)
             (fun r => both_present_true _ _)) in Vs.
  rewrite (filter_length_decide _ (fun r => both_present _ _) (rows df)
             (fun r => both_present_true _ _)) in Vo.
  rewrite (filter_length_decide _ (fun r => both_present _ _) (rows df)
             (fun r => both_present_true _ _)) in Vp.
  rewrite (filter_length_decide _ (fun r => Forall (fun v => v <> None) (six_labels r))
             (rows df) (fun r => forallb_notna _)) in Va.
  rewrite (filter_length_decide _ (fun r => present_and_equal _ _) (rows df)
             (fun r => present_and_equal_true _ _)) in Ms.
  rewrite (filter_length_decide _ (fun r => present_and_equal _ _) (rows df)
             (fun r => present_and_equal_true _ _)) in Mo.
  rewrite (filter_length_decide _ (fun r => present_and_equal _ _) (rows df)
             (fun r => present_and_equal_true _ _)) in Mp.
  rewrite (filter_length_decide (fun r => all_three_equal r)
             (fun r =>
                present_and_equal (severity_label (r "user_severity"))
                                  (severity_label (r "ai_severity")) /\
                present_and_equal (occurrence_label (r "user_occurrence"))
                                  (occurrence_label (r "ai_occurrence")) /\
                present_and_equal (priority_label (r "user_priority"))
                                  (priority_label (r "ai_priority"))) (rows df)) in Ma.
  2:{ intros r. unfold all_three_equal.
      rewrite !andb_true_iff, !present_and_equal_true. tauto. }
  rewrite Ms, Vs in Hs. rewrite Mo, Vo in Ho. rewrite Mp, Vp in Hp. rewrite Ma, Va in Ha.
  exists res, m. split; [exact Hrun|].
  split; [exact Hs|]. split; [exact Ho|]. split; [exact Hp|]. split; [exact Ha|].
  split; [exact Vs|]. split; [exact Vo|exact Vp].
Qed.

Lemma match_rate_formula_witness :
  exists res m,
    calculate_match_rates table_23_of_160 = ret (Some (res, m)) /\
    Valid_Severity_Comparisons res = 160%nat /\
    sum_series (severity_match m) = 23%nat /\
    Severity_Match_Rate res = binary64 (1437 # 100) /\
    (Qabs (Severity_Match_Rate res - 23 / 160 * 100)
       <= (1 # 200) + (1 # 1000000000000))%Q.
Proof.
  destruct (match_rate_formula table_23_of_160 eq_refl)
    as (res & m & Hrun & (_ & Hclose & _) & _).
  exists res, m. split; [exact Hrun|].
  vm_compute in Hrun. injection Hrun as <- <-.
  split; [reflexivity|]. split; [reflexivity|]. split; [vm_compute; reflexivity|].
  vm_compute. discriminate.
Defined.

(** The same table in exact arithmetic: 23 / 160 * 100 is 14.375, which the
    binary64 quotient and product miss from below, so that 14.37 and not
    14.38 is reported. *)
Example rate_23_of_160 :
  (rate_of 23 160 < 14375 # 1000)%Q /\
  round (rate_of 23 160) 2 = binary64 (1437 # 100).
Proof. split; vm_compute; reflexivity. Qed.

(** A table in which no comparison is valid: every rate is 0. *)
Example rates_without_valid_comparison :
  exists res m,
    calculate_match_rates
      (mkDataFrame required_columns [row_of PNone PNone PNone PNone PNone PNone])
      = ret (Some (res, m)) /\
    Valid_Severity_Comparisons res = 0%nat /\
    (Severity_Match_Rate res == 0)%Q /\ (Occurrence_Match_Rate res == 0)%Q /\
    (Priority_Match_Rate res == 0)%Q /\ (Overall_Match_Rate res == 0)%Q /\
    Total_Issues_Analyzed res = 1%nat.
Proof. eexists _, _. split; [vm_compute; reflexivity|]. repeat split. Qed.

(** ** Means of finite rates *)

Lemma foldl_fadd_finite a qs :
  foldl fadd (FFin a) (map FFin qs) = FFin (foldl Qplus a qs).
Proof. revert a. induction qs as [|q qs IH]; intros a; simpl; [reflexivity|apply IH]. Qed.

Lemma foldl_Qplus_sum a qs : (foldl Qplus a qs == a + Qsum qs)%Q.
Proof.
  revert a. induction qs as [|q qs IH]; intros a; simpl.
  - ring.
  - rewrite IH. ring.
Qed.

Lemma Qsum_perm l l' : Permutation l l' -> (Qsum l == Qsum l')%Q.
Proof.
  induction 1 as [|x l l' _ IH|x y l|l l' l'' _ IH1 _ IH2]; simpl.
  - reflexivity.
  - rewrite IH. reflexivity.
  - ring.
  - rewrite IH1. exact IH2.
Qed.

Lemma filter_finite qs :
  List.filter (fun x => negb (is_nan x)) (map FFin qs) = map FFin qs.
Proof. induction qs as [|q qs IH]; simpl; [reflexivity|]. rewrite IH. reflexivity. Qed.

Lemma mean_finite qs :
  qs <> [] -> exists y, mean (map FFin qs) = FFin y /\ (y == arithmetic_mean qs)%Q.
Proof.
  intros Hne. unfold mean. rewrite filter_finite.
  destruct qs as [|q qs]; [congruence|].
  change (map FFin (q :: qs)) with (FFin q :: map FFin qs). cbv beta iota.
  change (FFin q :: map FFin qs) with (map FFin (q :: qs)).
  rewrite foldl_fadd_finite, length_map. cbn [fdiv_count].
  eexists. split; [reflexivity|].
  unfold arithmetic_mean. rewrite foldl_Qplus_sum.
  apply Qmult_comp; [ring|reflexivity].
Qed.

Lemma mean_finite_perm l qs :
  Permutation l (map FFin qs) -> qs <> [] ->
  exists y, mean l = FFin y /\ (y == arithmetic_mean qs)%Q.
Proof.
  intros Hp Hne.
  destruct (Permutation_map_inv _ _ Hp) as (qs' & -> & Hqs).
  assert (Hne' : qs' <> []).
  { intros ->. symmetry in Hqs. apply Permutation_nil in Hqs. congruence. }
  destruct (mean_finite qs' Hne') as (y & Hy & Ey).
  exists y. split; [exact Hy|].
  rewrite Ey. unfold arithmetic_mean.
  rewrite (Qsum_perm _ _ Hqs), (Permutation_length Hqs). reflexivity.
Qed.

(** ** The first loop of [create_comparison_visualization] *)

Lemma to_float_cases v :
  (exists x, to_float v = ret x) \/
  (exists e, to_float v = raise e /\ ValueError_or_TypeError e = true).
Proof.
  destruct v as [x|s|]; simpl.
  - left. eauto.
  - unfold py_float. destruct (parse_float s); [left|right]; eauto.
  - right. eauto.
Qed.

(** The conversion returns: a failure is caught and reported. *)
Lemma convert_returns labels i data :
  exists out converted, convert labels i data = (out, Return converted).
Proof.
  unfold convert.
  destruct (to_float_cases (get_rate data "Severity Match Rate (%)" "severity_match_rate"))
    as [[x ->]|(e & -> & He)];
    [rewrite bind_ret | unfold raise, bind, try_except; rewrite He; simpl; eauto].
  destruct (to_float_cases (get_rate data "Occurrence Match Rate (%)" "occurrence_match_rate"))
    as [[y ->]|(e & -> & He)];
    [rewrite bind_ret | unfold raise, bind, try_except; rewrite He; simpl; eauto].
  destruct (to_float_cases (get_rate data "Priority Match Rate (%)" "priority_match_rate"))
    as [[z ->]|(e & -> & He)];
    [rewrite bind_ret | unfold raise, bind, try_except; rewrite He; simpl; eauto].
  simpl. eauto.
Qed.

Lemma build_df_data_eq labels i data_list df_data :
  build_df_data labels i data_list df_data =
    (warnings labels i data_list,
     Return (df_data ++ flat_map three_rows (accepted labels i data_list))).
Proof.
  revert i df_data. induction data_list as [|data rest IH]; intros i df_data.
  - simpl. rewrite app_nil_r. reflexivity.
  - cbn [build_df_data accepted warnings].
    destruct (convert_returns labels i data) as (out & converted & ->).
    cbn [fst snd bind].
    destruct converted as [m|]; rewrite IH.
    + cbn [flat_map]. rewrite <- app_assoc. reflexivity.
    + reflexivity.
Qed.

Lemma rates_of_three_rows acc :
  rates_of (flat_map three_rows acc) "Severity" = map severity acc /\
  rates_of (flat_map three_rows acc) "Occurrence" = map occurrence acc /\
  rates_of (flat_map three_rows acc) "Priority" = map priority acc.
Proof.
  unfold rates_of.
  induction acc as [|m acc (IHs & IHo & IHp)]; [repeat split|].
  cbn. rewrite IHs, IHo, IHp. repeat split.
Qed.

(** ** The pivoted frame *)

Lemma metrics_row_lookup m :
  metrics_row m !! "Severity" = Some (severity m) /\
  metrics_row m !! "Occurrence" = Some (occurrence m) /\
  metrics_row m !! "Priority" = Some (priority m).
Proof.
  unfold metrics_row. repeat split.
Qed.

Lemma table_of_fresh m acc :
  label m ∉ map label acc -> table_of acc !! label m = None.
Proof.
  intros Hm. apply not_elem_of_list_to_map_1.
  rewrite <- list_fmap_compose. exact Hm.
Qed.

Lemma pivot_three_rows acc :
  NoDup (map label acc) -> pivot (flat_map three_rows acc) = ret (table_of acc).
Proof.
  induction acc as [|m acc IH]; [reflexivity|].
  intros Hnd. apply NoDup_cons in Hnd as [Hm Hnd].
  cbn [flat_map three_rows app pivot]. rewrite (IH Hnd), bind_ret.
  cbn [Measurement Metric Match_Rate].
  rewrite (table_of_fresh m acc Hm). cbn [from_option id].
  rewrite lookup_empty, bind_ret.
  rewrite lookup_insert_eq. cbn [from_option id].
  rewrite lookup_insert_ne by discriminate. rewrite lookup_empty, bind_ret.
  rewrite lookup_insert_eq. cbn [from_option id].
  rewrite !lookup_insert_ne by discriminate. rewrite lookup_empty.
  rewrite !insert_insert_eq. reflexivity.
Qed.

Lemma elem_of_pivot_columns t metric l row :
  t !! l = Some row -> metric ∈ dom row -> metric ∈ pivot_columns t.
Proof.
  intros Hl Hm. unfold pivot_columns. apply elem_of_union_list.
  exists (dom row). split; [|exact Hm].
  apply list_elem_of_fmap. exists (l, row). split; [reflexivity|].
  apply elem_of_map_to_list. exact Hl.
Qed.

Lemma lookup_mean_axis0 t metric :
  metric ∈ pivot_columns t ->
  mean_axis0 t !! metric = Some (mean (pivot_column t metric)).
Proof.
  intros Hm. unfold mean_axis0. apply lookup_set_to_map.
  - intros y y' _ _ E. exact E.
  - exists metric. split; [exact Hm|reflexivity].
Qed.

Lemma pivot_column_table_of acc :
  NoDup (map label acc) ->
  Permutation (pivot_column (table_of acc) "Severity") (map severity acc) /\
  Permutation (pivot_column (table_of acc) "Occurrence") (map occurrence acc) /\
  Permutation (pivot_column (table_of acc) "Priority") (map priority acc).
Proof.
  intros Hnd. unfold pivot_column, table_of.
  assert (Hp : Permutation
                 (map_to_list (list_to_map ((fun m => (label m, metrics_row m)) <$> acc)
                                 : gmap string (gmap string pyfloat)))
                 ((fun m => (label m, metrics_row m)) <$> acc)).
  { apply map_to_list_to_map. rewrite <- list_fmap_compose. exact Hnd. }
  rewrite !Hp. clear Hp Hnd.
  induction acc as [|m acc (IHs & IHo & IHp)]; [repeat split; constructor|].
  cbn [fmap list_fmap omap list_omap snd map].
  destruct (metrics_row_lookup m) as (-> & -> & ->).
  repeat split; constructor; assumption.
Qed.

Lemma pivot_silent df : fst (pivot df) = [].
Proof.
  induction df as [|r df IH]; [reflexivity|].
  cbn [pivot]. destruct (pivot df) as [out [t|e]]; cbn [fst] in IH; subst out.
  - cbn [bind].
    destruct (default ∅ (t !! Measurement r) !! Metric r); reflexivity.
  - reflexivity.
Qed.

Lemma create_comparison_visualization_eq data_list labels :
  data_list <> [] ->
  create_comparison_visualization data_list labels =
    (warnings labels 0 data_list
       ++ fst (after_loop (flat_map three_rows (accepted labels 0 data_list))),
     snd (after_loop (flat_map three_rows (accepted labels 0 data_list)))).
Proof.
  intros Hne. unfold create_comparison_visualization.
  destruct data_list as [|data rest]; [congruence|].
  rewrite build_df_data_eq. cbn [app bind].
  fold (after_loop (flat_map three_rows (accepted labels 0 (data :: rest)))).
  destruct (after_loop _). reflexivity.
Qed.

(** *** The rectangles of the chart *)

Lemma first_index_three_rows m acc :
  first_index "Severity" (flat_map three_rows (m :: acc)) = Some 0%nat /\
  first_index "Occurrence" (flat_map three_rows (m :: acc)) = Some 1%nat /\
  first_index "Priority" (flat_map three_rows (m :: acc)) = Some 2%nat.
Proof. repeat split. Qed.

Lemma unique_metrics m acc :
  unique (map Metric (flat_map three_rows (m :: acc)))
  = ["Severity"; "Occurrence"; "Priority"].
Proof.
  revert m. induction acc as [|m' acc IH]; intros m; [reflexivity|].
  specialize (IH m'). remember (m' :: acc) as rest eqn:E.
  cbn [flat_map three_rows app map Metric unique]. rewrite IH. reflexivity.
Qed.

(** A measurement with three finite rates has its three bars, and these
    are the first rectangles when the measurement is the first one. *)
Lemma barplot_three_bars m acc :
  finite_rates m = true ->
  exists rest,
    barplot (flat_map three_rows (m :: acc))
    = Bar (label m) "Severity" :: Bar (label m) "Occurrence"
      :: Bar (label m) "Priority" :: rest.
Proof.
  unfold finite_rates. rewrite !andb_true_iff. intros [[Hs Ho] Hp].
  unfold barplot. cbv zeta. rewrite unique_metrics.
  remember (flat_map three_rows acc) as df' eqn:E.
  cbn [flat_map three_rows app map Measurement Metric Match_Rate unique List.filter].
  rewrite Hs, Ho, Hp.
  cbn [flat_map List.filter existsb Measurement Metric].
  rewrite !String.eqb_refl.
  cbn [andb orb String.eqb Ascii.eqb Bool.eqb map app].
  eexists. reflexivity.
Qed.

Lemma average_lines_three_bars p0 p1 p2 rest m acc :
  average_lines (p0 :: p1 :: p2 :: rest) (flat_map three_rows (m :: acc))
                ["Severity"; "Occurrence"; "Priority"]
  = ([AverageLine "Severity" (mean (map severity (m :: acc)));
      AverageLine "Occurrence" (mean (map occurrence (m :: acc)));
      AverageLine "Priority" (mean (map priority (m :: acc)))],
     Return tt).
Proof.
  destruct (rates_of_three_rows (m :: acc)) as (Es & Eo & Ep).
  destruct (first_index_three_rows m acc) as (Is & Io & Ip).
  cbn [average_lines]. rewrite Is, Io, Ip, Es, Eo, Ep. reflexivity.
Qed.

Lemma after_loop_eq acc :
  acc <> [] -> Forall (fun m => finite_rates m = true) acc ->
  after_loop (flat_map three_rows acc) =
    ([AverageLine "Severity" (mean (map severity acc));
      AverageLine "Occurrence" (mean (map occurrence acc));
      AverageLine "Priority" (mean (map priority acc))],
     match snd (pivot (flat_map three_rows acc)) with
     | Return t => Return (Some (<["AVERAGE" := mean_axis0 t]> t))
     | Raise e => Raise e
     end).
Proof.
  intros Hne Hfin. unfold after_loop.
  pose proof (pivot_silent (flat_map three_rows acc)) as Hsilent.
  destruct acc as [|m acc]; [congruence|].
  apply Forall_cons in Hfin as [Hm _].
  destruct (barplot_three_bars m acc Hm) as (rest & Hbars).
  remember (m :: acc) as acc' eqn:Eacc.
  replace (match flat_map three_rows acc' with
           | [] => raise ValueError
           | _ :: _ => ret (barplot (flat_map three_rows acc'))
           end) with (ret (barplot (flat_map three_rows acc')) : Py (list patch))
    by (subst acc'; reflexivity).
  rewrite bind_ret, Hbars. subst acc'.
  rewrite average_lines_three_bars.
  remember (m :: acc) as acc' eqn:Eacc.
  destruct (pivot (flat_map three_rows acc')) as [out [t|e]];
    cbn [fst] in Hsilent; subst out; reflexivity.
Qed.

(** A rate that is not finite has no bar.  With a single measurement whose
    occurrence and priority are NaN the chart holds two rectangles, the
    bar of the severity and the handle of the legend, and the look-up for
    the third metric raises: no table is built. *)
Example nan_rates_leave_no_bar :
  snd (create_comparison_visualization
         [ <["Severity Match Rate (%)" := ONum (FFin 7)]>
             (<["Occurrence Match Rate (%)" := ONum FNan]>
                (<["Priority Match Rate (%)" := ONum FNan]> ∅)) ] None)
  = Raise IndexError.
Proof. vm_compute. reflexivity. Qed.

(** Rates given as rationals are finite. *)
Lemma finite_rates_of acc (ss os ps : list Q) :
  map severity acc = map FFin ss -> map occurrence acc = map FFin os ->
  map priority acc = map FFin ps ->
  Forall (fun m => finite_rates m = true) acc.
Proof.
  revert ss os ps. induction acc as [|m acc IH]; intros ss os ps Hs Ho Hp; [constructor|].
  destruct ss as [|s ss], os as [|o os], ps as [|p ps]; try discriminate.
  cbn [map] in Hs, Ho, Hp. injection Hs as Hs Hss. injection Ho as Ho Hos.
  injection Hp as Hp Hps. constructor; [|apply (IH ss os ps); assumption].
  unfold finite_rates. rewrite Hs, Ho, Hp. reflexivity.
Qed.

(** ** Claim about the visualisation *)

Lemma accepted_nonempty labels i data_list :
  accepted labels i data_list <> [] -> data_list <> [].
Proof. destruct data_list; [intros H _; apply H; reflexivity | discriminate]. Qed.

(** C9, as the code has it.  Let the measurements that pass the conversion
    be non-empty and their rates finite.  The dashed line drawn for each
    metric is at the arithmetic mean of that metric over these
    measurements.  If moreover their labels are pairwise distinct, the
    call returns and the row "AVERAGE" of the table holds the same three
    means. *)
Theorem average_lines_and_row
    (data_list : list (gmap string pyobj)) (labels : option (list string))
    (ss os ps : list Q) :
  accepted labels 0 data_list <> [] ->
  map severity (accepted labels 0 data_list) = map FFin ss ->
  map occurrence (accepted labels 0 data_list) = map FFin os ->
  map priority (accepted labels 0 data_list) = map FFin ps ->
  exists ys yo yp outcome,
    create_comparison_visualization data_list labels =
      (warnings labels 0 data_list ++
         [AverageLine "Severity" (FFin ys);
          AverageLine "Occurrence" (FFin yo);
          AverageLine "Priority" (FFin yp)],
       outcome) /\
    (ys == arithmetic_mean ss)%Q /\
    (yo == arithmetic_mean os)%Q /\
    (yp == arithmetic_mean ps)%Q /\
    (NoDup (map label (accepted labels 0 data_list)) ->
     exists t avg rs ro rp,
       outcome = Return (Some t) /\
       t !! "AVERAGE" = Some avg /\
       avg !! "Severity" = Some (FFin rs) /\
       avg !! "Occurrence" = Some (FFin ro) /\
       avg !! "Priority" = Some (FFin rp) /\
       (rs == arithmetic_mean ss)%Q /\
       (ro == arithmetic_mean os)%Q /\
       (rp == arithmetic_mean ps)%Q).
Proof.
  intros Hne Hs Ho Hp.
  set (acc := accepted labels 0 data_list) in *.
  assert (Hss : ss <> []) by (intros ->; destruct acc; [congruence|discriminate]).
  assert (Hos : os <> []) by (intros ->; destruct acc; [congruence|discriminate]).
  assert (Hps : ps <> []) by (intros ->; destruct acc; [congruence|discriminate]).
  destruct (mean_finite ss Hss) as (ys & Eys & Hys).
  destruct (mean_finite os Hos) as (yo & Eyo & Hyo).
  destruct (mean_finite ps Hps) as (yp & Eyp & Hyp).
  rewrite (create_comparison_visualization_eq _ _ (accepted_nonempty _ _ _ Hne)).
  fold acc. rewrite (after_loop_eq acc Hne (finite_rates_of acc ss os ps Hs Ho Hp)).
  cbn [fst snd].
  rewrite Hs, Ho, Hp, Eys, Eyo, Eyp.
  exists ys, yo, yp. eexists. split; [reflexivity|].
  do 3 (split; [assumption|]).
  intros Hnd.
  rewrite (pivot_three_rows acc Hnd). cbn [snd ret].
  destruct (pivot_column_table_of acc Hnd) as (Ps & Po & Pp).
  rewrite Hs in Ps. rewrite Ho in Po. rewrite Hp in Pp.
  destruct (mean_finite_perm _ _ Ps Hss) as (rs & Ers & Hrs).
  destruct (mean_finite_perm _ _ Po Hos) as (ro & Ero & Hro).
  destruct (mean_finite_perm _ _ Pp Hps) as (rp & Erp & Hrp).
  assert (Hcols : forall metric,
             In metric ["Severity"; "Occurrence"; "Priority"] ->
             metric ∈ pivot_columns (table_of acc)).
  { intros metric Hin. destruct acc as [|m acc']; [congruence|].
    apply (elem_of_pivot_columns _ metric (label m) (metrics_row m)).
    - unfold table_of. cbn [fmap list_fmap]. apply lookup_insert_eq.
    - apply elem_of_dom. simpl in Hin.
      destruct (metrics_row_lookup m) as (Ls & Lo & Lp).
      destruct Hin as [<-|[<-|[<-|[]]]]; eauto. }
  exists (<["AVERAGE" := mean_axis0 (table_of acc)]> (table_of acc)),
         (mean_axis0 (table_of acc)), rs, ro, rp.
  split; [reflexivity|].
  split; [apply lookup_insert_eq|].
  rewrite !lookup_mean_axis0 by (apply Hcols; simpl; tauto).
  rewrite Ers, Ero, Erp. repeat split; assumption.
Qed.

Lemma average_lines_and_row_witness :
  exists ys yo yp outcome,
    create_comparison_visualization two_measurements (Some ["first"; "second"]) =
      ([AverageLine "Severity" (FFin ys);
        AverageLine "Occurrence" (FFin yo);
        AverageLine "Priority" (FFin yp)],
       outcome) /\
    (ys == 85)%Q /\
    exists t avg rs,
      outcome = Return (Some t) /\
      t !! "AVERAGE" = Some avg /\
      avg !! "Severity" = Some (FFin rs) /\
      (rs == 85)%Q.
Proof.
  destruct (average_lines_and_row two_measurements (Some ["first"; "second"])
              [80; 90] [70; 75] [60; 65])%Q
    as (ys & yo & yp & outcome & Hrun & Hys & _ & _ & Hrow);
    [vm_compute; discriminate | reflexivity | reflexivity | reflexivity |].
  exists ys, yo, yp, outcome. split; [exact Hrun|].
  split; [rewrite Hys; reflexivity|].
  destruct Hrow as (t & avg & rs & ro & rp & Hout & Ht & Hs & _ & _ & Hrs & _).
  { apply (bool_decide_unpack _). vm_compute. exact I. }
  exists t, avg, rs. repeat split; try assumption.
  rewrite Hrs. reflexivity.
Defined.

(** C9 fails as stated when two accepted measurements carry the same label:
    both measurements pass the conversion and the lines are drawn, but
    the pivot raises and no table, hence no row "AVERAGE", is produced. *)
Lemma repeated_label_has_no_average_row :
  map label (accepted (Some ["run"; "run"]) 0 two_measurements) = ["run"; "run"] /\
  map severity (accepted (Some ["run"; "run"]) 0 two_measurements)
    = [FFin 80; FFin 90] /\
  exists lines,
    create_comparison_visualization two_measurements (Some ["run"; "run"])
      = (lines, Raise ValueError).
Proof.
  split; [reflexivity|]. split; [reflexivity|].
  eexists. vm_compute. reflexivity.
Qed.

(** * Further properties *)

(** ** [calculate_match_rates]: what a successful call returns *)

Lemma calculate_match_rates_some df out res m :
  calculate_match_rates df = (out, Return (Some (res, m))) ->
  missing_columns df = [] /\ out = [] /\ frame_of df m /\ results_of df m res.
Proof.
  intros Hrun.
  destruct (missing_columns df) as [|c cs] eqn:E.
  - destruct (calculate_match_rates_returns df E) as (res' & m' & Hrun' & Hm & Hres).
    rewrite Hrun' in Hrun. unfold ret in Hrun.
    injection Hrun as <- <- <-.
    split; [reflexivity|]. split; [reflexivity|]. split; assumption.
  - unfold calculate_match_rates in Hrun. rewrite E in Hrun. discriminate Hrun.
Qed.

Lemma counts_bounds df out res m :
  calculate_match_rates df = (out, Return (Some (res, m))) ->
  (sum_series (severity_match m) <= Valid_Severity_Comparisons res)%nat /\
  (sum_series (occurrence_match m) <= Valid_Occurrence_Comparisons res)%nat /\
  (sum_series (priority_match m) <= Valid_Priority_Comparisons res)%nat /\
  (sum_series (all_match m) <= valid_all (length (rows df)) m)%nat.
Proof.
  intros Hrun.
  destruct (calculate_match_rates_some _ _ _ _ Hrun) as (_ & _ & Hm & Hres).
  destruct (valid_counts_by_rows _ _ _ Hm Hres) as (Vs & Vo & Vp & Va).
  destruct (match_counts_by_rows _ _ Hm) as (Ms & Mo & Mp & Ma).
  rewrite Vs, Vo, Vp, Va, Ms, Mo, Mp, Ma.
  repeat split; apply filter_length_mono; intros r; cbv beta.
  - intros H. apply eq_elem_notna in H as [-> ->]. reflexivity.
  - intros H. apply eq_elem_notna in H as [-> ->]. reflexivity.
  - intros H. apply eq_elem_notna in H as [-> ->]. reflexivity.
  - unfold all_three_equal, six_labels. rewrite !andb_true_iff.
    intros [[Hs Ho] Hp]. cbn [forallb].
    apply eq_elem_notna in Hs as [-> ->]. apply eq_elem_notna in Ho as [-> ->].
    apply eq_elem_notna in Hp as [-> ->]. reflexivity.
Qed.

(** X2.  In what a successful call returns, for each attribute the matches
    are at most the valid comparisons and these at most the rows; the
    rows where all three match are at most the rows with six non-null
    labels, which are at most the valid comparisons of each attribute. *)
Theorem counts_are_ordered df out res m :
  calculate_match_rates df = (out, Return (Some (res, m))) ->
  (sum_series (severity_match m) <= Valid_Severity_Comparisons res
     <= Total_Issues_Analyzed res)%nat /\
  (sum_series (occurrence_match m) <= Valid_Occurrence_Comparisons res
     <= Total_Issues_Analyzed res)%nat /\
  (sum_series (priority_match m) <= Valid_Priority_Comparisons res
     <= Total_Issues_Analyzed res)%nat /\
  (sum_series (all_match m) <= valid_all (length (rows df)) m)%nat /\
  (valid_all (length (rows df)) m <= Valid_Severity_Comparisons res)%nat /\
  (valid_all (length (rows df)) m <= Valid_Occurrence_Comparisons res)%nat /\
  (valid_all (length (rows df)) m <= Valid_Priority_Comparisons res)%nat.
Proof.
  intros Hrun.
  destruct (calculate_match_rates_some _ _ _ _ Hrun) as (_ & _ & Hm & Hres).
  destruct (valid_counts_by_rows _ _ _ Hm Hres) as (Vs & Vo & Vp & Va).
  destruct (match_counts_by_rows _ _ Hm) as (Ms & Mo & Mp & Ma).
  rewrite Vs, Vo, Vp, Va, Ms, Mo, Mp, Ma, (ro_total _ _ _ Hres).
  repeat split; try apply filter_length_total; apply filter_length_mono; intros r;
    cbv beta.
  - intros H. apply eq_elem_notna in H as [-> ->]. reflexivity.
  - intros H. apply eq_elem_notna in H as [-> ->]. reflexivity.
  - intros H. apply eq_elem_notna in H as [-> ->]. reflexivity.
  - unfold all_three_equal, six_labels. rewrite !andb_true_iff.
    intros [[Hs Ho] Hp]. cbn [forallb].
    apply eq_elem_notna in Hs as [-> ->]. apply eq_elem_notna in Ho as [-> ->].
    apply eq_elem_notna in Hp as [-> ->]. reflexivity.
  - unfold six_labels. cbn [forallb]. rewrite !andb_true_iff.
    intros (-> & -> & _). auto.
  - unfold six_labels. cbn [forallb]. rewrite !andb_true_iff.
    intros (_ & _ & -> & -> & _). auto.
  - unfold six_labels. cbn [forallb]. rewrite !andb_true_iff.
    intros (_ & _ & _ & _ & -> & -> & _). auto.
Qed.

Lemma counts_are_ordered_witness :
  exists out res m,
    calculate_match_rates example_table = (out, Return (Some (res, m))) /\
    (sum_series (severity_match m) <= Valid_Severity_Comparisons res
       <= Total_Issues_Analyzed res)%nat.
Proof.
  eexists _, _, _. split; [vm_compute; reflexivity|].
  eapply (counts_are_ordered example_table). vm_compute. reflexivity.
Defined.

(** ** [calculate_match_rates]: the rates are percentages *)

Lemma match_rate_bounds flags valid :
  (sum_series flags <= valid)%nat ->
  (0 <= match_rate flags valid)%Q /\ (match_rate flags valid <= 100)%Q.
Proof. apply (rate_of_bounds (sum_series flags) valid). Qed.

(** X1.  Every rate that a successful call reports lies between 0 and 100. *)
Theorem rates_are_percentages df out res m :
  calculate_match_rates df = (out, Return (Some (res, m))) ->
  (0 <= Severity_Match_Rate res <= 100)%Q /\
  (0 <= Occurrence_Match_Rate res <= 100)%Q /\
  (0 <= Priority_Match_Rate res <= 100)%Q /\
  (0 <= Overall_Match_Rate res <= 100)%Q.
Proof.
  intros Hrun.
  destruct (counts_bounds df out res m Hrun) as (Cs & Co & Cp & Ca).
  destruct (calculate_match_rates_some _ _ _ _ Hrun) as (_ & _ & _ & Hres).
  destruct Hres as [_ _ _ -> -> -> -> _].
  repeat split; apply round_2_bounds; apply match_rate_bounds; assumption.
Qed.

Lemma rates_are_percentages_witness :
  exists out res m,
    calculate_match_rates example_table = (out, Return (Some (res, m))) /\
    (0 <= Severity_Match_Rate res <= 100)%Q.
Proof.
  eexists _, _, _. split; [vm_compute; reflexivity|].
  eapply (rates_are_percentages example_table). vm_compute. reflexivity.
Defined.

(** ** [calculate_match_rates]: the results as counts over the rows *)

Lemma results_by_rows df m res :
  frame_of df m -> results_of df m res -> res = results_from_rows (rows df).
Proof.
  intros Hm Hres.
  destruct (valid_counts_by_rows _ _ _ Hm Hres) as (Vs & Vo & Vp & Va).
  destruct (match_counts_by_rows _ _ Hm) as (Ms & Mo & Mp & Ma).
  destruct Hres as [_ _ _ Rs Ro Rp Ra Rt].
  unfold match_rate in Rs, Ro, Rp, Ra.
  rewrite Ms, Vs in Rs. rewrite Mo, Vo in Ro. rewrite Mp, Vp in Rp. rewrite Ma, Va in Ra.
  destruct res; cbn in *. subst. reflexivity.
Qed.

Lemma count_rows_perm {A} (p : A -> bool) (l l' : list A) :
  Permutation l l' -> count_rows p l = count_rows p l'.
Proof.
  unfold count_rows.
  induction 1 as [|x l l' _ IH|x y l|l l' l'' _ IH1 _ IH2]; simpl.
  - reflexivity.
  - destruct (p x); simpl; rewrite IH; reflexivity.
  - destruct (p x), (p y); reflexivity.
  - rewrite IH1. exact IH2.
Qed.

(** X3.  The results do not depend on the order of the rows: the same rows
    in another order give the same eight entries. *)
Theorem results_ignore_row_order (cols : list string)
    (rows1 rows2 : list (string -> pyval)) out res m :
  Permutation rows1 rows2 ->
  calculate_match_rates (mkDataFrame cols rows1) = (out, Return (Some (res, m))) ->
  exists m', calculate_match_rates (mkDataFrame cols rows2)
               = (out, Return (Some (res, m'))).
Proof.
  intros Hperm Hrun.
  destruct (calculate_match_rates_some _ _ _ _ Hrun) as (Hmiss & -> & Hm & Hres).
  assert (Hmiss' : missing_columns (mkDataFrame cols rows2) = []) by exact Hmiss.
  destruct (calculate_match_rates_returns _ Hmiss') as (res' & m' & Hrun' & Hm' & Hres').
  exists m'. rewrite Hrun'.
  rewrite (results_by_rows _ _ _ Hm Hres), (results_by_rows _ _ _ Hm' Hres').
  cbn [rows]. unfold results_from_rows.
  rewrite !(count_rows_perm _ _ _ Hperm), (Permutation_length Hperm). reflexivity.
Qed.

Lemma results_ignore_row_order_witness :
  exists res m m',
    calculate_match_rates (mkDataFrame required_columns example_rows)
      = ([], Return (Some (res, m))) /\
    calculate_match_rates (mkDataFrame required_columns (rev example_rows))
      = ([], Return (Some (res, m'))).
Proof.
  eexists _, _. 
  destruct (results_ignore_row_order required_columns example_rows (rev example_rows)
              [] _ _ (Permutation_rev example_rows) eq_refl) as (m' & Hrun').
  exists m'. split; [reflexivity|exact Hrun'].
Defined.

Lemma Forall2_map_eq {A B C} (f : A -> C) (g : B -> C) (l1 : list A) (l2 : list B) :
  Forall2 (fun a b => f a = g b) l1 l2 -> map f l1 = map g l2.
Proof.
  induction 1 as [|a b l1 l2 E _ IH]; [reflexivity|].
  simpl. rewrite E, IH. reflexivity.
Qed.

(** X4.  Only the cells under the six required columns count: two tables
    that both have the six columns and whose rows agree on them give the
    same results and the same frame, whatever other columns either has. *)
Theorem other_columns_are_ignored (df1 df2 : DataFrame) :
  missing_columns df1 = [] -> missing_columns df2 = [] ->
  Forall2 (fun r1 r2 => forall col, In col required_columns -> r1 col = r2 col)
          (rows df1) (rows df2) ->
  calculate_match_rates df1 = calculate_match_rates df2.
Proof.
  intros Hm1 Hm2 Hrows.
  assert (Hcol : forall col, In col required_columns ->
            map (fun r => r col) (rows df1) = map (fun r => r col) (rows df2)).
  { intros col Hin. apply Forall2_map_eq.
    eapply Forall2_impl; [exact Hrows|]. intros r1 r2 Hr. exact (Hr col Hin). }
  assert (Hlen : length (rows df1) = length (rows df2))
    by (eapply Forall2_length; exact Hrows).
  unfold calculate_match_rates, getitem. rewrite Hm1, Hm2.
  rewrite !(no_missing_columns df1 _ Hm1) by (simpl; tauto).
  rewrite !(no_missing_columns df2 _ Hm2) by (simpl; tauto).
  rewrite Hlen, !Hcol by (simpl; tauto). reflexivity.
Qed.

Lemma other_columns_are_ignored_witness :
  calculate_match_rates example_table =
  calculate_match_rates
    (mkDataFrame ("id" :: "title" :: required_columns)
       (map (fun r col => if String.eqb col "id" then PStr "42" else r col)
            example_rows)).
Proof.
  apply other_columns_are_ignored; [reflexivity | reflexivity |].
  repeat constructor; intros col Hin; simpl in Hin;
    repeat (destruct Hin as [<-|Hin]; [reflexivity|]); destruct Hin.
Defined.

Lemma count_rows_all {A} (p : A -> bool) (l : list A) :
  Forall (fun x => p x = true) l -> count_rows p l = length l.
Proof.
  unfold count_rows. induction 1 as [|x l Hx _ IH]; simpl; [reflexivity|].
  rewrite Hx. simpl. rewrite IH. reflexivity.
Qed.

(** X5.  On a non-empty table in which, on every row, the two sides of each
    of the three attributes normalise to the same non-null label, the
    four rates are 100 and the three counts of valid comparisons are the
    number of rows. *)
Theorem full_agreement (df : DataFrame) :
  missing_columns df = [] -> rows df <> [] ->
  Forall (fun r => all_three_equal r = true) (rows df) ->
  exists res m,
    calculate_match_rates df = ret (Some (res, m)) /\
    (Severity_Match_Rate res == 100)%Q /\ (Occurrence_Match_Rate res == 100)%Q /\
    (Priority_Match_Rate res == 100)%Q /\ (Overall_Match_Rate res == 100)%Q /\
    Valid_Severity_Comparisons res = length (rows df) /\
    Valid_Occurrence_Comparisons res = length (rows df) /\
    Valid_Priority_Comparisons res = length (rows df) /\
    Total_Issues_Analyzed res = length (rows df).
Proof.
  intros Hmiss Hne Hall.
  destruct (calculate_match_rates_returns df Hmiss) as (res & m & Hrun & Hm & Hres).
  exists res, m. split; [exact Hrun|].
  rewrite (results_by_rows _ _ _ Hm Hres). unfold results_from_rows.
  cbn [Severity_Match_Rate Occurrence_Match_Rate Priority_Match_Rate
       Overall_Match_Rate Valid_Severity_Comparisons Valid_Occurrence_Comparisons
       Valid_Priority_Comparisons Total_Issues_Analyzed].
  assert (Hparts : Forall (fun r =>
            (eq_elem (severity_label (r "user_severity")) (severity_label (r "ai_severity")) = true /\
             eq_elem (occurrence_label (r "user_occurrence")) (occurrence_label (r "ai_occurrence")) = true /\
             eq_elem (priority_label (r "user_priority")) (priority_label (r "ai_priority")) = true)) (rows df)).
  { eapply Forall_impl; [exact Hall|]. intros r. unfold all_three_equal.
    rewrite !andb_true_iff. tauto. }
  assert (Es : count_rows (fun r => eq_elem (severity_label (r "user_severity"))
                                            (severity_label (r "ai_severity"))) (rows df)
               = length (rows df)).
  { apply count_rows_all. eapply Forall_impl; [exact Hparts|]. intros r (H & _). exact H. }
  assert (Eo : count_rows (fun r => eq_elem (occurrence_label (r "user_occurrence"))
                                            (occurrence_label (r "ai_occurrence"))) (rows df)
               = length (rows df)).
  { apply count_rows_all. eapply Forall_impl; [exact Hparts|]. intros r (_ & H & _). exact H. }
  assert (Ep : count_rows (fun r => eq_elem (priority_label (r "user_priority"))
                                            (priority_label (r "ai_priority"))) (rows df)
               = length (rows df)).
  { apply count_rows_all. eapply Forall_impl; [exact Hparts|]. intros r (_ & _ & H). exact H. }
  assert (Vs : count_rows (fun r => notna (severity_label (r "user_severity"))
                                    && notna (severity_label (r "ai_severity"))) (rows df)
               = length (rows df)).
  { apply count_rows_all. eapply Forall_impl; [exact Hparts|]. cbv beta.
    intros r (H & _). apply eq_elem_notna in H as [-> ->]. reflexivity. }
  assert (Vo : count_rows (fun r => notna (occurrence_label (r "user_occurrence"))
                                    && notna (occurrence_label (r "ai_occurrence"))) (rows df)
               = length (rows df)).
  { apply count_rows_all. eapply Forall_impl; [exact Hparts|]. cbv beta.
    intros r (_ & H & _). apply eq_elem_notna in H as [-> ->]. reflexivity. }
  assert (Vp : count_rows (fun r => notna (priority_label (r "user_priority"))
                                    && notna (priority_label (r "ai_priority"))) (rows df)
               = length (rows df)).
  { apply count_rows_all. eapply Forall_impl; [exact Hparts|]. cbv beta.
    intros r (_ & _ & H). apply eq_elem_notna in H as [-> ->]. reflexivity. }
  assert (Va : count_rows (fun r => forallb notna (six_labels r)) (rows df)
               = length (rows df)).
  { apply count_rows_all. eapply Forall_impl; [exact Hparts|]. cbv beta.
    intros r (Hs & Ho & Hp). unfold six_labels. cbn [forallb].
    apply eq_elem_notna in Hs as [-> ->]. apply eq_elem_notna in Ho as [-> ->].
    apply eq_elem_notna in Hp as [-> ->]. reflexivity. }
  rewrite Es, Eo, Ep, Vs, Vo, Vp, Va, (count_rows_all _ _ Hall).
  assert (Hrate : (round (rate_of (length (rows df)) (length (rows df))) 2 == 100)%Q).
  { apply reported_rate_full. destruct (rows df); [congruence|cbn [length]; lia]. }
  repeat split; exact Hrate.
Qed.

Lemma full_agreement_witness :
  exists res m,
    calculate_match_rates agreeing_table = ret (Some (res, m)) /\
    (Overall_Match_Rate res == 100)%Q /\
    Valid_Severity_Comparisons res = 2%nat.
Proof.
  destruct (full_agreement agreeing_table) as (res & m & Hrun & _ & _ & _ & Ha & Hv & _);
    [reflexivity | discriminate | repeat constructor |].
  exists res, m. repeat split; assumption.
Defined.

(** ** The normalisers: the labels they can return *)

Lemma first_equal_pair table s v :
  first_equal table s = Some v -> In (s, v) table.
Proof.
  induction table as [|[k w] table IH]; simpl; [discriminate|].
  destruct (String.eqb_spec s k) as [->|_].
  - intros [= ->]. left. reflexivity.
  - intros H. right. exact (IH H).
Qed.

(** X6.  A value with a percent sign is never normalised to RARE: the
    entries of the tables that give RARE have no percent sign, and the
    numeric reading gives FREQUENT, VERY FREQUENT or CERTAIN. *)
Theorem percentage_is_never_rare (x : pyval) :
  contains_char "%" (upper (str x)) = true ->
  standardize_occurrence x <> ret (Some "RARE").
Proof.
  intros Hc. unfold standardize_occurrence.
  destruct (is_None x) eqn:En.
  { destruct x; try discriminate En. discriminate Hc. }
  destruct (first_equal ai_occurrence_map (upper (str x))) as [v|] eqn:E1.
  { apply first_equal_pair in E1. simpl in E1.
    repeat (destruct E1 as [[= E _]|E1]; [rewrite <- E in Hc; discriminate Hc|]).
    destruct E1. }
  destruct (first_equal user_to_ai_map (upper (str x))) as [v|] eqn:E2.
  { apply first_equal_pair in E2. simpl in E2.
    repeat (destruct E2 as [[= E <-]|E2];
            [first [rewrite <- E in Hc; discriminate Hc | discriminate]|]).
    destruct E2. }
  rewrite Hc.
  destruct (bucket_percentage_cases (upper (str x))) as [[v Hv]|[Hr _]].
  - rewrite Hv. apply bucket_percentage_value in Hv. simpl in Hv.
    repeat (destruct Hv as [<-|Hv]; [discriminate|]). destruct Hv.
  - rewrite Hr. cbn. intros [= E]. rewrite E in Hc. discriminate Hc.
Qed.

Lemma percentage_is_never_rare_witness :
  standardize_occurrence (PStr "0 %") <> ret (Some "RARE").
Proof. apply (percentage_is_never_rare (PStr "0 %")). reflexivity. Defined.

(** X7.  On a cell that is not [None] each normaliser returns one of its
    four canonical labels or the upper-cased text of the cell, nothing
    else. *)
Theorem normalisers_range (x : pyval) :
  x <> PNone ->
  (exists t, standardize_severity x = ret (Some t) /\
             (In t ["A - SHOWSTOPPER"; "B - MAJOR"; "C - MINOR"; "S - SAFETY ONLY"]
              \/ t = upper (str x))) /\
  (exists t, standardize_occurrence x = ret (Some t) /\
             (In t ["CERTAIN"; "VERY FREQUENT"; "FREQUENT"; "RARE"]
              \/ t = upper (str x))) /\
  (exists t, standardize_priority x = ret (Some t) /\
             (In t ["BLOCKER"; "CRITICAL"; "MAJOR"; "MINOR"]
              \/ t = upper (str x))).
Proof.
  intros Hx.
  assert (En : is_None x = false) by (destruct x; simpl; congruence).
  unfold standardize_severity, standardize_occurrence, standardize_priority.
  rewrite En. split; [|split].
  - destruct (first_contained ai_severity_map _) as [v|] eqn:E1.
    { exists v. split; [reflexivity|]. left.
      apply first_contained_value in E1. simpl in E1 |- *. tauto. }
    destruct (first_contained user_severity_map _) as [v|] eqn:E2.
    { exists v. split; [reflexivity|]. left.
      apply first_contained_value in E2. simpl in E2 |- *. tauto. }
    eexists. split; [reflexivity|]. right. reflexivity.
  - destruct (first_equal ai_occurrence_map _) as [v|] eqn:E1.
    { exists v. split; [reflexivity|]. left.
      apply first_equal_value in E1. simpl in E1 |- *. tauto. }
    destruct (first_equal user_to_ai_map _) as [v|] eqn:E2.
    { exists v. split; [reflexivity|]. left.
      apply first_equal_value in E2. simpl in E2 |- *. tauto. }
    destruct (contains_char "%" _).
    + destruct (bucket_percentage_cases (upper (str x))) as [[v Hv]|[Hr _]].
      * exists v. rewrite Hv. split; [reflexivity|]. left.
        apply bucket_percentage_value in Hv. simpl in Hv |- *. tauto.
      * rewrite Hr. eexists. split; [reflexivity|]. right. reflexivity.
    + eexists. split; [reflexivity|]. right. reflexivity.
  - destruct (first_equal ai_priority_map _) as [v|] eqn:E1.
    { exists v. split; [reflexivity|]. left.
      apply first_equal_value in E1. simpl in E1 |- *. tauto. }
    destruct (first_equal user_priority_map _) as [v|] eqn:E2.
    { exists v. split; [reflexivity|]. left.
      apply first_equal_value in E2. simpl in E2 |- *. tauto. }
    eexists. split; [reflexivity|]. right. reflexivity.
Qed.

Lemma normalisers_range_witness :
  exists t, standardize_priority (PStr "p2 - soon") = ret (Some t) /\
            (In t ["BLOCKER"; "CRITICAL"; "MAJOR"; "MINOR"] \/ t = "P2 - SOON").
Proof.
  destruct (normalisers_range (PStr "p2 - soon")) as (_ & _ & H); [discriminate|].
  exact H.
Defined.

(** ** [create_comparison_visualization]: the first loop *)

Lemma convert_cases labels i data :
  (exists m, convert labels i data = ([], Return (Some m))) \/
  (exists line, convert labels i data = ([Printed line], Return None)).
Proof.
  unfold convert.
  destruct (to_float_cases (get_rate data "Severity Match Rate (%)" "severity_match_rate"))
    as [[x ->]|(e & -> & He)];
    [rewrite bind_ret | right; unfold raise, bind, try_except; rewrite He; simpl; eauto].
  destruct (to_float_cases (get_rate data "Occurrence Match Rate (%)" "occurrence_match_rate"))
    as [[y ->]|(e & -> & He)];
    [rewrite bind_ret | right; unfold raise, bind, try_except; rewrite He; simpl; eauto].
  destruct (to_float_cases (get_rate data "Priority Match Rate (%)" "priority_match_rate"))
    as [[z ->]|(e & -> & He)];
    [rewrite bind_ret | right; unfold raise, bind, try_except; rewrite He; simpl; eauto].
  left. simpl. eauto.
Qed.

Lemma warnings_and_accepted labels i data_list :
  (length (warnings labels i data_list) + length (accepted labels i data_list)
   = length data_list)%nat.
Proof.
  revert i. induction data_list as [|data rest IH]; intros i; [reflexivity|].
  cbn [warnings accepted].
  destruct (convert_cases labels i data) as [[m ->]|[line ->]];
    cbn [fst snd app length]; specialize (IH (S i)); lia.
Qed.

(** X8.  The first loop never raises, and each measurement gives either its
    three rows of the long frame or one warning: the rows and three times
    the warnings add up to three times the measurements. *)
Theorem every_measurement_is_kept_or_reported
    (labels : option (list string)) (data_list : list (gmap string pyobj)) :
  exists out df,
    build_df_data labels 0 data_list [] = (out, Return df) /\
    (length df + 3 * length out = 3 * length data_list)%nat.
Proof.
  eexists _, _. split; [apply build_df_data_eq|].
  cbn [app].
  assert (Hrows : forall acc, length (flat_map three_rows acc) = (3 * length acc)%nat).
  { induction acc as [|m acc IH]; [reflexivity|].
    cbn [flat_map three_rows app length]. rewrite IH. simpl. lia. }
  rewrite Hrows. pose proof (warnings_and_accepted labels 0 data_list). lia.
Qed.

(** X9.  When the list is not empty and no measurement passes the conversion,
    the call prints the warnings, draws no line and raises. *)
Theorem nothing_accepted_raises
    (labels : option (list string)) (data_list : list (gmap string pyobj)) :
  data_list <> [] -> accepted labels 0 data_list = [] ->
  create_comparison_visualization data_list labels
    = (warnings labels 0 data_list, Raise ValueError) /\
  length (warnings labels 0 data_list) = length data_list.
Proof.
  intros Hne Hacc. split.
  - rewrite (create_comparison_visualization_eq _ _ Hne), Hacc.
    cbn. rewrite app_nil_r. reflexivity.
  - pose proof (warnings_and_accepted labels 0 data_list) as H.
    rewrite Hacc in H. simpl in H. lia.
Qed.

Lemma nothing_accepted_raises_witness :
  create_comparison_visualization [unreadable_measurement] None
    = ([Printed "Warning: Could not convert values to float for Measurement 1"],
       Raise ValueError).
Proof.
  apply (nothing_accepted_raises None [unreadable_measurement]);
    [discriminate | reflexivity].
Defined.

(** ** Strings: splitting and searching *)

Lemma append_assoc (a b c : string) : ((a ++ b) ++ c = a ++ (b ++ c))%string.
Proof.
  induction a as [|x a IH]; [reflexivity|].
  change (String x ((a ++ b) ++ c) = String x (a ++ (b ++ c)))%string.
  rewrite IH. reflexivity.
Qed.

Lemma append_nil_r (a : string) : (a ++ "")%string = a.
Proof.
  induction a as [|x a IH]; [reflexivity|].
  change (String x (a ++ "") = String x a)%string. rewrite IH. reflexivity.
Qed.

Lemma contains_char_app c (a b : string) :
  contains_char c (a ++ b) = contains_char c a || contains_char c b.
Proof.
  induction a as [|x a IH]; [reflexivity|].
  change (Ascii.eqb c x || contains_char c (a ++ b)
          = Ascii.eqb c x || contains_char c a || contains_char c b).
  rewrite IH. apply orb_assoc.
Qed.

Lemma split_char_none sep (a : string) :
  contains_char sep a = false -> split_char sep a = [a].
Proof.
  induction a as [|x a IH]; [reflexivity|].
  cbn [contains_char split_char]. intros H.
  apply orb_false_iff in H as [Hx Ha].
  rewrite Ascii.eqb_sym, Hx, (IH Ha). reflexivity.
Qed.

Lemma split_char_app_sep sep (a b : string) :
  contains_char sep a = false ->
  split_char sep (a ++ String sep b) = a :: split_char sep b.
Proof.
  induction a as [|x a IH].
  - intros _. change (split_char sep (String sep b) = "" :: split_char sep b).
    cbn [split_char]. rewrite Ascii.eqb_refl. reflexivity.
  - cbn [contains_char]. intros H. apply orb_false_iff in H as [Hx Ha].
    change (split_char sep (String x (a ++ String sep b))
            = String x a :: split_char sep b).
    cbn [split_char]. rewrite Ascii.eqb_sym, Hx, (IH Ha). reflexivity.
Qed.

Lemma prefix_needs_char (pat s : string) c :
  String.prefix pat s = true -> contains_char c pat = true -> contains_char c s = true.
Proof.
  revert s. induction pat as [|x pat IH]; intros s Hp Hc; [discriminate Hc|].
  destruct s as [|y s]; [discriminate Hp|].
  cbn [String.prefix] in Hp. cbn [contains_char] in Hc |- *.
  destruct (Ascii.ascii_dec x y) as [->|Hne]; [|discriminate Hp].
  apply orb_true_iff in Hc as [Hc|Hc]; [rewrite Hc; reflexivity|].
  rewrite (IH s Hp Hc). apply orb_true_r.
Qed.

Lemma contains_needs_char (pat s : string) c :
  contains_char c pat = true -> contains_char c s = false -> contains pat s = false.
Proof.
  intros Hc. induction s as [|y s IH]; intros Hs.
  - cbn [contains]. destruct (String.prefix pat "") eqn:Hp; [|reflexivity].
    rewrite (prefix_needs_char _ _ _ Hp Hc) in Hs. discriminate Hs.
  - cbn [contains]. destruct (String.prefix pat (String y s)) eqn:Hp.
    + rewrite (prefix_needs_char _ _ _ Hp Hc) in Hs. discriminate Hs.
    + cbn [contains_char] in Hs. apply orb_false_iff in Hs as [_ Hs].
      rewrite (IH Hs). reflexivity.
Qed.

Lemma numeral_no_char (v : string) c :
  numeral v = true -> numeral_char c = false -> contains_char c v = false.
Proof.
  intros Hv Hc. induction v as [|x v IH]; [reflexivity|].
  cbn [numeral] in Hv. apply andb_true_iff in Hv as [Hx Hv].
  cbn [contains_char]. rewrite (IH Hv), orb_false_r.
  destruct (Ascii.eqb_spec c x) as [->|_]; [congruence|reflexivity].
Qed.

(** ** [parse_txt_file] *)

Lemma parse_lines_app l1 l2 m :
  parse_lines (l1 ++ l2) m =
  match parse_lines l1 m with
  | (m1, None) => parse_lines l2 m1
  | stopped => stopped
  end.
Proof.
  revert m. induction l1 as [|line l1 IH]; intros m; [reflexivity|].
  cbn [app parse_lines]. destruct (parse_line line); [apply IH|apply IH|reflexivity].
Qed.

(** X10.  [parse_txt_file] stops at the first rate that [float] cannot read:
    it reports the error and returns the rates read on the lines before
    it; the lines after it are not read. *)
Theorem parse_txt_file_keeps_what_it_read (fs : text_files) (file_path content : string)
    (before after : list string) (bad : string) (read : gmap string pyobj) :
  fs !! file_path = Some content ->
  split_char LF content = before ++ bad :: after ->
  parse_lines before ∅ = (read, None) ->
  parse_line bad = Failure ->
  parse_txt_file fs file_path = (read, Some BadNumber).
Proof.
  intros Hfile Hsplit Hbefore Hbad.
  unfold parse_txt_file. rewrite Hfile, Hsplit, parse_lines_app, Hbefore.
  cbn [parse_lines]. rewrite Hbad. reflexivity.
Qed.

Lemma parse_txt_file_keeps_what_it_read_witness :
  parse_txt_file {[ "run.txt" := half_read_text ]} "run.txt"
    = ({[ "Severity Match Rate (%)" := ONum (FFin 80) ]}, Some BadNumber).
Proof.
  assert (H := parse_txt_file_keeps_what_it_read
                 {[ "run.txt" := half_read_text ]} "run.txt" half_read_text
                 ["Severity Match Rate (%): 80"]
                 ["Priority Match Rate (%): 60"; ""]
                 "Occurrence Match Rate (%): n/a"
                 {[ "Severity Match Rate (%)" := ONum (FFin (inject_Z 80 * 1)) ]}).
  rewrite H; [| reflexivity | reflexivity | reflexivity | reflexivity].
  reflexivity.
Defined.

Lemma split_line (a v rest : string) :
  contains_char LF a = false -> numeral v = true ->
  split_char LF ((a ++ v ++ String LF "") ++ rest)%string
    = (a ++ v)%string :: split_char LF rest.
Proof.
  intros Ha Hv.
  replace ((a ++ v ++ String LF "") ++ rest)%string
    with ((a ++ v) ++ String LF rest)%string.
  - apply split_char_app_sep. rewrite contains_char_app, Ha.
    apply numeral_no_char; [exact Hv|reflexivity].
  - rewrite !append_assoc. reflexivity.
Qed.

Lemma store_rate_numeral (key a v : string) x :
  contains_char ":" a = false -> numeral v = true ->
  parse_float (strip v) = Some x ->
  store_rate key (a ++ String ":" (String " " v)) = Store key x.
Proof.
  intros Ha Hv Hx. unfold store_rate.
  rewrite (split_char_app_sep ":" a _ Ha).
  rewrite (split_char_none ":" (String " " v)).
  - cbn [length Nat.ltb Nat.leb nth].
    change (strip (String " " v)) with (strip v). rewrite Hx. reflexivity.
  - cbn [contains_char]. rewrite (numeral_no_char v ":" Hv eq_refl). reflexivity.
Qed.

(** A line ["{metric}: {value}"] that names none of the three rates, each
    name having a character that the line lacks. *)
Lemma parse_line_other (a v : string) (c1 c2 c3 : ascii) :
  contains_char c1 "Severity Match Rate" = true ->
  contains_char c2 "Occurrence Match Rate" = true ->
  contains_char c3 "Priority Match Rate" = true ->
  numeral_char c1 = false -> numeral_char c2 = false -> numeral_char c3 = false ->
  contains_char c1 a = false -> contains_char c2 a = false ->
  contains_char c3 a = false -> numeral v = true ->
  parse_line (a ++ v) = Nothing.
Proof.
  intros P1 P2 P3 D1 D2 D3 H1 H2 H3 Hv. unfold parse_line.
  rewrite (contains_needs_char "Severity Match Rate" (a ++ v) c1 P1)
    by (rewrite contains_char_app, H1; apply numeral_no_char; assumption).
  rewrite (contains_needs_char "Occurrence Match Rate" (a ++ v) c2 P2)
    by (rewrite contains_char_app, H2; apply numeral_no_char; assumption).
  rewrite (contains_needs_char "Priority Match Rate" (a ++ v) c3 P3)
    by (rewrite contains_char_app, H3; apply numeral_no_char; assumption).
  reflexivity.
Qed.

Lemma parse_line_severity (v : string) x :
  numeral v = true -> parse_float (strip v) = Some x ->
  parse_line ("Severity Match Rate (%): " ++ v) = Store "Severity Match Rate (%)" x.
Proof.
  intros Hv Hx. unfold parse_line.
  replace (contains "Severity Match Rate" ("Severity Match Rate (%): " ++ v))
    with true by reflexivity.
  apply (store_rate_numeral _ "Severity Match Rate (%)" v x eq_refl Hv Hx).
Qed.

Lemma parse_line_occurrence (v : string) x :
  numeral v = true -> parse_float (strip v) = Some x ->
  parse_line ("Occurrence Match Rate (%): " ++ v) = Store "Occurrence Match Rate (%)" x.
Proof.
  intros Hv Hx. unfold parse_line.
  rewrite (contains_needs_char "Severity Match Rate" _ "S" eq_refl)
    by (rewrite contains_char_app; apply numeral_no_char; [exact Hv|reflexivity]).
  replace (contains "Occurrence Match Rate" ("Occurrence Match Rate (%): " ++ v))
    with true by reflexivity.
  apply (store_rate_numeral _ "Occurrence Match Rate (%)" v x eq_refl Hv Hx).
Qed.

Lemma parse_line_priority (v : string) x :
  numeral v = true -> parse_float (strip v) = Some x ->
  parse_line ("Priority Match Rate (%): " ++ v) = Store "Priority Match Rate (%)" x.
Proof.
  intros Hv Hx. unfold parse_line.
  rewrite (contains_needs_char "Severity Match Rate" _ "S" eq_refl)
    by (rewrite contains_char_app; apply numeral_no_char; [exact Hv|reflexivity]).
  rewrite (contains_needs_char "Occurrence Match Rate" _ "O" eq_refl)
    by (rewrite contains_char_app; apply numeral_no_char; [exact Hv|reflexivity]).
  replace (contains "Priority Match Rate" ("Priority Match Rate (%): " ++ v))
    with true by reflexivity.
  apply (store_rate_numeral _ "Priority Match Rate (%)" v x eq_refl Hv Hx).
Qed.

(** X11.  [parse_txt_file] reads back the text report that the match-rate
    script writes: when the eight values are shown as numerals, the
    dictionary holds exactly the three rates, each as [float] reads its
    text; the overall rate and the four counts are not picked up. *)
Theorem text_report_reads_back (show_rate : Q -> string) (show_count : nat -> string)
    (res : Results) (fs : text_files) (file_path : string) (s o p : pyfloat) :
  Forall (fun text => numeral text = true)
         [ show_rate (Severity_Match_Rate res); show_rate (Occurrence_Match_Rate res);
           show_rate (Priority_Match_Rate res); show_rate (Overall_Match_Rate res);
           show_count (Total_Issues_Analyzed res);
           show_count (Valid_Severity_Comparisons res);
           show_count (Valid_Occurrence_Comparisons res);
           show_count (Valid_Priority_Comparisons res) ] ->
  parse_float (strip (show_rate (Severity_Match_Rate res))) = Some s ->
  parse_float (strip (show_rate (Occurrence_Match_Rate res))) = Some o ->
  parse_float (strip (show_rate (Priority_Match_Rate res))) = Some p ->
  fs !! file_path = Some (text_report show_rate show_count res) ->
  parse_txt_file fs file_path =
    (<["Priority Match Rate (%)" := ONum p]>
       (<["Occurrence Match Rate (%)" := ONum o]>
          (<["Severity Match Rate (%)" := ONum s]> ∅)),
     None).
Proof.
  intros Hnum Hs Ho Hp Hfile.
  repeat match goal with
         | H : Forall _ (_ :: _) |- _ =>
             let Hx := fresh "N" in apply Forall_cons in H as [Hx H]
         end.
  unfold parse_txt_file. rewrite Hfile. unfold text_report.
  change (split_char LF
            ("=== MATCH RATE RESULTS ===" ++ String LF (String LF "") ++ ?rest)%string)
    with (split_char LF ("=== MATCH RATE RESULTS ===" ++ String LF (String LF rest))%string).
  rewrite (split_char_app_sep LF "=== MATCH RATE RESULTS ===" _ eq_refl).
  rewrite (split_char_app_sep LF "" _ eq_refl : split_char LF (String LF _) = _).
  change ("Severity Match Rate (%)" ++ ": " ++ ?v ++ String LF "")%string
    with ("Severity Match Rate (%): " ++ v ++ String LF "")%string.
  change ("Occurrence Match Rate (%)" ++ ": " ++ ?v ++ String LF "")%string
    with ("Occurrence Match Rate (%): " ++ v ++ String LF "")%string.
  change ("Priority Match Rate (%)" ++ ": " ++ ?v ++ String LF "")%string
    with ("Priority Match Rate (%): " ++ v ++ String LF "")%string.
  change ("Overall Match Rate (%)" ++ ": " ++ ?v ++ String LF "")%string
    with ("Overall Match Rate (%): " ++ v ++ String LF "")%string.
  change ("Total Issues Analyzed" ++ ": " ++ ?v ++ String LF "")%string
    with ("Total Issues Analyzed: " ++ v ++ String LF "")%string.
  change ("Valid Severity Comparisons" ++ ": " ++ ?v ++ String LF "")%string
    with ("Valid Severity Comparisons: " ++ v ++ String LF "")%string.
  change ("Valid Occurrence Comparisons" ++ ": " ++ ?v ++ String LF "")%string
    with ("Valid Occurrence Comparisons: " ++ v ++ String LF "")%string.
  change ("Valid Priority Comparisons" ++ ": " ++ ?v ++ String LF "")%string
    with ("Valid Priority Comparisons: " ++ v ++ String LF "")%string.
  rewrite <- (append_nil_r ("Valid Priority Comparisons: " ++ _ ++ String LF "")).
  rewrite !split_line by (reflexivity || assumption).
  cbn [parse_lines].
  change (parse_line "=== MATCH RATE RESULTS ===") with Nothing.
  change (parse_line "") with Nothing. cbv iota.
  rewrite (parse_line_severity _ s N Hs). cbv iota.
  rewrite (parse_line_occurrence _ o N0 Ho). cbv iota.
  rewrite (parse_line_priority _ p N1 Hp). cbv iota.
  rewrite (parse_line_other _ _ "S" "u" "P") by (reflexivity || assumption).
  rewrite !(parse_line_other _ _ "M" "M" "M") by (reflexivity || assumption).
  reflexivity.
Qed.

Lemma text_report_reads_back_witness :
  parse_txt_file {[ "rates.txt" := text_report show_two_rates pretty example_results ]}
                 "rates.txt"
  = (<["Priority Match Rate (%)" := ONum (FFin (1000 # 10))]>
       (<["Occurrence Match Rate (%)" := ONum (FFin (1000 # 10))]>
          (<["Severity Match Rate (%)" := ONum (FFin (500 # 10))]> ∅)),
     None).
Proof.
  apply (text_report_reads_back show_two_rates pretty example_results);
    [repeat constructor | reflexivity | reflexivity | reflexivity | reflexivity].
Defined.

Lemma parse_lines_entries lines (m : gmap string pyobj) :
  (forall k v, m !! k = Some v -> In k rate_keys /\ exists x, v = ONum x) ->
  forall k v, fst (parse_lines lines m) !! k = Some v ->
              In k rate_keys /\ exists x, v = ONum x.
Proof.
  revert m. induction lines as [|line lines IH]; intros m Hm; [exact Hm|].
  cbn [parse_lines]. destruct (parse_line line) as [|key value|] eqn:E.
  - apply IH. exact Hm.
  - apply IH. intros k v. rewrite lookup_insert. case_decide as Hk.
    + subst k. intros [= <-]. split; [|eauto].
      unfold parse_line, store_rate in E.
      repeat match type of E with
             | (if ?c then _ else _) = _ => destruct c
             | match ?c with _ => _ end = _ => destruct c
             end; try discriminate E; injection E as <- _; simpl; tauto.
    + apply Hm.
  - exact Hm.
Qed.

Lemma get_rate_number (data : gmap string pyobj) (key alt : string) :
  (forall k v, data !! k = Some v -> exists x, v = ONum x) ->
  exists x, get_rate data key alt = ONum x.
Proof.
  intros Hd. unfold get_rate.
  destruct (data !! key) as [v|] eqn:E; [exact (Hd _ _ E)|].
  destruct (data !! alt) as [v|] eqn:E'; [exact (Hd _ _ E')|].
  eexists. reflexivity.
Qed.

(** X12.  Whatever the text file, the dictionary that [parse_txt_file] returns
    has no other keys than the three rate names and only numbers as
    values, so the visualisation never rejects it: the conversion returns
    a measurement and prints no warning. *)
Theorem txt_measurement_is_accepted (fs : text_files) (file_path : string) :
  (forall k v, fst (parse_txt_file fs file_path) !! k = Some v ->
               In k rate_keys /\ exists x, v = ONum x) /\
  (forall labels i,
     exists m, convert labels i (fst (parse_txt_file fs file_path))
               = ([], Return (Some m))).
Proof.
  assert (Hentries : forall k v, fst (parse_txt_file fs file_path) !! k = Some v ->
                                 In k rate_keys /\ exists x, v = ONum x).
  { unfold parse_txt_file. destruct (fs !! file_path) as [content|].
    - apply parse_lines_entries. intros k v. rewrite lookup_empty. discriminate.
    - intros k v. cbn [fst]. rewrite lookup_empty. discriminate. }
  split; [exact Hentries|].
  intros labels i.
  assert (Hnum : forall k v, fst (parse_txt_file fs file_path) !! k = Some v ->
                             exists x, v = ONum x)
    by (intros k v H; exact (proj2 (Hentries k v H))).
  unfold convert.
  destruct (get_rate_number _ "Severity Match Rate (%)" "severity_match_rate" Hnum) as [x ->].
  destruct (get_rate_number _ "Occurrence Match Rate (%)" "occurrence_match_rate" Hnum) as [y ->].
  destruct (get_rate_number _ "Priority Match Rate (%)" "priority_match_rate" Hnum) as [z ->].
  eexists. reflexivity.
Qed.

Lemma txt_measurement_is_accepted_witness :
  exists m, convert None 0 (fst (parse_txt_file two_reports "runs/first.txt"))
            = ([], Return (Some m)).
Proof. exact (proj2 (txt_measurement_is_accepted two_reports "runs/first.txt") None 0%nat). Defined.

(** ** [parse_csv_file] *)

(** X13.  [parse_csv_file] reads back the results table of the match-rate
    script: from the table with the eight result columns it takes the
    three rates and nothing else, and the visualisation accepts them as
    they are. *)
Theorem results_table_reads_back (read_csv : string -> option CsvFrame)
    (file_path : string) (res : Results) :
  read_csv file_path = Some (results_frame res) ->
  parse_csv_file read_csv file_path =
    (<["Priority Match Rate (%)" := ONum (FFin (Priority_Match_Rate res))]>
       (<["Occurrence Match Rate (%)" := ONum (FFin (Occurrence_Match_Rate res))]>
          (<["Severity Match Rate (%)" := ONum (FFin (Severity_Match_Rate res))]> ∅)),
     None) /\
  forall labels i,
    convert labels i (fst (parse_csv_file read_csv file_path)) =
      ([], Return (Some (mkMeasured (label_of labels i)
                                    (FFin (Severity_Match_Rate res))
                                    (FFin (Occurrence_Match_Rate res))
                                    (FFin (Priority_Match_Rate res))))).
Proof.
  intros Hread.
  assert (E : parse_csv_file read_csv file_path =
    (<["Priority Match Rate (%)" := ONum (FFin (Priority_Match_Rate res))]>
       (<["Occurrence Match Rate (%)" := ONum (FFin (Occurrence_Match_Rate res))]>
          (<["Severity Match Rate (%)" := ONum (FFin (Severity_Match_Rate res))]> ∅)),
     None)).
  { unfold parse_csv_file. rewrite Hread. reflexivity. }
  split; [exact E|]. intros lbls i. rewrite E. reflexivity.
Qed.

Lemma results_table_reads_back_witness :
  parse_csv_file (fun _ => Some (results_frame example_results)) "rates.csv" =
    (<["Priority Match Rate (%)" := ONum (FFin 100)]>
       (<["Occurrence Match Rate (%)" := ONum (FFin 100)]>
          (<["Severity Match Rate (%)" := ONum (FFin 50)]> ∅)),
     None).
Proof.
  apply (results_table_reads_back (fun _ => Some (results_frame example_results))
           "rates.csv" example_results eq_refl).
Defined.

Lemma pick_columns_no_row df cols m :
  csv_rows df = [] -> pick_columns df cols m = None \/ pick_columns df cols m = Some m.
Proof.
  intros Hrows. induction cols as [|col cols IH]; [right; reflexivity|].
  cbn [pick_columns]. rewrite Hrows.
  repeat match goal with |- context [if ?c then _ else _] => destruct c end;
    auto.
Qed.

(** X14.  From a table without a data row [parse_csv_file] returns the empty
    dictionary, whether a column names a rate (then [iloc[0]] raises) or
    not. *)
Theorem csv_without_rows_gives_nothing (read_csv : string -> option CsvFrame)
    (file_path : string) (df : CsvFrame) :
  read_csv file_path = Some df -> csv_rows df = [] ->
  fst (parse_csv_file read_csv file_path) = ∅.
Proof.
  intros Hread Hrows. unfold parse_csv_file. rewrite Hread.
  destruct (pick_columns_no_row df (csv_columns df) ∅ Hrows) as [-> | ->]; reflexivity.
Qed.

Lemma csv_without_rows_gives_nothing_witness :
  fst (parse_csv_file (fun _ => Some (mkCsvFrame ["Severity Match Rate (%)"] []))
                      "rates.csv") = ∅.
Proof.
  apply (csv_without_rows_gives_nothing
           (fun _ => Some (mkCsvFrame ["Severity Match Rate (%)"] [])) "rates.csv"
           (mkCsvFrame ["Severity Match Rate (%)"] []));
    reflexivity.
Defined.

(** ** [main] of [visualize_comparisons.py]: the files and their labels *)

Lemma load_files_step fs read_csv i file_path rest st :
  load_files fs read_csv i (file_path :: rest) st =
  load_files fs read_csv (S i) rest
    (match loaded_data fs read_csv file_path with
     | Some data =>
         mkLoaded (data_list st ++ [data])
                  (if (length (labels st) <=? i)%nat
                   then labels st ++ [basename file_path] else labels st)
                  (notes (load_files fs read_csv i [file_path] st))
     | None =>
         mkLoaded (data_list st) (labels st)
                  (notes (load_files fs read_csv i [file_path] st))
     end).
Proof.
  unfold loaded_data. cbn [load_files].
  destruct (endswith file_path ".txt").
  - destruct (parse_txt_file fs file_path) as [data err]. cbn [fst].
    destruct (is_empty_dict data); reflexivity.
  - destruct (endswith file_path ".csv"); [|reflexivity].
    destruct (parse_csv_file read_csv file_path) as [data err]. cbn [fst].
    destruct (is_empty_dict data); reflexivity.
Qed.

Lemma load_files_data fs read_csv i files st :
  data_list (load_files fs read_csv i files st)
  = data_list st ++ omap (loaded_data fs read_csv) files.
Proof.
  revert i st. induction files as [|f files IH]; intros i st.
  - cbn. rewrite app_nil_r. reflexivity.
  - rewrite load_files_step, IH. cbn [omap list_omap].
    destruct (loaded_data fs read_csv f); cbn [data_list]; [|reflexivity].
    rewrite <- app_assoc. reflexivity.
Qed.

Lemma load_files_labels_fresh fs read_csv i files st :
  (length (labels st) <= i)%nat ->
  labels (load_files fs read_csv i files st)
  = labels st ++ map basename (List.filter (loads fs read_csv) files).
Proof.
  revert i st. induction files as [|f files IH]; intros i st Hlen.
  - cbn. rewrite app_nil_r. reflexivity.
  - rewrite load_files_step. cbn [List.filter]. unfold loads at 1.
    destruct (loaded_data fs read_csv f).
    + rewrite IH.
      * cbn [labels]. rewrite (proj2 (Nat.leb_le _ _) Hlen).
        cbn [map]. rewrite <- app_assoc. reflexivity.
      * cbn [labels]. rewrite (proj2 (Nat.leb_le _ _) Hlen).
        rewrite length_app. simpl. lia.
    + rewrite IH; [reflexivity|]. cbn [labels]. lia.
Qed.

Lemma load_files_labels_given fs read_csv i files st :
  (i + length files <= length (labels st))%nat ->
  labels (load_files fs read_csv i files st) = labels st.
Proof.
  revert i st. induction files as [|f files IH]; intros i st Hlen; [reflexivity|].
  cbn [length] in Hlen. rewrite load_files_step.
  assert (Hi : (length (labels st) <=? i)%nat = false) by (apply Nat.leb_gt; lia).
  destruct (loaded_data fs read_csv f); rewrite IH; cbn [labels]; rewrite ?Hi;
    try reflexivity; lia.
Qed.

Lemma load_files_labelled fs read_csv i files st :
  (length (data_list st) <= i)%nat ->
  (length (data_list st) <= length (labels st))%nat ->
  (length (data_list (load_files fs read_csv i files st))
   <= length (labels (load_files fs read_csv i files st)))%nat.
Proof.
  revert i st. induction files as [|f files IH]; intros i st Hi Hlen; [exact Hlen|].
  rewrite load_files_step.
  destruct (loaded_data fs read_csv f); apply IH; cbn [data_list labels];
    try lia.
  - rewrite length_app. simpl. lia.
  - rewrite length_app. cbn [length].
    destruct (length (labels st) <=? i)%nat eqn:E.
    + rewrite length_app. simpl. lia.
    + apply Nat.leb_gt in E. lia.
Qed.

(** X15.  When no label is given, the labels that [main] builds are the base
    names of the files it kept, in order: each measurement kept is
    labelled with the name of its own file, whatever files were skipped. *)
Theorem file_names_become_labels (fs : text_files)
    (read_csv : string -> option CsvFrame) (files : list string)
    (args_labels : option (list string)) :
  default [] args_labels = [] ->
  data_list (load fs read_csv (Some files) args_labels)
    = omap (loaded_data fs read_csv) files /\
  labels (load fs read_csv (Some files) args_labels)
    = map basename (List.filter (loads fs read_csv) files).
Proof.
  intros Hnone. unfold load. rewrite Hnone. cbn [default from_option id].
  split.
  - apply load_files_data.
  - apply (load_files_labels_fresh fs read_csv 0 files (mkLoaded [] [] [])).
    cbn. lia.
Qed.

Lemma file_names_become_labels_witness :
  data_list (load two_reports (fun _ => None)
                  (Some ["runs/first.txt"; "notes.md"; "runs/third.txt"]) None)
    = [ {[ "Severity Match Rate (%)" := ONum (FFin 80) ]};
        {[ "Severity Match Rate (%)" := ONum (FFin 90) ]} ] /\
  labels (load two_reports (fun _ => None)
               (Some ["runs/first.txt"; "notes.md"; "runs/third.txt"]) None)
    = ["first.txt"; "third.txt"].
Proof.
  destruct (file_names_become_labels two_reports (fun _ => None)
              ["runs/first.txt"; "notes.md"; "runs/third.txt"] None eq_refl)
    as [Hd Hl].
  rewrite Hd, Hl. split; reflexivity.
Defined.

(** X16.  When a label is given for every file, [main] leaves the labels as
    they are; the measurements kept are then labelled in the order in
    which they were kept, so that after a skipped file a measurement
    carries the label given for an earlier file. *)
Theorem given_labels_are_not_realigned (fs : text_files)
    (read_csv : string -> option CsvFrame) (files given : list string) :
  (length files <= length given)%nat ->
  labels (load fs read_csv (Some files) (Some given)) = given /\
  data_list (load fs read_csv (Some files) (Some given))
    = omap (loaded_data fs read_csv) files.
Proof.
  intros Hlen. unfold load. cbn [default from_option id]. split.
  - apply (load_files_labels_given fs read_csv 0 files (mkLoaded [] given [])).
    cbn. lia.
  - apply load_files_data.
Qed.

Lemma given_labels_are_not_realigned_witness :
  labels (load two_reports (fun _ => None)
               (Some ["notes.md"; "runs/third.txt"]) (Some ["Notes"; "Third"]))
    = ["Notes"; "Third"] /\
  data_list (load two_reports (fun _ => None)
                  (Some ["notes.md"; "runs/third.txt"]) (Some ["Notes"; "Third"]))
    = [ {[ "Severity Match Rate (%)" := ONum (FFin 90) ]} ] /\
  label_of (Some ["Notes"; "Third"]) 0 = "Notes".
Proof.
  destruct (given_labels_are_not_realigned two_reports (fun _ => None)
              ["notes.md"; "runs/third.txt"] ["Notes"; "Third"]) as [Hl Hd];
    [simpl; lia|].
  rewrite Hl, Hd. repeat split.
Defined.

(** X17.  Whatever the files and the labels given, every measurement that
    [main] keeps has a label in the list it passes on, so that the
    visualisation never falls back on a name "Measurement N" for it. *)
Theorem kept_measurements_have_labels (fs : text_files)
    (read_csv : string -> option CsvFrame)
    (args_files args_labels : option (list string)) (k : nat) (data : gmap string pyobj) :
  data_list (load fs read_csv args_files args_labels) !! k = Some data ->
  exists name,
    labels (load fs read_csv args_files args_labels) !! k = Some name /\
    label_of (Some (labels (load fs read_csv args_files args_labels))) k = name.
Proof.
  intros Hk.
  assert (Hlen : (length (data_list (load fs read_csv args_files args_labels))
                  <= length (labels (load fs read_csv args_files args_labels)))%nat).
  { unfold load. apply load_files_labelled; cbn; lia. }
  apply lookup_lt_Some in Hk.
  destruct (lookup_lt_is_Some_2 (labels (load fs read_csv args_files args_labels)) k)
    as [name Hname]; [lia|].
  exists name. split; [exact Hname|].
  unfold label_of. rewrite Hname. reflexivity.
Qed.

Lemma kept_measurements_have_labels_witness :
  exists name,
    labels (load two_reports (fun _ => None)
                 (Some ["notes.md"; "runs/third.txt"]) (Some ["Notes"])) !! 0%nat
      = Some name /\
    label_of (Some (labels (load two_reports (fun _ => None)
                                 (Some ["notes.md"; "runs/third.txt"]) (Some ["Notes"]))))
             0 = name.
Proof.
  apply (kept_measurements_have_labels two_reports (fun _ => None)
           (Some ["notes.md"; "runs/third.txt"]) (Some ["Notes"]) 0
           {[ "Severity Match Rate (%)" := ONum (FFin 90) ]}).
  reflexivity.
Defined.

(** ** [str.replace] and the paths built with it *)

Lemma replace_from_absent (old new s : string) :
  contains old s = false -> replace_from old new 0 s = s.
Proof.
  induction s as [|c s IH]; [reflexivity|].
  cbn [contains replace_from]. intros H.
  apply orb_false_iff in H as [Hp Hs].
  rewrite Hp, (IH Hs). reflexivity.
Qed.

Lemma replace_absent (s old new : string) :
  old <> "" -> contains old s = false -> replace s old new = s.
Proof.
  intros Hold Hs. unfold replace. destruct old as [|c old]; [congruence|].
  apply replace_from_absent. exact Hs.
Qed.

Lemma replace_after_stem (stem tail new : string) :
  contains_char "." stem = false ->
  replace (stem ++ String "." tail) (String "." tail) new
  = (stem ++ replace (String "." tail) (String "." tail) new)%string.
Proof.
  unfold replace. induction stem as [|c stem IH]; intros H; [reflexivity|].
  cbn [contains_char] in H. apply orb_false_iff in H as [Hc Hs].
  change (String c stem ++ ?x)%string with (String c (stem ++ x)).
  cbn [replace_from String.prefix].
  destruct (Ascii.ascii_dec "." c) as [<-|_]; [discriminate Hc|].
  rewrite (IH Hs). reflexivity.
Qed.

Lemma append_not_empty (a b : string) c : String.eqb (a ++ String c b) "" = false.
Proof. destruct a; reflexivity. Qed.

Lemma on_disk_snoc writes path what :
  on_disk (writes ++ [(path, what)]) = <[path := what]> (on_disk writes).
Proof. unfold on_disk. rewrite foldl_app. reflexivity. Qed.

Lemma written_when_all_goes_well world args timestamp df :
  csv_table world (csv_file args) = Some df -> missing_columns df = [] ->
  (forall m, cross_tables world m <> None) ->
  (forall path, can_write world path = true) ->
  written world args timestamp = output_files args timestamp.
Proof.
  intros Hcsv Hmiss Hcross Hwrite. unfold written. rewrite Hcsv.
  destruct (calculate_match_rates_returns df Hmiss) as (res & m & -> & _).
  cbn [snd ret].
  assert (Hall : forall files, write_all (can_write world) files = files).
  { induction files as [|file files IH]; [reflexivity|].
    cbn [write_all]. rewrite Hwrite, IH. reflexivity. }
  rewrite Hall.
  destruct (detailed args); [|reflexivity].
  destruct (cross_tables world m) eqn:E; [reflexivity|].
  exfalso. exact (Hcross m E).
Qed.

Lemma written_cases world args timestamp :
  written world args timestamp = [] \/
  written world args timestamp = write_all (can_write world) (output_files args timestamp).
Proof.
  unfold written.
  destruct (csv_table world (csv_file args)) as [df|]; [|left; reflexivity].
  destruct (snd (calculate_match_rates df)) as [[[res m]|]|e];
    try (left; reflexivity).
  destruct (detailed args), (cross_tables world m);
    try (right; reflexivity); left; reflexivity.
Qed.

(** X18.  With [--output-file NAME] where NAME has no ".csv" in it, the text
    report gets the very path of the results table and is written after
    it: whatever happens, no results table is left on disk.  When nothing
    fails (the table is read and has the six columns, the cross
    tabulations have a text, every path can be written) the files
    written are the ones listed. *)
Theorem name_without_csv_loses_the_table (world : World) (args : Args)
    (timestamp name : string) :
  output args = false -> output_file args = Some name -> name <> "" ->
  contains ".csv" name = false ->
  (forall path, on_disk (written world args timestamp) !! path <> Some ResultsTable) /\
  (forall df,
     csv_table world (csv_file args) = Some df -> missing_columns df = [] ->
     (forall m, cross_tables world m <> None) ->
     (forall path, can_write world path = true) ->
     written world args timestamp =
       [(name, ResultsTable); (name, TextReport)] ++
       (if detailed args
        then [(name, DetailedTable);
              (replace name ".txt" "_detailed.txt", DetailedText)]
        else [])).
Proof.
  intros Hout Hname Hne Hcsv.
  assert (Hfiles : output_files args timestamp =
    [(name, ResultsTable); (name, TextReport)] ++
    (if detailed args
     then [(name, DetailedTable);
           (replace name ".txt" "_detailed.txt", DetailedText)]
     else [])).
  { unfold output_files, chosen_output. rewrite Hout, Hname.
    rewrite !(proj2 (String.eqb_neq name "") Hne). cbv beta iota zeta.
    rewrite !(replace_absent name ".csv") by (discriminate || exact Hcsv).
    reflexivity. }
  split.
  - intros path.
    destruct (written_cases world args timestamp) as [->| ->];
      [unfold on_disk; cbn [foldl]; rewrite lookup_empty; discriminate|].
    rewrite Hfiles. cbn [app write_all fst].
    destruct (can_write world name) eqn:Hcw;
      [|unfold on_disk; cbn [foldl]; rewrite lookup_empty; discriminate].
    destruct (detailed args); cbn [write_all fst]; rewrite ?Hcw;
      [destruct (can_write world (replace name ".txt" "_detailed.txt"))|];
      unfold on_disk; cbn [foldl fst snd];
      rewrite ?lookup_insert; repeat case_decide; rewrite ?lookup_empty;
      first [discriminate | congruence].
  - intros df Hdf Hmiss Hcross Hwrite.
    rewrite (written_when_all_goes_well _ _ _ df Hdf Hmiss Hcross Hwrite).
    exact Hfiles.
Qed.

Lemma name_without_csv_loses_the_table_witness :
  on_disk (written (plain_world example_table)
                   (mkArgs "issues.csv" false false (Some "rates.tsv")) "20250101_120000")
  = {[ "rates.tsv" := TextReport ]}.
Proof.
  destruct (name_without_csv_loses_the_table
              (plain_world example_table)
              (mkArgs "issues.csv" false false (Some "rates.tsv")) "20250101_120000"
              "rates.tsv") as [_ Hw];
    [reflexivity | reflexivity | discriminate | reflexivity |].
  rewrite (Hw example_table);
    [|reflexivity | reflexivity | discriminate | reflexivity].
  apply map_eq. intros path. unfold on_disk. cbn [app foldl fst snd].
  rewrite insert_insert_eq. reflexivity.
Defined.

(** X19.  With [--output] and [--detailed], when the base name of the input
    without its extension and the time stamp have no dot in them, and
    nothing fails (the table is read and has the six columns, the cross
    tabulations have a text, every path can be written), [main]
    writes four files under four different names: STEM.csv, STEM.txt,
    STEM_detailed.csv and STEM_detailed.txt. *)
Theorem auto_named_files (world : World) (args : Args) (timestamp : string)
    (df : DataFrame) :
  let stem := (fst (splitext (basename (csv_file args)))
               ++ "_match_rates_" ++ timestamp)%string in
  output args = true -> detailed args = true ->
  contains_char "." stem = false ->
  csv_table world (csv_file args) = Some df -> missing_columns df = [] ->
  (forall m, cross_tables world m <> None) ->
  (forall path, can_write world path = true) ->
  written world args timestamp =
    [ ((stem ++ ".csv")%string, ResultsTable);
      ((stem ++ ".txt")%string, TextReport);
      ((stem ++ "_detailed.csv")%string, DetailedTable);
      ((stem ++ "_detailed.txt")%string, DetailedText) ] /\
  NoDup (map fst (written world args timestamp)).
Proof.
  intros stem Hout Hdet Hstem Hdf Hmiss Hcross Hwrite.
  assert (Hname : auto_name (csv_file args) timestamp = (stem ++ ".csv")%string).
  { unfold auto_name, stem. rewrite !append_assoc. reflexivity. }
  assert (Hw : written world args timestamp =
    [ ((stem ++ ".csv")%string, ResultsTable);
      ((stem ++ ".txt")%string, TextReport);
      ((stem ++ "_detailed.csv")%string, DetailedTable);
      ((stem ++ "_detailed.txt")%string, DetailedText) ]).
  { rewrite (written_when_all_goes_well _ _ _ df Hdf Hmiss Hcross Hwrite).
    unfold output_files, chosen_output. rewrite Hout, Hdet, Hname.
    rewrite !(append_not_empty stem "csv" "."). cbv beta iota zeta.
    rewrite !(replace_after_stem stem "csv" _ Hstem).
    change (replace ".csv" ".csv" ".txt") with ".txt".
    change (replace ".csv" ".csv" "_detailed.csv") with "_detailed.csv".
    rewrite (replace_after_stem stem "txt" _ Hstem).
    reflexivity. }
  split; [exact Hw|]. rewrite Hw. cbn [map fst].
  repeat (apply NoDup_cons; split;
          [rewrite ?not_elem_of_cons; repeat split;
           try (intros E; apply (inj (String.append stem)) in E; discriminate E);
           apply not_elem_of_nil|]).
  apply NoDup_nil. exact I.
Qed.

Lemma auto_named_files_witness :
  written (plain_world example_table)
          (mkArgs "data/issues.csv" true true None) "20250101_120000" =
    [ ("issues_match_rates_20250101_120000.csv", ResultsTable);
      ("issues_match_rates_20250101_120000.txt", TextReport);
      ("issues_match_rates_20250101_120000_detailed.csv", DetailedTable);
      ("issues_match_rates_20250101_120000_detailed.txt", DetailedText) ].
Proof.
  apply (auto_named_files (plain_world example_table)
           (mkArgs "data/issues.csv" true true None) "20250101_120000" example_table);
    try reflexivity; discriminate.
Defined.

(** X26.  When the table that is read lacks one of the six columns, or when
    the file cannot be read, [main] writes no file, whatever the options:
    [calculate_match_rates] returns [None], the unpacking of which raises,
    and the handler only prints the error. *)
Theorem nothing_written_after_a_failure (world : World) (args : Args) (timestamp : string) :
  (csv_table world (csv_file args) = None \/
   exists df, csv_table world (csv_file args) = Some df /\ missing_columns df <> []) ->
  written world args timestamp = [].
Proof.
  intros [Hnone|(df & Hdf & Hmiss)]; unfold written.
  - rewrite Hnone. reflexivity.
  - rewrite Hdf. unfold calculate_match_rates.
    destruct (missing_columns df) as [|c cs]; [congruence|reflexivity].
Qed.

Lemma nothing_written_after_a_failure_witness :
  written (plain_world table_without_priorities)
          (mkArgs "data/issues.csv" true true None) "20250101_120000" = [].
Proof.
  apply (nothing_written_after_a_failure (plain_world table_without_priorities)).
  right. exists table_without_priorities. split; [reflexivity|discriminate].
Defined.

(** X20.  When the path given for the chart has neither ".png" nor ".jpg" in
    it, the comparison table is written, as CSV and as Excel, to that
    very path. *)
Theorem table_path_is_the_chart_path (output_file : string) :
  contains ".png" output_file = false -> contains ".jpg" output_file = false ->
  csv_output output_file = output_file /\ excel_output output_file = output_file.
Proof.
  intros Hpng Hjpg. unfold csv_output, excel_output.
  rewrite !(replace_absent output_file ".png") by (discriminate || exact Hpng).
  rewrite !(replace_absent output_file ".jpg") by (discriminate || exact Hjpg).
  split; reflexivity.
Qed.

Lemma table_path_is_the_chart_path_witness :
  csv_output "comparison.pdf" = "comparison.pdf" /\
  excel_output "comparison.pdf" = "comparison.pdf".
Proof. apply table_path_is_the_chart_path; reflexivity. Defined.

Lemma rfind_char_none c (s : string) :
  rfind_char c s = None -> contains_char c s = false.
Proof.
  induction s as [|x s IH]; [reflexivity|].
  cbn [rfind_char contains_char].
  destruct (rfind_char c s); [discriminate|].
  destruct (Ascii.eqb c x); [discriminate|]. intros _. exact (IH eq_refl).
Qed.

Lemma substring_all (s : string) : String.substring 0 (String.length s) s = s.
Proof. induction s as [|x s IH]; [reflexivity|]. simpl. rewrite IH. reflexivity. Qed.

Lemma tail_after_rfind c (s : string) i :
  rfind_char c s = Some i ->
  contains_char c (String.substring (S i) (String.length s - S i) s) = false.
Proof.
  revert i. induction s as [|x s IH]; intros i; [discriminate|].
  cbn [rfind_char]. destruct (rfind_char c s) as [j|] eqn:E.
  - intros [= <-]. exact (IH j eq_refl).
  - destruct (Ascii.eqb c x); [|discriminate]. intros [= <-].
    cbn [String.length Nat.sub String.substring].
    rewrite Nat.sub_0_r, substring_all. apply rfind_char_none. exact E.
Qed.

Lemma basename_no_slash (p : string) : contains_char "/" (basename p) = false.
Proof.
  unfold basename. destruct (rfind_char "/" p) as [i|] eqn:E.
  - apply tail_after_rfind. exact E.
  - apply rfind_char_none. exact E.
Qed.

Lemma substring_head_no_char c (s : string) d :
  contains_char c s = false -> contains_char c (String.substring 0 d s) = false.
Proof.
  revert d. induction s as [|x s IH]; intros d H; [destruct d; reflexivity|].
  cbn [contains_char] in H. apply orb_false_iff in H as [Hx Hs].
  destruct d as [|d]; [reflexivity|].
  cbn [String.substring contains_char]. rewrite Hx, (IH d Hs). reflexivity.
Qed.

Lemma splitext_root_no_char c (p : string) :
  contains_char c p = false -> contains_char c (fst (splitext p)) = false.
Proof.
  intros H. unfold splitext.
  destruct (rfind_char "." p) as [d|]; [|exact H].
  destruct (_ && _); [|exact H].
  cbn [fst]. apply substring_head_no_char. exact H.
Qed.

(** X21.  The name that [--output] generates has no directory in it: the
    results are written to the working directory, wherever the input
    file is. *)
Theorem auto_name_has_no_directory (csv_file timestamp : string) :
  contains_char "/" timestamp = false ->
  contains_char "/" (auto_name csv_file timestamp) = false.
Proof.
  intros Hts. unfold auto_name. rewrite !contains_char_app.
  rewrite (splitext_root_no_char "/" _ (basename_no_slash csv_file)), Hts.
  reflexivity.
Qed.

Lemma auto_name_has_no_directory_witness :
  contains_char "/" (auto_name "/srv/reviews/2025/issues.v2.csv" "20250101_120000")
    = false /\
  auto_name "/srv/reviews/2025/issues.v2.csv" "20250101_120000"
    = "issues.v2_match_rates_20250101_120000.csv".
Proof.
  split; [|reflexivity].
  apply (auto_name_has_no_directory "/srv/reviews/2025/issues.v2.csv" "20250101_120000").
  reflexivity.
Defined.

(** ** Severity patterns are looked for anywhere in the text *)

Lemma upper_app (a b : string) : upper (a ++ b) = (upper a ++ upper b)%string.
Proof.
  induction a as [|x a IH]; [reflexivity|].
  change (String (upper_char x) (upper (a ++ b))
          = String (upper_char x) (upper a ++ upper b))%string.
  rewrite IH. reflexivity.
Qed.

Lemma prefix_app (pat rest : string) : String.prefix pat (pat ++ rest) = true.
Proof.
  induction pat as [|x pat IH]; [destruct rest; reflexivity|].
  change (String.prefix (String x pat) (String x (pat ++ rest)) = true).
  cbn [String.prefix]. destruct (Ascii.ascii_dec x x); [exact IH|congruence].
Qed.

Lemma contains_inside (pat before after : string) :
  contains pat (before ++ pat ++ after) = true.
Proof.
  induction before as [|x before IH].
  - change (contains pat (pat ++ after) = true).
    destruct (pat ++ after)%string eqn:E; cbn [contains];
      rewrite <- E, prefix_app; reflexivity.
  - change (contains pat (String x (before ++ pat ++ after)) = true).
    cbn [contains]. rewrite IH. apply orb_true_r.
Qed.

(** X22.  The mark "Critical (A)", in any letter case and with any text
    before and after it, makes a severity a showstopper, whatever other
    pattern the text contains: it is the first pattern tried. *)
Theorem critical_mark_wins (mark before after : string) :
  upper mark = "CRITICAL (A)" ->
  standardize_severity (PStr (before ++ mark ++ after))
    = ret (Some "A - SHOWSTOPPER").
Proof.
  intros Hmark. unfold standardize_severity. cbn [is_None str].
  rewrite !upper_app, Hmark.
  cbn [ai_severity_map first_contained].
  rewrite contains_inside. reflexivity.
Qed.

Lemma critical_mark_wins_witness :
  standardize_severity (PStr "Minor (C), was critical (a) before the fix")
    = ret (Some "A - SHOWSTOPPER").
Proof.
  apply (critical_mark_wins "critical (a)" "Minor (C), was " " before the fix").
  reflexivity.
Defined.

(** ** The two raters play the same part *)

Lemma count_rows_map {A B} (f : A -> B) (p : B -> bool) (q : A -> bool) (l : list A) :
  (forall x, p (f x) = q x) -> count_rows p (map f l) = count_rows q l.
Proof.
  intros E. unfold count_rows.
  induction l as [|x l IH]; [reflexivity|].
  cbn [map List.filter]. rewrite E. destruct (q x); cbn [length]; rewrite IH; reflexivity.
Qed.

Lemma eq_elem_sym a b : eq_elem a b = eq_elem b a.
Proof. destruct a, b; cbn [eq_elem]; try reflexivity. apply String.eqb_sym. Qed.

Lemma results_from_rows_swap l :
  results_from_rows (map swap_raters l) = results_from_rows l.
Proof.
  assert (Hs : forall p q : (string -> pyval) -> bool,
             (forall r, p (swap_raters r) = q r) ->
             count_rows p (map swap_raters l) = count_rows q l)
    by (intros p q E; apply count_rows_map; exact E).
  unfold results_from_rows. cbv zeta. rewrite length_map.
  rewrite (Hs (fun r => eq_elem (severity_label (r "user_severity"))
                                (severity_label (r "ai_severity")))
              (fun r => eq_elem (severity_label (r "user_severity"))
                                (severity_label (r "ai_severity"))))
    by (intros r; apply eq_elem_sym).
  rewrite (Hs (fun r => eq_elem (occurrence_label (r "user_occurrence"))
                                (occurrence_label (r "ai_occurrence")))
              (fun r => eq_elem (occurrence_label (r "user_occurrence"))
                                (occurrence_label (r "ai_occurrence"))))
    by (intros r; apply eq_elem_sym).
  rewrite (Hs (fun r => eq_elem (priority_label (r "user_priority"))
                                (priority_label (r "ai_priority")))
              (fun r => eq_elem (priority_label (r "user_priority"))
                                (priority_label (r "ai_priority"))))
    by (intros r; apply eq_elem_sym).
  rewrite (Hs (fun r => notna (severity_label (r "user_severity"))
                        && notna (severity_label (r "ai_severity")))
              (fun r => notna (severity_label (r "user_severity"))
                        && notna (severity_label (r "ai_severity"))))
    by (intros r; apply andb_comm).
  rewrite (Hs (fun r => notna (occurrence_label (r "user_occurrence"))
                        && notna (occurrence_label (r "ai_occurrence")))
              (fun r => notna (occurrence_label (r "user_occurrence"))
                        && notna (occurrence_label (r "ai_occurrence"))))
    by (intros r; apply andb_comm).
  rewrite (Hs (fun r => notna (priority_label (r "user_priority"))
                        && notna (priority_label (r "ai_priority")))
              (fun r => notna (priority_label (r "user_priority"))
                        && notna (priority_label (r "ai_priority"))))
    by (intros r; apply andb_comm).
  rewrite (Hs all_three_equal all_three_equal).
  2:{ intros r. unfold all_three_equal.
      rewrite (eq_elem_sym (severity_label (swap_raters r "user_severity"))),
              (eq_elem_sym (occurrence_label (swap_raters r "user_occurrence"))),
              (eq_elem_sym (priority_label (swap_raters r "user_priority"))).
      reflexivity. }
  rewrite (Hs (fun r => forallb notna (six_labels r))
              (fun r => forallb notna (six_labels r))).
  2:{ intros r. unfold six_labels. cbn [forallb].
      change (swap_raters r "user_severity") with (r "ai_severity").
      change (swap_raters r "ai_severity") with (r "user_severity").
      change (swap_raters r "user_occurrence") with (r "ai_occurrence").
      change (swap_raters r "ai_occurrence") with (r "user_occurrence").
      change (swap_raters r "user_priority") with (r "ai_priority").
      change (swap_raters r "ai_priority") with (r "user_priority").
      destruct (notna (severity_label (r "user_severity"))),
               (notna (severity_label (r "ai_severity"))),
               (notna (occurrence_label (r "user_occurrence"))),
               (notna (occurrence_label (r "ai_occurrence"))),
               (notna (priority_label (r "user_priority"))),
               (notna (priority_label (r "ai_priority"))); reflexivity. }
  reflexivity.
Qed.

(** X23.  The results do not tell the two raters apart: exchanging, in
    every row, the user's ratings with the AI's ratings leaves the eight
    entries of the results unchanged. *)
Theorem results_are_symmetric (cols : list string)
    (rows1 : list (string -> pyval)) out res m :
  calculate_match_rates (mkDataFrame cols rows1) = (out, Return (Some (res, m))) ->
  exists m', calculate_match_rates (mkDataFrame cols (map swap_raters rows1))
               = (out, Return (Some (res, m'))).
Proof.
  intros Hrun.
  destruct (calculate_match_rates_some _ _ _ _ Hrun) as (Hmiss & -> & Hm & Hres).
  assert (Hmiss' : missing_columns (mkDataFrame cols (map swap_raters rows1)) = [])
    by exact Hmiss.
  destruct (calculate_match_rates_returns _ Hmiss') as (res' & m' & Hrun' & Hm' & Hres').
  exists m'. rewrite Hrun'.
  rewrite (results_by_rows _ _ _ Hm Hres), (results_by_rows _ _ _ Hm' Hres').
  cbn [rows]. rewrite results_from_rows_swap. reflexivity.
Qed.

Lemma results_are_symmetric_witness :
  exists res m m',
    calculate_match_rates (mkDataFrame required_columns example_rows)
      = ([], Return (Some (res, m))) /\
    calculate_match_rates (mkDataFrame required_columns (map swap_raters example_rows))
      = ([], Return (Some (res, m'))).
Proof.
  eexists _, _.
  destruct (results_are_symmetric required_columns example_rows [] _ _ eq_refl)
    as (m' & Hrun').
  exists m'. split; [reflexivity|exact Hrun'].
Defined.

(** ** The table of the visualisation *)

Lemma visualization_table data_list labels :
  accepted labels 0 data_list <> [] ->
  Forall (fun m => finite_rates m = true) (accepted labels 0 data_list) ->
  NoDup (map label (accepted labels 0 data_list)) ->
  snd (create_comparison_visualization data_list labels)
    = Return (Some (<["AVERAGE" := mean_axis0 (table_of (accepted labels 0 data_list))]>
                      (table_of (accepted labels 0 data_list)))).
Proof.
  intros Hne Hfin Hnd.
  rewrite (create_comparison_visualization_eq _ _ (accepted_nonempty _ _ _ Hne)).
  rewrite (after_loop_eq _ Hne Hfin). cbn [snd].
  rewrite (pivot_three_rows _ Hnd). reflexivity.
Qed.

(** X24.  When the accepted measurements have finite rates and carry
    pairwise different labels, the table returned has one row per label
    and the row "AVERAGE", and the row of a measurement holds its three
    rates as they were converted.  (A measurement labelled "AVERAGE" loses
    its row to the averages.) *)
Theorem table_holds_each_measurement
    (data_list : list (gmap string pyobj)) (labels : option (list string)) :
  accepted labels 0 data_list <> [] ->
  Forall (fun m => finite_rates m = true) (accepted labels 0 data_list) ->
  NoDup (map label (accepted labels 0 data_list)) ->
  exists t,
    snd (create_comparison_visualization data_list labels) = Return (Some t) /\
    dom t =@{gset string}
      list_to_set (map label (accepted labels 0 data_list)) ∪ {["AVERAGE"]} /\
    forall m, m ∈ accepted labels 0 data_list -> label m <> "AVERAGE" ->
      t !! label m = Some (metrics_row m).
Proof.
  intros Hne Hfin Hnd. eexists. split; [apply (visualization_table _ _ Hne Hfin Hnd)|].
  set (acc := accepted labels 0 data_list) in *. split.
  - rewrite dom_insert_L. unfold table_of. rewrite dom_list_to_map_L.
    rewrite <- list_fmap_compose. apply union_comm_L.
  - intros m Hm Hlabel. rewrite lookup_insert_ne by congruence.
    unfold table_of. apply elem_of_list_to_map_1.
    + rewrite <- list_fmap_compose. exact Hnd.
    + apply list_elem_of_fmap. exists m. split; [reflexivity|exact Hm].
Qed.

Lemma table_holds_each_measurement_witness :
  exists t,
    snd (create_comparison_visualization two_measurements (Some ["first"; "second"]))
      = Return (Some t) /\
    t !! "second" = Some (metrics_row (mkMeasured "second" (FFin 90) (FFin 75) (FFin 65))).
Proof.
  destruct (table_holds_each_measurement two_measurements (Some ["first"; "second"]))
    as (t & Ht & _ & Hrows).
  - vm_compute. discriminate.
  - repeat constructor.
  - apply (bool_decide_unpack _). vm_compute. exact I.
  - exists t. split; [exact Ht|].
    apply (Hrows (mkMeasured "second" (FFin 90) (FFin 75) (FFin 65))).
    + right. left.
    + discriminate.
Defined.

(** ** Default labels *)

Lemma label_of_no_labels labels i :
  no_labels labels = true -> label_of labels i = "Measurement " +:+ pretty (S i).
Proof.
  destruct labels as [[|l ls]|]; [reflexivity|discriminate|reflexivity].
Qed.

Lemma default_label_inj i j :
  "Measurement " +:+ pretty (S i) = "Measurement " +:+ pretty (S j) -> i = j.
Proof.
  intros H. cbv beta iota delta [String.append] in H.
  injection H as H. apply (inj pretty) in H. lia.
Qed.

Lemma default_label_not_average s : "Measurement " +:+ s <> "AVERAGE".
Proof. cbv beta iota delta [String.append]. discriminate. Qed.

Lemma convert_label labels i data m :
  snd (convert labels i data) = Return (Some m) -> label m = label_of labels i.
Proof.
  unfold convert.
  destruct (to_float_cases (get_rate data "Severity Match Rate (%)" "severity_match_rate"))
    as [[x ->]|(e & -> & He)];
    [rewrite bind_ret | unfold raise, bind, try_except; rewrite He; simpl; discriminate].
  destruct (to_float_cases (get_rate data "Occurrence Match Rate (%)" "occurrence_match_rate"))
    as [[y ->]|(e & -> & He)];
    [rewrite bind_ret | unfold raise, bind, try_except; rewrite He; simpl; discriminate].
  destruct (to_float_cases (get_rate data "Priority Match Rate (%)" "priority_match_rate"))
    as [[z ->]|(e & -> & He)];
    [rewrite bind_ret | unfold raise, bind, try_except; rewrite He; simpl; discriminate].
  simpl. intros [= <-]. reflexivity.
Qed.

Lemma accepted_labels labels i data_list :
  Forall (fun m => exists j, (i <= j)%nat /\ label m = label_of labels j)
         (accepted labels i data_list).
Proof.
  revert i. induction data_list as [|data rest IH]; intros i; [constructor|].
  assert (Hrest : Forall (fun m => exists j, (i <= j)%nat /\ label m = label_of labels j)
                         (accepted labels (S i) rest)).
  { eapply Forall_impl; [apply IH|]. intros m (j & Hj & E). exists j. split; [lia|exact E]. }
  cbn [accepted].
  destruct (snd (convert labels i data)) as [[m|]|e] eqn:E; try exact Hrest.
  constructor; [|exact Hrest].
  exists i. split; [lia|]. apply (convert_label _ _ _ _ E).
Qed.

Lemma accepted_default_NoDup labels i data_list :
  no_labels labels = true -> NoDup (map label (accepted labels i data_list)).
Proof.
  intros Hno. revert i. induction data_list as [|data rest IH]; intros i; [constructor|].
  cbn [accepted].
  destruct (snd (convert labels i data)) as [[m|]|e] eqn:E; try apply IH.
  cbn [map]. constructor; [|apply IH].
  intros Hin. apply list_elem_of_fmap in Hin as (m' & Elabel & Hm').
  pose proof (accepted_labels labels (S i) rest) as Hall.
  rewrite Forall_forall in Hall. destruct (Hall m' Hm') as (j & Hj & Ej).
  rewrite (convert_label _ _ _ _ E), Ej, !label_of_no_labels in Elabel by exact Hno.
  apply default_label_inj in Elabel. lia.
Qed.

(** X25.  When no label is passed, the default labels "Measurement N" of
    the accepted measurements never collide: as soon as one measurement is
    accepted, and the accepted rates are finite, the call returns a table,
    and the table has one row per accepted measurement and the row
    "AVERAGE". *)
Theorem default_labels_never_collide
    (data_list : list (gmap string pyobj)) (labels : option (list string)) :
  no_labels labels = true ->
  accepted labels 0 data_list <> [] ->
  Forall (fun m => finite_rates m = true) (accepted labels 0 data_list) ->
  exists t,
    snd (create_comparison_visualization data_list labels) = Return (Some t) /\
    size t = S (length (accepted labels 0 data_list)).
Proof.
  intros Hno Hne Hfin.
  pose proof (accepted_default_NoDup labels 0 data_list Hno) as Hnd.
  eexists. split; [apply (visualization_table _ _ Hne Hfin Hnd)|].
  set (acc := accepted labels 0 data_list) in *.
  assert (Hfst : ((fun m => (label m, metrics_row m)) <$> acc).*1 = map label acc)
    by (rewrite <- list_fmap_compose; reflexivity).
  rewrite map_size_insert_None.
  - unfold table_of. rewrite map_size_list_to_map by (rewrite Hfst; exact Hnd).
    rewrite length_fmap. reflexivity.
  - unfold table_of. apply not_elem_of_list_to_map_1. rewrite Hfst.
    intros Hin. apply list_elem_of_fmap in Hin as (m & Elabel & Hm).
    pose proof (accepted_labels labels 0 data_list) as Hall.
    rewrite Forall_forall in Hall. destruct (Hall m Hm) as (j & _ & Ej).
    rewrite Ej, label_of_no_labels in Elabel by exact Hno.
    exact (default_label_not_average _ (eq_sym Elabel)).
Qed.

Lemma default_labels_never_collide_witness :
  exists t,
    snd (create_comparison_visualization
           [measurement 80 70 60; unreadable_measurement; measurement 90 75 65] (Some []))
      = Return (Some t) /\
    size t = 3%nat.
Proof.
  apply (default_labels_never_collide
           [measurement 80 70 60; unreadable_measurement; measurement 90 75 65] (Some [])).
  - reflexivity.
  - vm_compute. discriminate.
  - repeat constructor.
Defined.
